(** * Tenant inventory report: field normalisation, partitioning and rendering

    A shallow embedding of the report pipelines of this repository:

    - [Nav]    the pipeline with the navigation sheet
               ("data parsing_with_navigation.py"),
    - [Opt]    the memory-optimised pipeline (temp.py),
    - [Legacy] the first, single-sheet version (data_parsing.py).

    Python text is a [string] whose characters are code points below 256;
    a Python value is a [pyval]; a call that can raise returns an
    [outcome].  The two decoders the pipelines call, [json.loads] and
    [ast.literal_eval], belong to the Python library and are taken as an
    interface ([Decoders]); every theorem holds for any behaviour of them. *)

From Stdlib Require Import String Ascii List ZArith Lia Bool Arith DecimalString.
From Stdlib Require Import Sorted OrderedTypeEx.
Import ListNotations.
Open Scope string_scope.
Open Scope list_scope.

(** ** Python text primitives *)

Module Py.

(** [str.isspace] on one character: TAB..CR, FS..US, space, NEL, NBSP. *)
Definition is_space (c : ascii) : bool :=
  let n := nat_of_ascii c in
  (((9 <=? n) && (n <=? 13)) || ((28 <=? n) && (n <=? 32))
   || (n =? 133) || (n =? 160))%nat.

(** [str.lower] on one character: A-Z and the accented capitals. *)
Definition lower_char (c : ascii) : ascii :=
  let n := nat_of_ascii c in
  if (((65 <=? n) && (n <=? 90))
      || ((192 <=? n) && (n <=? 222) && negb (n =? 215)))%nat
  then ascii_of_nat (n + 32) else c.

Fixpoint lower (s : string) : string :=
  match s with
  | EmptyString => EmptyString
  | String c s' => String (lower_char c) (lower s')
  end.

(** [sub in s] *)
Fixpoint contains (sub s : string) : bool :=
  prefix sub s ||
  match s with
  | EmptyString => false
  | String _ s' => contains sub s'
  end.

(** [c in s] for one character. *)
Fixpoint has_char (c : ascii) (s : string) : bool :=
  match s with
  | EmptyString => false
  | String d s' => Ascii.eqb c d || has_char c s'
  end.

(** [s.rsplit(' ', 1)]: one part when [s] has no space, otherwise the text
    before the last space and the text after it. *)
Fixpoint rsplit_space (s : string) : list string :=
  match s with
  | EmptyString => [EmptyString]
  | String c s' =>
      match rsplit_space s' with
      | [before; after] => [String c before; after]
      | _ => if Ascii.eqb c " " then [EmptyString; s'] else [s]
      end
  end.

Fixpoint lstrip (s : string) : string :=
  match s with
  | EmptyString => EmptyString
  | String c s' => if is_space c then lstrip s' else s
  end.

Fixpoint rstrip (s : string) : string :=
  match s with
  | EmptyString => EmptyString
  | String c s' =>
      match rstrip s' with
      | EmptyString => if is_space c then EmptyString else String c EmptyString
      | r => String c r
      end
  end.

(** [s.strip()] *)
Definition strip (s : string) : string := rstrip (lstrip s).

(** Whether [s] begins with a blank. *)
Definition starts_blank (s : string) : bool :=
  match s with
  | EmptyString => false
  | String c _ => is_space c
  end.

(** [s.split()]: the maximal runs of non-blank characters, in order. *)
Fixpoint split (s : string) : list string :=
  match s with
  | EmptyString => []
  | String c s' =>
      if is_space c then split s'
      else
        match s' with
        | EmptyString => [String c EmptyString]
        | String d _ =>
            if is_space d then String c EmptyString :: split s'
            else
              match split s' with
              | w :: ws => String c w :: ws
              | [] => [String c EmptyString]
              end
        end
  end.

(** [sep.join(parts)] *)
Definition join (sep : string) (parts : list string) : string :=
  String.concat sep parts.

(** The tail of a match of [\[.*?\]] once the opening bracket is read: the
    lazy [.*?] stops at the first closing bracket, and [.] does not match a
    line feed.  Returns the text after the match. *)
Fixpoint match_bracket_tail (s : string) : option string :=
  match s with
  | EmptyString => None
  | String c s' =>
      if Ascii.eqb c "]" then Some s'
      else if Ascii.eqb c "010" then None
      else match_bracket_tail s'
  end.

(** [re.sub(r'\[.*?\]', '', s)]: scan from the left, drop every match,
    keep every character at which no match starts. *)
Fixpoint sub_brackets_fuel (fuel : nat) (s : string) : string :=
  match fuel with
  | O => s
  | S fuel' =>
      match s with
      | EmptyString => EmptyString
      | String c s' =>
          if Ascii.eqb c "[" then
            match match_bracket_tail s' with
            | Some rest => sub_brackets_fuel fuel' rest
            | None => String c (sub_brackets_fuel fuel' s')
            end
          else String c (sub_brackets_fuel fuel' s')
      end
  end.

Definition sub_brackets (s : string) : string :=
  sub_brackets_fuel (String.length s) s.

(** [s.startswith(('{', '['))] *)
Definition startswith_brace_or_bracket (s : string) : bool :=
  match s with
  | String c _ => Ascii.eqb c "{" || Ascii.eqb c "["
  | EmptyString => false
  end.

(** [s[:n]] *)
Fixpoint take (n : nat) (s : string) : string :=
  match n, s with
  | S n', String c s' => String c (take n' s')
  | _, _ => EmptyString
  end.

(** [x or None] for a text [x] *)
Definition or_none (s : string) : option string :=
  match s with
  | EmptyString => None
  | _ => Some s
  end.

End Py.

(** ** Python values *)

Set Warnings "-register-all".

(** The values the pipelines meet: what a spreadsheet cell holds and what the
    decoders build.  [PNaN] is the float [nan] pandas puts in an empty cell;
    [POther] is any other object that pandas does not count as missing (a
    float, a timestamp, a tuple, ...), known by its [str()] text and its
    truth value.  A dictionary lists its entries in insertion order, with
    distinct keys. *)
Inductive pyval : Type :=
| PNone
| PNaN
| PBool (b : bool)
| PInt (z : Z)
| PStr (s : string)
| PList (items : list pyval)
| PDict (entries : list (pyval * pyval))
| POther (text : string) (truthy : bool).

Definition dict : Type := list (pyval * pyval).

(** A call either returns or raises. *)
Inductive exn : Type :=
| JSONDecodeError | ValueError | SyntaxError | RecursionError
| AttributeError | UnboundLocalError | TypeError | KeyError
| PlainException.

Inductive outcome (A : Type) : Type :=
| Returns (a : A)
| Raises (e : exn).
Arguments Returns {A} a.
Arguments Raises {A} e.

(** [json.loads] and [ast.literal_eval] on a text. *)
Class Decoders : Type := {
  json_loads : string -> outcome pyval;
  literal_eval : string -> outcome pyval
}.

Module Val.

Definition hex_digit (n : nat) : ascii :=
  ascii_of_nat (if (n <? 10)%nat then 48 + n else 87 + n).

(** One character of [repr(s)] written with the quote [q]. *)
Definition repr_char (q c : ascii) : string :=
  let n := nat_of_ascii c in
  if Ascii.eqb c q || Ascii.eqb c "\" then String "\" (String c EmptyString)
  else if (n =? 9)%nat then "\t"
  else if (n =? 10)%nat then "\n"
  else if (n =? 13)%nat then "\r"
  else if ((n <? 32) || (n =? 127)
           || ((128 <=? n) && (n <=? 160)) || (n =? 173))%nat
  then String "\" (String "x" (String (hex_digit (n / 16))
                              (String (hex_digit (n mod 16)) EmptyString)))
  else String c EmptyString.

Fixpoint repr_chars (q : ascii) (s : string) : string :=
  match s with
  | EmptyString => EmptyString
  | String c s' => (repr_char q c ++ repr_chars q s')%string
  end.

(** [repr(s)] for a text: double quotes only when [s] has a single quote and
    no double quote. *)
Definition repr_str (s : string) : string :=
  let q := if Py.has_char "'" s && negb (Py.has_char "034" s)
           then "034"%char else "'"%char in
  String q (repr_chars q s ++ String q EmptyString)%string.

Definition str_int (z : Z) : string := NilZero.string_of_int (Z.to_int z).

Fixpoint repr (v : pyval) : string :=
  match v with
  | PNone => "None"
  | PNaN => "nan"
  | PBool true => "True"
  | PBool false => "False"
  | PInt z => str_int z
  | PStr s => repr_str s
  | PList items => ("[" ++ Py.join ", " (map repr items) ++ "]")%string
  | PDict entries =>
      ("{" ++ Py.join ", "
                (map (fun kv => repr (fst kv) ++ ": " ++ repr (snd kv)) entries)
           ++ "}")%string
  | POther text _ => text
  end.

(** [str(v)] *)
Definition str (v : pyval) : string :=
  match v with
  | PStr s => s
  | _ => repr v
  end.

(** [bool(v)] *)
Definition truth (v : pyval) : bool :=
  match v with
  | PNone => false
  | PNaN => true
  | PBool b => b
  | PInt z => negb (Z.eqb z 0)
  | PStr s => negb (String.eqb s "")
  | PList items => match items with [] => false | _ => true end
  | PDict entries => match entries with [] => false | _ => true end
  | POther _ t => t
  end.

(** [pd.isna(v)] for a scalar or a dictionary.  (On a list pandas answers
    with an array, one flag per element, and the test of that array can
    raise; a list is never a cell of a loaded table, and the statements
    about every value of a cell leave it out.) *)
Definition isna (v : pyval) : bool :=
  match v with
  | PNone | PNaN => true
  | _ => false
  end.

(** [v == ''] *)
Definition eq_empty (v : pyval) : bool :=
  match v with
  | PStr EmptyString => true
  | _ => false
  end.

Definition is_str (v : pyval) : bool :=
  match v with PStr _ => true | _ => false end.
Definition is_dict (v : pyval) : bool :=
  match v with PDict _ => true | _ => false end.
Definition is_list (v : pyval) : bool :=
  match v with PList _ => true | _ => false end.

(** [d.get(key, default)] for a text key. *)
Fixpoint get (d : dict) (key : string) (default : pyval) : pyval :=
  match d with
  | [] => default
  | (PStr k, v) :: d' => if String.eqb k key then v else get d' key default
  | _ :: d' => get d' key default
  end.

(** [str(d.get(key, '')).strip() or None] *)
Definition field (d : dict) (key : string) : option string :=
  Py.or_none (Py.strip (str (get d key (PStr "")))).

(** [str(d.get(key, '')).strip()] *)
Definition field_text (d : dict) (key : string) : string :=
  Py.strip (str (get d key (PStr ""))).

End Val.

(** A parsed software item or vulnerability finding: a dictionary from the
    expected field names to a text or [None]. *)
Definition item : Type := list (string * option string).

Definition software_fields : list string := ["name"; "version"; "vendor"].

Definition vuln_fields : list string :=
  ["kasperskyID"; "productName"; "descriptionURL"; "recommendedMajorPatch";
   "recommendedMinorPatch"; "severityStr"; "severity"; "cve";
   "exploitExists"; "malwareExists"].

(** [any(x in text for x in ['name', 'version'])] *)
Definition has_marker (text : string) : bool :=
  existsb (fun x => Py.contains x text) ["name"; "version"].

(** [(parts[0], parts[1]) if len(parts) > 1 else (os_value, None)] *)
Definition name_and_version (os_value : string) (parts : list string)
  : option string * option string :=
  match parts with
  | p0 :: p1 :: _ => (Some p0, Some p1)
  | _ => (Some os_value, None)
  end.

(** The pair built from a decoded dictionary. *)
Definition dict_name_version (d : dict) : option string * option string :=
  (Val.field d "name", Val.field d "version").

(** The closing lines of [parse_os_data], shared by the two pipelines: a
    dictionary gives its two fields, anything else its text. *)
Definition os_of_value (v : pyval) : option string * option string :=
  match v with
  | PDict d => dict_name_version d
  | _ => (Some (Val.str v), None)
  end.

(** ** Tables *)

(** One row of the inventory table.  The device name is the join key: a text,
    or [None] for an empty cell. *)
Record device : Type := {
  fqdn : option string;
  tenantName : pyval;
  ipAddresses : pyval;
  macAddresses : pyval;
  os : pyval;
  software : pyval;
  vulnerabilities : pyval
}.

(** One row of the hardware table, restricted to its required columns. *)
Record hardware : Type := {
  hw_fqdn : option string;
  network_cards : pyval;
  cpu : pyval;
  ram : pyval;
  disk_space : pyval
}.

(** The four hardware columns of a merged row. *)
Record specs : Type := {
  s_network_cards : pyval;
  s_cpu : pyval;
  s_ram : pyval;
  s_disk_space : pyval
}.

Definition specs_of (h : hardware) : specs :=
  {| s_network_cards := network_cards h; s_cpu := cpu h;
     s_ram := ram h; s_disk_space := disk_space h |}.

Definition null_specs : specs :=
  {| s_network_cards := PNaN; s_cpu := PNaN;
     s_ram := PNaN; s_disk_space := PNaN |}.

Record merged_row : Type := {
  m_device : device;
  m_specs : specs
}.

(** A merged row after the tenant name is cleaned and the OS field parsed. *)
Record report_row : Type := {
  r_merged : merged_row;
  r_tenant : option string;
  r_os_parsed : option string;
  r_os_version : option string
}.

(** A table: the names of its columns and its rows. *)
Record frame (row : Type) : Type := {
  columns : list string;
  rows : list row
}.
Arguments columns {row} f.
Arguments rows {row} f.

Definition has_column {row : Type} (f : frame row) (name : string) : bool :=
  existsb (String.eqb name) (columns f).

(** The columns that [process_data] needs of the hardware table, and the
    ones of them that a hardware table lacks. *)
Definition required_columns : list string :=
  ["fqdn"; "Network Cards"; "CPU"; "RAM"; "Disk Space"].

Definition missing_columns (devices_report : frame hardware) : list string :=
  filter (fun col => negb (has_column devices_report col)) required_columns.

Module Pd.

Definition key_eqb (a b : option string) : bool :=
  match a, b with
  | Some x, Some y => String.eqb x y
  | None, None => true
  | _, _ => false
  end.

(** The rows of the right table whose key equals [k]. *)
Definition matching (k : option string) (right : list hardware)
  : list hardware :=
  filter (fun h => key_eqb k (hw_fqdn h)) right.

(** The merged rows of one left row: one per right row of the same key, or
    one with empty cells when there is none. *)
Definition joined (right : list hardware) (d : device) : list merged_row :=
  match matching (fqdn d) right with
  | [] => [{| m_device := d; m_specs := null_specs |}]
  | hs => map (fun h => {| m_device := d; m_specs := specs_of h |}) hs
  end.

(** [pd.merge(left, right, on='fqdn', how='left')]: the left rows in their
    order, each joined with the right rows of the same key. *)
Definition merge_left (left : list device) (right : list hardware)
  : list merged_row :=
  flat_map (joined right) left.

(** [Series.unique()]: the distinct values in order of first appearance. *)
Fixpoint unique (l : list (option string)) : list (option string) :=
  match l with
  | [] => []
  | x :: l' => x :: filter (fun y => negb (key_eqb x y)) (unique l')
  end.

(** Insertion of a key in a sorted list of distinct keys. *)
Fixpoint insert_key (k : string) (ks : list string) : list string :=
  match ks with
  | [] => [k]
  | k' :: ks' =>
      if String.eqb k k' then ks
      else if String.ltb k k' then k :: ks
      else k' :: insert_key k ks'
  end.

End Pd.

(** An absent value as a cell. *)
Definition cell_of (x : option string) : pyval :=
  match x with
  | Some s => PStr s
  | None => PNone
  end.

(** ** Worksheets *)

Record cell_range : Type := {
  start_row : nat;
  end_row : nat;
  start_column : nat;
  end_column : nat
}.

(** A worksheet: its title, its rows from row 1 down (each a list of cells
    from column 1 on) and its merged ranges.  Fonts, fills, widths and link
    targets are left out. *)
Record worksheet : Type := {
  title : string;
  cells : list (list pyval);
  merged_cells : list cell_range
}.

Definition workbook : Type := list worksheet.

(** The library's choice of a title that is not in use yet. *)
Class Titles : Type := {
  avoid_duplicate_name : list string -> string -> string
}.

Module Xl.

(** The characters a sheet title may not hold: \ * ? : / [ ] *)
Definition invalid_title (t : string) : bool :=
  existsb (fun c => Py.has_char c t)
          ["\"; "*"; "?"; ":"; "/"; "["; "]"]%char.

Definition sheetnames (wb : workbook) : list string := map title wb.

(** [Worksheet(parent=wb, title=name)]: the new, empty sheet. *)
Definition new_sheet `{Titles} (wb : workbook) (name : string)
  : outcome worksheet :=
  if invalid_title name then Raises ValueError
  else Returns {| title := avoid_duplicate_name (sheetnames wb) name;
                  cells := []; merged_cells := [] |}.

(** [ws.append(values)]: a new row under the last one. *)
Definition append (values : list pyval) (ws : worksheet) : worksheet :=
  {| title := title ws; cells := cells ws ++ [values];
     merged_cells := merged_cells ws |}.

Fixpoint set_nth {A : Type} (pad : A) (n : nat) (x : A) (l : list A) : list A :=
  match n, l with
  | O, [] => [x]
  | O, _ :: l' => x :: l'
  | S n', [] => pad :: set_nth pad n' x []
  | S n', y :: l' => y :: set_nth pad n' x l'
  end.

(** [ws.cell(row=r, column=c, value=v)], rows and columns counted from 1. *)
Definition set_cell (r c : nat) (v : pyval) (ws : worksheet) : worksheet :=
  let old := nth (r - 1) (cells ws) [] in
  {| title := title ws;
     cells := set_nth [] (r - 1) (set_nth PNone (c - 1) v old) (cells ws);
     merged_cells := merged_cells ws |}.

(** [ws.merge_cells(start_row=.., end_row=.., start_column=.., end_column=..)] *)
Definition merge_cells (r : cell_range) (ws : worksheet) : worksheet :=
  {| title := title ws; cells := cells ws;
     merged_cells := merged_cells ws ++ [r] |}.

End Xl.

(** The label of the link back to the navigation sheet and the title of that
    sheet (Russian texts in the source, given here in English). *)
Definition back_label : string := "<- Back to navigation".
Definition navigation_title : string := "NAVIGATION".
Definition navigation_heading : string := "REPORT NAVIGATION".
Definition go_label : string := "Go".

Definition add_back_to_navigation_link (ws : worksheet) : worksheet :=
  Xl.set_cell 1 1 (PStr back_label) ws.

(** ** Rendering state: the workbook being built and the messages printed *)

Record message : Type := {
  about_tenant : string;
  error : exn
}.

Record run : Type := {
  book : workbook;
  printed : list message
}.

(** A statement that works on the workbook and may raise. *)
Definition action (A : Type) : Type := workbook -> workbook * outcome A.

Definition ret {A : Type} (a : A) : action A := fun wb => (wb, Returns a).

Definition raise {A : Type} (e : exn) : action A := fun wb => (wb, Raises e).

Definition bind {A B : Type} (m : action A) (k : A -> action B) : action B :=
  fun wb =>
    match m wb with
    | (wb', Returns a) => k a wb'
    | (wb', Raises e) => (wb', Raises e)
    end.

Definition lift {A : Type} (o : outcome A) : action A := fun wb => (wb, o).

Notation "x <- m ;; k" := (bind m (fun x => k))
  (at level 61, m at next level, right associativity).
Notation "m ;;; k" := (bind m (fun _ => k))
  (at level 61, right associativity).

(** [wb.create_sheet(name)] *)
Definition create_sheet `{Titles} (name : string) : action worksheet :=
  fun wb => (wb, Xl.new_sheet wb name).

(** The sheet [ws], filled, as it stands in the workbook: at the end, or at
    the front for [wb.create_sheet(name, 0)]. *)
Definition commit (ws : worksheet) : action unit :=
  fun wb => (wb ++ [ws], Returns tt).

Definition commit_first (ws : worksheet) : action unit :=
  fun wb => (ws :: wb, Returns tt).

(** A statement that only adds sheets at the end of the workbook. *)
Definition only_adds {A : Type} (m : action A) : Prop :=
  forall wb : workbook, exists new : list worksheet, fst (m wb) = wb ++ new.

(** ** Grouped rows *)

(** A row of the table a grouped sheet is drawn from: the device name and
    one parsed item ([{}] for a device without items). *)
Record grouped_row : Type := {
  g_fqdn : option string;
  g_item : item
}.

(** [row.get(col)] on the fields of the item. *)
Fixpoint item_get (it : item) (col : string) : pyval :=
  match it with
  | [] => PNone
  | (k, v) :: it' => if String.eqb k col then cell_of v else item_get it' col
  end.

(** The keys of [df.groupby(['fqdn'])]: the device names present, sorted;
    rows without a device name belong to no group. *)
Fixpoint group_keys (df : list grouped_row) : list string :=
  match df with
  | [] => []
  | r :: df' =>
      match g_fqdn r with
      | Some k => Pd.insert_key k (group_keys df')
      | None => group_keys df'
      end
  end.

Definition group_of (df : list grouped_row) (k : string) : list grouped_row :=
  filter (fun r => Pd.key_eqb (g_fqdn r) (Some k)) df.

Definition groupby (df : list grouped_row) : list (string * list grouped_row) :=
  map (fun k => (k, group_of df k)) (group_keys df).

(** The rows written for one group: the first with the device name, the
    others with an empty first cell. *)
Definition group_lines (data_columns : list string) (group : list grouped_row)
  : list (list pyval) :=
  match group with
  | [] => []
  | first_row :: others =>
      (cell_of (g_fqdn first_row)
         :: map (item_get (g_item first_row)) data_columns)
      :: map (fun r => PNone :: map (item_get (g_item r)) data_columns) others
  end.

(** The loop over the groups of [create_merged_sheet]: the rows of each
    group are appended, the first column is merged over them when there is
    more than one, and [current_row] moves past them. *)
Fixpoint write_groups (data_columns : list string)
    (groups : list (string * list grouped_row))
    (current_row : nat) (ws : worksheet) : worksheet :=
  match groups with
  | [] => ws
  | (_, group) :: groups' =>
      let ws := fold_left (fun w line => Xl.append line w)
                          (group_lines data_columns group) ws in
      let ws :=
        if (1 <? List.length group)%nat then
          Xl.merge_cells {| start_row := current_row;
                            end_row := current_row + List.length group - 1;
                            start_column := 1; end_column := 1 |} ws
        else ws in
      write_groups data_columns groups' (current_row + List.length group) ws
  end.

(** Whether the table made from the rows has the column [col] of an item
    field: some row holds the field. *)
Definition table_has (df : list grouped_row) (col : string) : bool :=
  existsb (fun r => existsb (fun kv => String.eqb (fst kv) col) (g_item r))
          df.

(** The rows of the main sheet. *)
Definition main_columns : list string :=
  ["fqdn"; "ipAddresses"; "CPU"; "RAM"; "Disk Space";
   "Network Cards"; "macAddresses"; "os_parsed"; "os_version"].

Definition column_value (r : report_row) (col : string) : pyval :=
  let d := m_device (r_merged r) in
  let s := m_specs (r_merged r) in
  if String.eqb col "fqdn" then cell_of (fqdn d)
  else if String.eqb col "ipAddresses" then ipAddresses d
  else if String.eqb col "CPU" then s_cpu s
  else if String.eqb col "RAM" then s_ram s
  else if String.eqb col "Disk Space" then s_disk_space s
  else if String.eqb col "Network Cards" then s_network_cards s
  else if String.eqb col "macAddresses" then macAddresses d
  else if String.eqb col "os_parsed" then cell_of (r_os_parsed r)
  else if String.eqb col "os_version" then cell_of (r_os_version r)
  else PNone.

(** [dataframe_to_rows(main_data, index=False, header=True)] after the
    renaming of [os_parsed] to [os]. *)
Definition main_lines (data : frame report_row) : list (list pyval) :=
  let cols := filter (has_column data) main_columns in
  map (fun c => PStr (if String.eqb c "os_parsed" then "os" else c)) cols
  :: map (fun r => map (column_value r) cols) (rows data).

(** The unique tenant names that are not missing. *)
Definition tenants_of (data : list report_row) : list string :=
  flat_map (fun t => match t with Some s => [s] | None => [] end)
           (Pd.unique (map r_tenant data)).

(** [merged_data[merged_data['tenantName'] == tenant_name]] *)
Definition tenant_rows (data : frame report_row) (tenant_name : string)
  : frame report_row :=
  {| columns := columns data;
     rows := filter (fun r => Pd.key_eqb (r_tenant r) (Some tenant_name))
                    (rows data) |}.

(** [enumerate(l, start)] *)
Definition enumerate {A : Type} (l : list A) (start : nat) : list (nat * A) :=
  combine (seq start (List.length l)) l.

(** The rows [{'fqdn': row['fqdn'], **item}] of one device. *)
Definition rows_of_items (name : option string) (items : list item)
  : list grouped_row :=
  map (fun it => {| g_fqdn := name; g_item := it |}) items.

(** The columns of the merged table. *)
Definition merged_columns (inventory_columns : list string) : list string :=
  (inventory_columns ++ ["Network Cards"; "CPU"; "RAM"; "Disk Space"])
  ++ (if existsb (String.eqb "os") inventory_columns
      then ["os_parsed"; "os_version"] else []).

Definition sheet_types : list string := ["MAIN"; "SOFTWARE"; "VULNERABILITIES"].

(** ** The pipeline with the navigation sheet *)

Module Nav.

Definition clean_tenant_name (tenant_name : pyval) : option string :=
  if Val.isna tenant_name then None
  else
    let tenant_name := Val.str tenant_name in
    let tenant_name := Py.sub_brackets tenant_name in
    let tenant_name := Py.join " " (Py.split tenant_name) in
    Some (Py.strip tenant_name).

Definition parse_os_data `{Decoders} (os_value : pyval)
  : outcome (option string * option string) :=
  if Val.isna os_value || Val.eq_empty os_value then Returns (None, None)
  else
    match os_value with
    | PStr s =>
        if negb (has_marker (Py.lower s)) then
          Returns (name_and_version s (Py.rsplit_space s))
        else
          match json_loads s with
          | Returns v => Returns (os_of_value v)
          | Raises JSONDecodeError =>
              match literal_eval s with
              | Returns v => Returns (os_of_value v)
              | Raises _ => Returns (Some (Val.str os_value), None)
              end
          | Raises e => Raises e
          end
    | _ => Returns (os_of_value os_value)
    end.

(** The list a decoded value gives: one dictionary per element that is a
    dictionary, with the fields [fields]. *)
Definition items_of (fields : list string) (v : pyval) : list item :=
  match v with
  | PList l =>
      map (fun it =>
             match it with
             | PDict d => map (fun f => (f, Val.field d f)) fields
             | _ => []
             end)
          (filter Val.is_dict l)
  | _ => []
  end.

(** The body shared by [parse_software_data] and
    [parse_vulnerabilities_data], which differ in their field names only. *)
Definition parse_list_data `{Decoders} (fields : list string) (value : pyval)
  : outcome (list item) :=
  if Val.isna value || Val.eq_empty value then Returns []
  else
    match value with
    | PStr s =>
        match json_loads s with
        | Returns v => Returns (items_of fields v)
        | Raises JSONDecodeError =>
            match literal_eval s with
            | Returns v => Returns (items_of fields v)
            | Raises _ => Returns []
            end
        | Raises e => Raises e
        end
    | _ => Returns (items_of fields value)
    end.

Definition parse_software_data `{Decoders} (software_value : pyval)
  : outcome (list item) :=
  parse_list_data software_fields software_value.

Definition parse_vulnerabilities_data `{Decoders} (vuln_value : pyval)
  : outcome (list item) :=
  parse_list_data vuln_fields vuln_value.

(** The loop that flattens the items of the devices of a tenant:
    [for item in items or [{}]]. *)
Fixpoint item_rows (parse : pyval -> outcome (list item))
    (field_of : device -> pyval) (tenant_data : list report_row)
  : outcome (list grouped_row) :=
  match tenant_data with
  | [] => Returns []
  | row :: tenant_data' =>
      match parse (field_of (m_device (r_merged row))) with
      | Raises e => Raises e
      | Returns items =>
          match item_rows parse field_of tenant_data' with
          | Raises e => Raises e
          | Returns more =>
              Returns
                (rows_of_items (fqdn (m_device (r_merged row)))
                               (match items with [] => [[]] | _ => items end)
                 ++ more)
          end
      end
  end.

(** [create_merged_sheet(ws, df, ['fqdn'], data_columns)], as both callers
    use it: the headers go to row 2, under the link of row 1, and the groups
    follow from row 3.  Fonts and alignments are left out, and none of the
    statements kept here raises, so the [try] of the source has nothing to
    catch. *)
Definition create_merged_sheet (ws : worksheet) (df : list grouped_row)
    (data_columns : list string) : worksheet :=
  let start_row := 2 in
  let ws :=
    fold_left (fun w ch => Xl.set_cell start_row (fst ch) (PStr (snd ch)) w)
              (enumerate ("fqdn" :: data_columns) 1) ws in
  match df with
  | [] => ws
  | _ => write_groups data_columns (groupby df) (start_row + 1) ws
  end.

(** The statements under the [try] of [create_tenant_sheets]. *)
Definition tenant_sheets_body `{Decoders} `{Titles}
    (merged_data : frame report_row) (tenant_name : string) : action unit :=
  match clean_tenant_name (PStr tenant_name) with
  | None => raise TypeError
  | Some clean_name =>
      let prefix := Py.take 25 clean_name in
      let tenant_data := tenant_rows merged_data tenant_name in
      ws_main <- create_sheet (prefix ++ "_MAIN") ;;
      commit (fold_left (fun w line => Xl.append line w)
                        (main_lines tenant_data)
                        (add_back_to_navigation_link ws_main)) ;;;
      (if has_column tenant_data "software" then
         software_rows <- lift (item_rows parse_software_data software
                                          (rows tenant_data)) ;;
         match software_rows with
         | [] => ret tt
         | _ =>
             ws_software <- create_sheet (prefix ++ "_SOFTWARE") ;;
             commit (create_merged_sheet
                       (add_back_to_navigation_link ws_software)
                       software_rows software_fields)
         end
       else ret tt) ;;;
      (if has_column tenant_data "vulnerabilities" then
         vuln_rows <- lift (item_rows parse_vulnerabilities_data
                                      vulnerabilities (rows tenant_data)) ;;
         match vuln_rows with
         | [] => ret tt
         | _ =>
             ws_vuln <- create_sheet (prefix ++ "_VULNERABILITIES") ;;
             commit (create_merged_sheet
                       (add_back_to_navigation_link ws_vuln)
                       vuln_rows vuln_fields)
         end
       else ret tt)
  end.

(** [create_tenant_sheets]: whatever the body raises is printed with the
    name of the tenant, and the call returns. *)
Definition create_tenant_sheets `{Decoders} `{Titles} (st : run)
    (merged_data : frame report_row) (tenant_name : string) : run :=
  match tenant_sheets_body merged_data tenant_name (book st) with
  | (wb, Returns _) => {| book := wb; printed := printed st |}
  | (wb, Raises e) =>
      {| book := wb;
         printed := printed st
                    ++ [{| about_tenant := tenant_name; error := e |}] |}
  end.

(** The loop over the tenants of [process_data]. *)
Definition render_tenants `{Decoders} `{Titles} (st : run)
    (merged_data : frame report_row) (tenants : list string) : run :=
  fold_left (fun s tenant => create_tenant_sheets s merged_data tenant)
            tenants st.

(** One data row of the navigation sheet: the clean name and one link per
    sheet of the tenant that exists. *)
Definition navigation_line (names : list string) (tenant : string)
  : outcome (list pyval) :=
  match clean_tenant_name (PStr tenant) with
  | None => Raises TypeError
  | Some clean_name =>
      let prefix := Py.take 25 clean_name in
      Returns
        (PStr clean_name
         :: map (fun sheet_type =>
                   if existsb (String.eqb (prefix ++ "_" ++ sheet_type)) names
                   then PStr go_label else PNone)
                sheet_types)
  end.

Fixpoint navigation_lines (names : list string) (tenants : list string)
  : outcome (list (list pyval)) :=
  match tenants with
  | [] => Returns []
  | tenant :: tenants' =>
      match navigation_line names tenant with
      | Raises e => Raises e
      | Returns line =>
          match navigation_lines names tenants' with
          | Raises e => Raises e
          | Returns lines => Returns (line :: lines)
          end
      end
  end.

Definition create_navigation_sheet `{Titles} (tenants : list string)
  : action unit :=
  ws_nav <- create_sheet navigation_title ;;
  names <- (fun wb => (wb, Returns (title ws_nav :: Xl.sheetnames wb))) ;;
  lines <- lift (navigation_lines names tenants) ;;
  commit_first
    {| title := title ws_nav;
       cells := [PStr navigation_heading]
                :: map PStr ["Tenant Name"; "Main Data"; "Software";
                             "Vulnerabilities"]
                :: lines;
       merged_cells := [] |}.

(** The cleaning of the tenant column and the parsing of the OS column. *)
Fixpoint normalise `{Decoders} (with_os : bool) (merged : list merged_row)
  : outcome (list report_row) :=
  match merged with
  | [] => Returns []
  | m :: merged' =>
      match (if with_os then parse_os_data (os (m_device m))
             else Returns (None, None)) with
      | Raises e => Raises e
      | Returns (os_parsed, os_version) =>
          match normalise with_os merged' with
          | Raises e => Raises e
          | Returns more =>
              Returns ({| r_merged := m;
                          r_tenant := clean_tenant_name
                                        (tenantName (m_device m));
                          r_os_parsed := os_parsed;
                          r_os_version := os_version |} :: more)
          end
      end
  end.

(** [process_data], from the two loaded tables to the workbook saved.  A
    hardware table that lacks a required column is refused with an
    exception of the function's own; the merge raises a [KeyError] on an
    inventory without device-name column; the columns [os_parsed] and
    [os_version] are assigned from the table of the parsed pairs, which has
    no column when it is made from no pair, and the assignment raises
    then.  Whatever is raised is printed and raised again. *)
Definition process_data `{Decoders} `{Titles} (all_data : frame device)
    (devices_report : frame hardware) : outcome run :=
  match missing_columns devices_report with
  | _ :: _ => Raises PlainException
  | [] =>
      if negb (has_column all_data "fqdn") then Raises KeyError
      else
        let merged := Pd.merge_left (rows all_data) (rows devices_report) in
        match normalise (has_column all_data "os") merged with
        | Raises e => Raises e
        | Returns data =>
            if has_column all_data "os" && (List.length merged =? 0)%nat
            then Raises ValueError
            else if negb (has_column all_data "tenantName")
            then Raises PlainException
            else
              let merged_data :=
                {| columns := merged_columns (columns all_data);
                   rows := data |} in
              let tenants := tenants_of data in
              let st := render_tenants {| book := []; printed := [] |}
                                       merged_data tenants in
              match create_navigation_sheet tenants (book st) with
              | (wb, Returns _) =>
                  Returns {| book := wb; printed := printed st |}
              | (_, Raises e) => Raises e
              end
        end
  end.

End Nav.

(** ** The memory-optimised pipeline *)

Module Opt.

Definition clean_tenant_name (tenant_name : pyval) : option string :=
  if Val.isna tenant_name then None
  else
    let tenant_name :=
      if negb (Val.is_str tenant_name) then PStr (Val.str tenant_name)
      else tenant_name in
    Some (Py.strip (Py.sub_brackets (Val.str tenant_name))).

Definition parse_os_data `{Decoders} (os_value : pyval)
  : outcome (option string * option string) :=
  if Val.isna os_value || negb (Val.truth os_value) then Returns (None, None)
  else
    match os_value with
    | PStr s =>
        if negb (Py.contains "name" (Py.lower s))
           && negb (Py.contains "version" (Py.lower s)) then
          Returns (name_and_version s (Py.rsplit_space s))
        else
          match (if Py.startswith_brace_or_bracket s
                 then json_loads s else literal_eval s) with
          | Returns (PDict os_dict) => Returns (dict_name_version os_dict)
          | Returns _ => Returns (os_of_value os_value)
          | Raises _ => Returns (Some (Val.str os_value), None)
          end
    | _ => Returns (os_of_value os_value)
    end.

Definition items_of (fields : list string) (data : pyval) : list item :=
  match data with
  | PList l =>
      map (fun it =>
             match it with
             | PDict d => map (fun field => (field, Val.field d field)) fields
             | _ => []
             end)
          (filter Val.is_dict l)
  | _ => []
  end.

Definition parse_json_data `{Decoders} (value : pyval) (fields : list string)
  : outcome (list item) :=
  if Val.isna value || negb (Val.truth value) then Returns []
  else
    match value with
    | PStr s =>
        match json_loads s with
        | Returns data => Returns (items_of fields data)
        | Raises JSONDecodeError =>
            match literal_eval s with
            | Returns data => Returns (items_of fields data)
            | Raises _ => Returns []
            end
        | Raises _ => Returns []
        end
    | _ => Returns (items_of fields value)
    end.

(** The loop that flattens the items of the devices of a tenant. *)
Fixpoint item_rows `{Decoders} (fields : list string)
    (field_of : device -> pyval) (tenant_data : list report_row)
  : outcome (list grouped_row) :=
  match tenant_data with
  | [] => Returns []
  | row :: tenant_data' =>
      match parse_json_data (field_of (m_device (r_merged row))) fields with
      | Raises e => Raises e
      | Returns items =>
          match item_rows fields field_of tenant_data' with
          | Raises e => Raises e
          | Returns more =>
              Returns (rows_of_items (fqdn (m_device (r_merged row))) items
                       ++ more)
          end
      end
  end.

(** [row[col]] for a column that the table has: the field of the item, NaN
    for a row that lacks it. *)
Fixpoint row_index (it : item) (col : string) : pyval :=
  match it with
  | [] => PNaN
  | (k, v) :: it' => if String.eqb k col then cell_of v else row_index it' col
  end.

(** The rows written for one group: the first with the device name, the
    others with an empty first cell. *)
Definition group_lines (data_columns : list string) (group : list grouped_row)
  : list (list pyval) :=
  match group with
  | [] => []
  | first_row :: others =>
      (cell_of (g_fqdn first_row)
         :: map (row_index (g_item first_row)) data_columns)
      :: map (fun r => PNone :: map (row_index (g_item r)) data_columns)
             others
  end.

(** The loop over the groups: the rows of each group are appended, the
    first column is merged over the rows that [current_row] counts when
    there is more than one, and [current_row] moves on. *)
Fixpoint write_groups (data_columns : list string)
    (groups : list (string * list grouped_row))
    (current_row : nat) (ws : worksheet) : worksheet :=
  match groups with
  | [] => ws
  | (_, group) :: groups' =>
      let ws := fold_left (fun w line => Xl.append line w)
                          (group_lines data_columns group) ws in
      let ws :=
        if (1 <? List.length group)%nat then
          Xl.merge_cells {| start_row := current_row;
                            end_row := current_row + List.length group - 1;
                            start_column := 1; end_column := 1 |} ws
        else ws in
      write_groups data_columns groups' (current_row + List.length group) ws
  end.

(** [create_merged_sheet(ws, df, ['fqdn'], data_columns)], as both callers
    use it: the headers are appended under what the sheet holds already,
    and [current_row] starts at 2.  The rows are indexed by the column
    names: on a table that lacks a data column the first row of the first
    group raises a [KeyError] before anything is appended, which the
    [except] of the function catches and prints, and the sheet is left with
    its headers.  The message printed, fonts and alignments are left
    out. *)
Definition create_merged_sheet (ws : worksheet) (df : list grouped_row)
    (data_columns : list string) : worksheet :=
  let ws := Xl.append (map PStr ("fqdn" :: data_columns)) ws in
  match df with
  | [] => ws
  | _ =>
      match groupby df with
      | [] => ws
      | groups =>
          if forallb (table_has df) data_columns
          then write_groups data_columns groups 2 ws
          else ws
      end
  end.

(** The statements under the [try] of [create_tenant_sheets]. *)
Definition tenant_sheets_body `{Decoders} `{Titles}
    (merged_data : frame report_row) (tenant_name : string) : action unit :=
  match clean_tenant_name (PStr tenant_name) with
  | None => raise TypeError
  | Some clean_name =>
      let prefix := Py.take 25 clean_name in
      let tenant_data := tenant_rows merged_data tenant_name in
      ws_main <- create_sheet (prefix ++ "_MAIN") ;;
      commit (fold_left (fun w line => Xl.append line w)
                        (main_lines tenant_data)
                        (add_back_to_navigation_link ws_main)) ;;;
      (if has_column tenant_data "software" then
         software_rows <- lift (item_rows software_fields software
                                          (rows tenant_data)) ;;
         match software_rows with
         | [] => ret tt
         | _ =>
             ws_software <- create_sheet (prefix ++ "_SOFTWARE") ;;
             commit (create_merged_sheet
                       (add_back_to_navigation_link ws_software)
                       software_rows software_fields)
         end
       else ret tt) ;;;
      (if has_column tenant_data "vulnerabilities" then
         vuln_rows <- lift (item_rows vuln_fields vulnerabilities
                                      (rows tenant_data)) ;;
         match vuln_rows with
         | [] => ret tt
         | _ =>
             ws_vuln <- create_sheet (prefix ++ "_VULNERABILITIES") ;;
             commit (create_merged_sheet
                       (add_back_to_navigation_link ws_vuln)
                       vuln_rows vuln_fields)
         end
       else ret tt)
  end.

Definition create_tenant_sheets `{Decoders} `{Titles} (st : run)
    (merged_data : frame report_row) (tenant_name : string) : run :=
  match tenant_sheets_body merged_data tenant_name (book st) with
  | (wb, Returns _) => {| book := wb; printed := printed st |}
  | (wb, Raises e) =>
      {| book := wb;
         printed := printed st
                    ++ [{| about_tenant := tenant_name; error := e |}] |}
  end.

Definition render_tenants `{Decoders} `{Titles} (st : run)
    (merged_data : frame report_row) (tenants : list string) : run :=
  fold_left (fun s tenant => create_tenant_sheets s merged_data tenant)
            tenants st.

(** One data row of the navigation sheet. *)
Definition navigation_line (names : list string) (tenant : string)
  : outcome (list pyval) :=
  match clean_tenant_name (PStr tenant) with
  | None => Raises TypeError
  | Some clean_name =>
      let prefix := Py.take 25 clean_name in
      Returns
        (PStr clean_name
         :: map (fun sheet_type =>
                   if existsb (String.eqb (prefix ++ "_" ++ sheet_type)) names
                   then PStr go_label else PNone)
                sheet_types)
  end.

Fixpoint navigation_lines (names : list string) (tenants : list string)
  : outcome (list (list pyval)) :=
  match tenants with
  | [] => Returns []
  | tenant :: tenants' =>
      match navigation_line names tenant with
      | Raises e => Raises e
      | Returns line =>
          match navigation_lines names tenants' with
          | Raises e => Raises e
          | Returns lines => Returns (line :: lines)
          end
      end
  end.

Definition create_navigation_sheet `{Titles} (tenants : list string)
  : action unit :=
  ws_nav <- create_sheet navigation_title ;;
  names <- (fun wb => (wb, Returns (title ws_nav :: Xl.sheetnames wb))) ;;
  lines <- lift (navigation_lines names tenants) ;;
  commit_first
    {| title := title ws_nav;
       cells := [PStr navigation_heading]
                :: map PStr ["Tenant Name"; "Main Data"; "Software";
                             "Vulnerabilities"]
                :: lines;
       merged_cells := [] |}.

(** The cleaning of the tenant column and the parsing of the OS column. *)
Fixpoint normalise `{Decoders} (with_os : bool) (merged : list merged_row)
  : outcome (list report_row) :=
  match merged with
  | [] => Returns []
  | m :: merged' =>
      match (if with_os then parse_os_data (os (m_device m))
             else Returns (None, None)) with
      | Raises e => Raises e
      | Returns (os_parsed, os_version) =>
          match normalise with_os merged' with
          | Raises e => Raises e
          | Returns more =>
              Returns ({| r_merged := m;
                          r_tenant := clean_tenant_name
                                        (tenantName (m_device m));
                          r_os_parsed := os_parsed;
                          r_os_version := os_version |} :: more)
          end
      end
  end.

(** [process_data], from the two loaded tables to the workbook saved.  The
    hardware table is read with [usecols], which raises a [ValueError] for
    a column that the file lacks; the merge raises a [KeyError] on an
    inventory without device-name column; the columns [os_parsed] and
    [os_version] are assigned from the table of the parsed pairs, which has
    no column when it is made from no pair, and the assignment raises
    then.  Whatever is raised is printed and raised again. *)
Definition process_data `{Decoders} `{Titles} (all_data : frame device)
    (devices_report : frame hardware) : outcome run :=
  match missing_columns devices_report with
  | _ :: _ => Raises ValueError
  | [] =>
      if negb (has_column all_data "fqdn") then Raises KeyError
      else
        let merged := Pd.merge_left (rows all_data) (rows devices_report) in
        match normalise (has_column all_data "os") merged with
        | Raises e => Raises e
        | Returns data =>
            if has_column all_data "os" && (List.length merged =? 0)%nat
            then Raises ValueError
            else if negb (has_column all_data "tenantName")
            then Raises PlainException
            else
              let merged_data :=
                {| columns := merged_columns (columns all_data);
                   rows := data |} in
              let tenants := tenants_of data in
              let st := render_tenants {| book := []; printed := [] |}
                                       merged_data tenants in
              match create_navigation_sheet tenants (book st) with
              | (wb, Returns _) =>
                  Returns {| book := wb; printed := printed st |}
              | (_, Raises e) => Raises e
              end
        end
  end.

End Opt.

(** ** The first version *)

Module Legacy.

Definition software_item (d : dict) : item :=
  [("software", Some (Val.field_text d "name"));
   ("version", Some (Val.field_text d "version"));
   ("vendor", Some (Val.field_text d "vendor"))].

(** The list comprehension
    [[{...} for item in software_list if any(item.values())]]: the elements
    are visited in order, and one without [values] or [get] raises. *)
Fixpoint comprehension (build : dict -> item) (l : list pyval)
  : outcome (list item) :=
  match l with
  | [] => Returns []
  | PDict d :: l' =>
      match comprehension build l' with
      | Raises e => Raises e
      | Returns more =>
          Returns (if existsb (fun kv => Val.truth (snd kv)) d
                   then build d :: more else more)
      end
  | _ :: _ => Raises AttributeError
  end.

(** The statements under the outer [try] of [parse_software_data]; a value
    that is not a text leaves [software_list] unbound. *)
Definition software_body `{Decoders} (software_value : pyval)
  : outcome (list item) :=
  match software_value with
  | PStr s =>
      match json_loads s with
      | Returns (PList l) => comprehension software_item l
      | Returns _ => Returns []
      | Raises JSONDecodeError =>
          match literal_eval s with
          | Returns (PList l) => comprehension software_item l
          | Returns _ => Returns []
          | Raises _ => Returns []
          end
      | Raises e => Raises e
      end
  | _ => Raises UnboundLocalError
  end.

Definition parse_software_data `{Decoders} (software_value : pyval)
  : outcome (list item) :=
  if Val.isna software_value then Returns []
  else
    match software_body software_value with
    | Returns r => Returns r
    | Raises _ => Returns []
    end.

Definition vulnerability_item (d : dict) : item :=
  map (fun f => (f, Some (Val.field_text d f))) vuln_fields.

(** The statements under the outer [try] of [parse_vulnerabilities_data]. *)
Definition vulnerabilities_body `{Decoders} (vuln_value : pyval)
  : outcome (list item) :=
  match vuln_value with
  | PStr s =>
      match json_loads s with
      | Returns (PList l) => comprehension vulnerability_item l
      | Returns _ => Returns []
      | Raises JSONDecodeError =>
          match literal_eval s with
          | Returns (PList l) => comprehension vulnerability_item l
          | Returns _ => Returns []
          | Raises _ => Returns []
          end
      | Raises e => Raises e
      end
  | _ => Raises UnboundLocalError
  end.

Definition parse_vulnerabilities_data `{Decoders} (vuln_value : pyval)
  : outcome (list item) :=
  if Val.isna vuln_value then Returns []
  else
    match vulnerabilities_body vuln_value with
    | Returns r => Returns r
    | Raises _ => Returns []
    end.

(** [os_dict.get(...)]: a value that is not a dictionary has no [get]. *)
Definition get_name_version (os_dict : pyval)
  : outcome (option string * option string) :=
  match os_dict with
  | PDict d => Returns (dict_name_version d)
  | _ => Raises AttributeError
  end.

(** The statements under the [try] of [parse_os_data]; the markers are
    looked for in the text as it is written. *)
Definition os_body `{Decoders} (os_value : pyval)
  : outcome (option string * option string) :=
  match os_value with
  | PStr s =>
      if negb (has_marker s) then
        Returns (name_and_version s (Py.rsplit_space s))
      else
        match json_loads s with
        | Returns os_dict => get_name_version os_dict
        | Raises JSONDecodeError =>
            match literal_eval s with
            | Returns os_dict => get_name_version os_dict
            | Raises e => Raises e
            end
        | Raises e => Raises e
        end
  | _ => get_name_version os_value
  end.

Definition parse_os_data `{Decoders} (os_value : pyval)
  : outcome (option string * option string) :=
  if Val.isna os_value then Returns (None, None)
  else
    match os_body os_value with
    | Returns r => Returns r
    | Raises _ => Returns (Some (Val.str os_value), None)
    end.

(** *** The report of the first version: one workbook of three sheets *)

(** A merged row with the columns [os_parsed] and [os_version]. *)
Record parsed_row : Type := {
  p_merged : merged_row;
  p_os_parsed : option string;
  p_os_version : option string
}.

(** [merged_data['os'].apply(parse_os_data)] *)
Fixpoint parse_os_column `{Decoders} (merged : list merged_row)
  : outcome (list parsed_row) :=
  match merged with
  | [] => Returns []
  | m :: merged' =>
      match parse_os_data (os (m_device m)) with
      | Raises e => Raises e
      | Returns (os_parsed, os_version) =>
          match parse_os_column merged' with
          | Raises e => Raises e
          | Returns more =>
              Returns ({| p_merged := m; p_os_parsed := os_parsed;
                          p_os_version := os_version |} :: more)
          end
      end
  end.

Definition main_columns : list string :=
  ["tenantName"; "fqdn"; "ipAddresses"; "CPU"; "RAM"; "Disk Space";
   "Network Cards"; "macAddresses"; "os_parsed"; "os_version"].

(** A row of the main sheet; the cell of a device without name is NaN, as
    the inventory table has it. *)
Definition main_line (r : parsed_row) : list pyval :=
  let d := m_device (p_merged r) in
  let s := m_specs (p_merged r) in
  [tenantName d;
   match fqdn d with Some name => PStr name | None => PNaN end;
   ipAddresses d; s_cpu s; s_ram s;
   s_disk_space s; s_network_cards s; macAddresses d;
   cell_of (p_os_parsed r); cell_of (p_os_version r)].

(** [dataframe_to_rows(main_sheet, index=False, header=True)] after the
    renaming of [os_parsed] to [os]. *)
Definition main_lines (data : list parsed_row) : list (list pyval) :=
  map (fun c => PStr (if String.eqb c "os_parsed" then "os" else c))
      main_columns
  :: map main_line data.

(** [merged_data[names]]: every name has to be a column. *)
Definition has_all (columns names : list string) : bool :=
  forallb (fun c => existsb (String.eqb c) columns) names.

(** A row of the table of the software or of the vulnerabilities sheet:
    the tenant name, the device name and the fields kept of one item. *)
Record sheet_row : Type := {
  l_tenant : pyval;
  l_row : grouped_row
}.

(** [{k: v for k, v in item.items() if v}] *)
Definition kept_fields (it : item) : item :=
  filter (fun kv => match snd kv with
                    | Some v => negb (String.eqb v "")
                    | None => false
                    end) it.

(** The rows [{'tenantName': ..., 'fqdn': ..., **{...}}], one per item of
    each merged row, and one without item field for a row without item.
    The items have the field names of the parsers, none of which is the
    name of one of the two first columns. *)
Fixpoint item_rows (parse : pyval -> outcome (list item))
    (field_of : device -> pyval) (data : list parsed_row)
  : outcome (list sheet_row) :=
  match data with
  | [] => Returns []
  | row :: data' =>
      let d := m_device (p_merged row) in
      match parse (field_of d) with
      | Raises e => Raises e
      | Returns items =>
          match item_rows parse field_of data' with
          | Raises e => Raises e
          | Returns more =>
              Returns
                (map (fun it =>
                        {| l_tenant := tenantName d;
                           l_row := {| g_fqdn := fqdn d;
                                       g_item := kept_fields it |} |})
                     (match items with [] => [[]] | _ => items end)
                 ++ more)
          end
      end
  end.

(** Whether the table made from the rows has the column [col] of an item
    field: some row holds it. *)
Definition has_key (df : list sheet_row) (col : string) : bool :=
  existsb (fun r => existsb (fun kv => String.eqb (fst kv) col)
                            (g_item (l_row r))) df.

Fixpoint field_or (it : item) (col : string) (missing : pyval) : pyval :=
  match it with
  | [] => missing
  | (k, v) :: it' =>
      if String.eqb k col then cell_of v else field_or it' col missing
  end.

(** [row.get(col)] for an item field: the value of the row, NaN where the
    row lacks a column that the table has, [None] for a column that the
    table lacks. *)
Definition row_get (df : list sheet_row) (r : sheet_row) (col : string)
  : pyval :=
  field_or (g_item (l_row r)) col (if has_key df col then PNaN else PNone).

(** [df.groupby('fqdn')] *)
Definition group_of (df : list sheet_row) (k : string) : list sheet_row :=
  filter (fun r => Pd.key_eqb (g_fqdn (l_row r)) (Some k)) df.

Definition groupby (df : list sheet_row) : list (string * list sheet_row) :=
  map (fun k => (k, group_of df k)) (group_keys (map l_row df)).

(** The rows written for one group: the first with the tenant name and the
    device name, the others with two empty cells. *)
Definition group_lines (df : list sheet_row) (data_columns : list string)
    (group : list sheet_row) : list (list pyval) :=
  match group with
  | [] => []
  | first_row :: others =>
      (l_tenant first_row :: cell_of (g_fqdn (l_row first_row))
         :: map (row_get df first_row) data_columns)
      :: map (fun r => PNone :: PNone :: map (row_get df r) data_columns)
             others
  end.

(** The loop over the groups: the rows of each group are appended, the two
    first columns are merged over them when there is more than one, and
    [current_row] moves past them. *)
Fixpoint write_groups (df : list sheet_row) (data_columns : list string)
    (groups : list (string * list sheet_row))
    (current_row : nat) (ws : worksheet) : worksheet :=
  match groups with
  | [] => ws
  | (_, group) :: groups' =>
      let ws := fold_left (fun w line => Xl.append line w)
                          (group_lines df data_columns group) ws in
      let ws :=
        if (1 <? List.length group)%nat then
          Xl.merge_cells
            {| start_row := current_row;
               end_row := current_row + List.length group - 1;
               start_column := 2; end_column := 2 |}
            (Xl.merge_cells
               {| start_row := current_row;
                  end_row := current_row + List.length group - 1;
                  start_column := 1; end_column := 1 |} ws)
        else ws in
      write_groups df data_columns groups' (current_row + List.length group)
                   ws
  end.

(** A sheet with its header row and its groups.  The table made from no
    row has no column, and grouping it by device name raises a
    [KeyError]. *)
Definition grouped_sheet (ws : worksheet) (headers data_columns : list string)
    (df : list sheet_row) : option worksheet :=
  let ws := Xl.append (map PStr headers) ws in
  match df with
  | [] => None
  | _ => Some (write_groups df data_columns (groupby df) 2 ws)
  end.

Definition software_columns : list string := ["software"; "version"; "vendor"].

(** [process_data], from the two loaded tables to the workbook saved.  The
    selection of the five columns of the hardware table raises a
    [KeyError] when one is missing, and so does the merge on an inventory
    without device-name column; the columns [os_parsed] and [os_version]
    are assigned from the table of the parsed pairs, which has no column
    when it is made from no pair, and the assignment raises then; the
    selections of columns of the merged table raise a [KeyError] for a
    missing column.  Alignments are left out. *)
Definition process_data `{Decoders} `{Titles} (all_data : frame device)
    (devices_report : frame hardware) : outcome workbook :=
  match missing_columns devices_report with
  | _ :: _ => Raises KeyError
  | [] =>
  if negb (has_column all_data "fqdn") then Raises KeyError
  else
    let merged := Pd.merge_left (rows all_data) (rows devices_report) in
    let columns := merged_columns (columns all_data) in
    match (if has_column all_data "os" then
             match parse_os_column merged with
             | Raises e => Raises e
             | Returns data =>
                 if (List.length merged =? 0)%nat then Raises ValueError
                 else Returns data
             end
           else
             Returns (map (fun m => {| p_merged := m; p_os_parsed := None;
                                       p_os_version := None |}) merged))
    with
    | Raises e => Raises e
    | Returns data =>
        if negb (has_all columns main_columns) then Raises KeyError
        else if negb (has_all columns ["tenantName"; "fqdn"; "software"])
        then Raises KeyError
        else
          match item_rows parse_software_data software data with
          | Raises e => Raises e
          | Returns software_sheet =>
              if negb (has_all columns
                               ["tenantName"; "fqdn"; "vulnerabilities"])
              then Raises KeyError
              else
                match item_rows parse_vulnerabilities_data vulnerabilities
                                data with
                | Raises e => Raises e
                | Returns vuln_sheet =>
                    match Xl.new_sheet [] "main" with
                    | Raises e => Raises e
                    | Returns ws_main =>
                        let ws_main :=
                          fold_left (fun w line => Xl.append line w)
                                    (main_lines data) ws_main in
                        match Xl.new_sheet [ws_main] "software" with
                        | Raises e => Raises e
                        | Returns ws_software =>
                            match grouped_sheet
                                    ws_software
                                    ("tenantName" :: "fqdn"
                                       :: software_columns)
                                    software_columns software_sheet with
                            | None => Raises KeyError
                            | Some ws_software =>
                                match Xl.new_sheet [ws_main; ws_software]
                                                   "vulnerabilities" with
                                | Raises e => Raises e
                                | Returns ws_vuln =>
                                    match grouped_sheet
                                            ws_vuln
                                            ("tenantName" :: "fqdn"
                                               :: vuln_fields)
                                            vuln_fields vuln_sheet with
                                    | None => Raises KeyError
                                    | Some ws_vuln =>
                                        Returns
                                          [ws_main; ws_software; ws_vuln]
                                    end
                                end
                            end
                        end
                    end
                end
          end
    end
  end.

End Legacy.

(** ** The export of the collected JSON files (parsed.py) *)

Module Parsed.

(** [s.replace(c, '')] for one character [c]. *)
Fixpoint remove_char (c : ascii) (s : string) : string :=
  match s with
  | EmptyString => EmptyString
  | String d s' =>
      if Ascii.eqb d c then remove_char c s' else String d (remove_char c s')
  end.

Definition clean_field (value : pyval) : string :=
  match value with
  | PList items => Py.join ", " (map Val.str items)
  | _ => remove_char "'" (remove_char "]" (remove_char "[" (Val.str value)))
  end.

(** The characters of the raw text [r'[]:*?/\\'], the backslash twice. *)
Definition unwanted : string := "[]:*?/\\".

Fixpoint keep_wanted (s : string) : string :=
  match s with
  | EmptyString => EmptyString
  | String c s' =>
      if Py.has_char c unwanted then keep_wanted s'
      else String c (keep_wanted s')
  end.

(** The name of the sheet of a tenant:
    [str(tenant)[:31]], then without the unwanted characters. *)
Definition sheet_name (tenant : pyval) : string :=
  keep_wanted (Py.take 31 (Val.str tenant)).

End Parsed.

(** ** The claims in the words of the specification *)

Module Spec.

(** Every run of blanks replaced by one space. *)
Fixpoint collapse_blanks (s : string) : string :=
  match s with
  | EmptyString => EmptyString
  | String c s' =>
      if Py.is_space c then
        if Py.starts_blank s' then collapse_blanks s'
        else String " " (collapse_blanks s')
      else String c (collapse_blanks s')
  end.

(** The cleaned tenant name: bracketed spans removed, runs of blanks
    collapsed, both ends trimmed. *)
Definition cleaned_name (s : string) : string :=
  Py.strip (collapse_blanks (Py.sub_brackets s)).

(** A text whose blanks are single spaces. *)
Fixpoint single_spaced (s : string) : bool :=
  match s with
  | EmptyString => true
  | String c s' =>
      (negb (Py.is_space c)
       || (Ascii.eqb c " " && negb (Py.starts_blank s')))
      && single_spaced s'
  end.

(** The entry of a text key in a dictionary, if any. *)
Fixpoint lookup (d : dict) (key : string) : option pyval :=
  match d with
  | [] => None
  | (PStr k, v) :: d' => if String.eqb k key then Some v else lookup d' key
  | _ :: d' => lookup d' key
  end.

(** A sub-field as the reports show it: its text, trimmed; null when the
    sub-field is missing or the trimmed text is empty. *)
Definition subfield (d : dict) (key : string) : option string :=
  match lookup d key with
  | None => None
  | Some v =>
      let t := Py.strip (Val.str v) in
      if String.eqb t "" then None else Some t
  end.



(** The two decode stages: strict JSON, then the literal fallback once JSON
    decoding has failed. *)
Definition decodes_to `{Decoders} (s : string) (v : pyval) : Prop :=
  json_loads s = Returns v \/
  (json_loads s = Raises JSONDecodeError /\ literal_eval s = Returns v).


(** The inputs on which the two pipelines are stated to parse the OS field
    alike. *)
Inductive os_common `{Decoders} : pyval -> Prop :=
| common_missing (v : pyval) :
    Val.isna v = true -> os_common v
| common_empty :
    os_common (PStr EmptyString)
| common_plain (s : string) :
    has_marker (Py.lower s) = false -> os_common (PStr s)
| common_undecodable (s : string) (e : exn) :
    json_loads s = Raises JSONDecodeError -> literal_eval s = Raises e ->
    os_common (PStr s)
| common_json_mapping (s : string) (d : dict) :
    Py.startswith_brace_or_bracket s = true ->
    json_loads s = Returns (PDict d) -> os_common (PStr s)
| common_literal_mapping (s : string) (d : dict) :
    Py.startswith_brace_or_bracket s = false ->
    json_loads s = Raises JSONDecodeError ->
    literal_eval s = Returns (PDict d) -> os_common (PStr s)
| common_mapping (d : dict) :
    os_common (PDict d)
| common_true (v : pyval) :
    Val.isna v = false -> Val.is_str v = false -> Val.is_list v = false ->
    Val.truth v = true -> os_common v.

(** The number of rows the groups take on a sheet. *)
Definition total_rows (groups : list (string * list grouped_row)) : nat :=
  list_sum (map (fun kg => List.length (snd kg)) groups).

(** The range that spans the rows of a group written from row [first] on,
    in the first column. *)
Definition group_range (first : nat) (group : list grouped_row) : cell_range :=
  {| start_row := first; end_row := first + List.length group - 1;
     start_column := 1; end_column := 1 |}.

(** The ranges of the groups of more than one row, the first group being
    written from row [first] on. *)
Fixpoint group_ranges (groups : list (string * list grouped_row))
    (first : nat) : list cell_range :=
  match groups with
  | [] => []
  | (_, group) :: groups' =>
      (if (1 <? List.length group)%nat then [group_range first group] else [])
      ++ group_ranges groups' (first + List.length group)
  end.

(** The order of the keys of a grouping. *)
Definition key_lt (a b : string) : Prop := String.ltb a b = true.

(** The rows a device brings to a grouped sheet of the navigation
    pipeline: one per item, or one when it has none. *)
Definition rows_brought (parse : pyval -> outcome (list item))
    (field_of : device -> pyval) (k : string) (row : report_row) : nat :=
  if Pd.key_eqb (fqdn (m_device (r_merged row))) (Some k) then
    match parse (field_of (m_device (r_merged row))) with
    | Returns items => Nat.max 1 (List.length items)
    | Raises _ => 0
    end
  else 0.

(** No opening bracket of [s] begins a bracketed span: none is followed by
    a closing bracket on its line. *)
Fixpoint no_span (s : string) : bool :=
  match s with
  | EmptyString => true
  | String c s' =>
      (if Ascii.eqb c "[" then
         match Py.match_bracket_tail s' with
         | Some _ => false
         | None => true
         end
       else true)
      && no_span s'
  end.

(** A parsed item with the fields [fields], in that order, each null or a
    trimmed text that is not empty. *)
Definition well_formed_item (fields : list string) (it : item) : Prop :=
  map fst it = fields /\
  Forall (fun kv => match snd kv with
                    | None => True
                    | Some t => t <> EmptyString /\ Py.strip t = t
                    end) it.

(** The rows a device brings to a grouped sheet of the optimised
    pipeline: one per item. *)
Definition items_brought `{Decoders} (fields : list string)
    (field_of : device -> pyval) (k : string) (row : report_row) : nat :=
  if Pd.key_eqb (fqdn (m_device (r_merged row))) (Some k) then
    match Opt.parse_json_data (field_of (m_device (r_merged row))) fields with
    | Returns items => List.length items
    | Raises _ => 0
    end
  else 0.

(** A row of the grouped table with a device name. *)
Definition named (r : grouped_row) : bool :=
  match g_fqdn r with
  | Some _ => true
  | None => false
  end.

(** The rows [first] to [last] of a sheet. *)
Definition lines_between (ws : worksheet) (first last : nat)
  : list (list pyval) :=
  firstn (last + 1 - first) (skipn (first - 1) (cells ws)).

(** Cells that show the same: equal, or both empty.  The table a grouped
    sheet is drawn from gives NaN where a row lacks a field, and for a null
    field in a column that holds no text and a NaN, and an inventory has
    NaN for a device without name; the sheets here have an empty cell in
    these places. *)
Definition is_empty_cell (v : pyval) : bool :=
  match v with
  | PNone | PNaN => true
  | _ => false
  end.

Definition same_cell (a b : pyval) : Prop :=
  a = b \/ (is_empty_cell a = true /\ is_empty_cell b = true).

Definition same_lines (a b : list (list pyval)) : Prop :=
  Forall2 (Forall2 same_cell) a b.

(** A range moved one row up. *)
Definition one_row_up (r : cell_range) : cell_range :=
  {| start_row := start_row r - 1; end_row := end_row r - 1;
     start_column := start_column r; end_column := end_column r |}.

(** The columns of an inventory, and the names of the hardware columns and
    of the derived columns, which a plain inventory does not use for
    columns of its own. *)
Definition inventory_names : list string :=
  ["tenantName"; "fqdn"; "ipAddresses"; "macAddresses"; "os"; "software";
   "vulnerabilities"].

Definition reserved_names : list string :=
  ["Network Cards"; "CPU"; "RAM"; "Disk Space"; "os_parsed"; "os_version"].

Definition plain_inventory (all_data : frame device) : bool :=
  forallb (fun c => negb (has_column all_data c)) reserved_names.

Definition complete_inventory (all_data : frame device) : bool :=
  forallb (has_column all_data) inventory_names.

(** An inventory as [read_excel] loads it: no cell holds a list. *)
Definition scalar_cells (d : device) : bool :=
  negb (Val.is_list (tenantName d)) && negb (Val.is_list (ipAddresses d))
  && negb (Val.is_list (macAddresses d)) && negb (Val.is_list (os d))
  && negb (Val.is_list (software d))
  && negb (Val.is_list (vulnerabilities d)).

Definition loaded_inventory (all_data : frame device) : bool :=
  forallb scalar_cells (rows all_data).

(** The number of rows that groups take on a sheet. *)
Definition rows_taken {A : Type} (groups : list (string * list A)) : nat :=
  list_sum (map (fun kg => List.length (snd kg)) groups).

(** The range of [n] rows from row [first] on, in one column. *)
Definition column_range (column first n : nat) : cell_range :=
  {| start_row := first; end_row := first + n - 1;
     start_column := column; end_column := column |}.

(** The ranges in the two first columns for groups of the given sizes, the
    first group being written from row [first] on. *)
Fixpoint paired_ranges (sizes : list nat) (first : nat) : list cell_range :=
  match sizes with
  | [] => []
  | n :: sizes' =>
      (if (1 <? n)%nat
       then [column_range 1 first n; column_range 2 first n] else [])
      ++ paired_ranges sizes' (first + n)
  end.

End Spec.

(** ** Concrete library behaviour for the examples *)

Module Sample.

Definition dq : string := String "034" EmptyString.

(** Texts used in the examples. *)
Definition os_literal : string := "{'name': 'Ubuntu', 'version': '22.04'}".
Definition os_json : string :=
  ("{" ++ dq ++ "name" ++ dq ++ ": " ++ dq ++ " Ubuntu " ++ dq ++ ", "
       ++ dq ++ "version" ++ dq ++ ": " ++ dq ++ dq ++ "}")%string.
Definition os_spaced_literal : string := " {'name': 'Debian'}".
Definition os_broken : string := "{name".
Definition software_literal : string :=
  "[{'name': 'vim', 'version': ' 9.1 '}, 5, {'name': 'git'}]".
Definition software_one : string := "[{'name': 'vim'}]".
Definition software_two : string :=
  "[{'name': 'vim', 'version': '9.1'}, {'name': 'git', 'version': '2.44'}]".
Definition software_broken : string := "[{'name': 'vim'".

Definition os_dict : pyval :=
  PDict [(PStr "name", PStr "Ubuntu"); (PStr "version", PStr "22.04")].

(** What [json.loads] answers on those texts.  A text outside the table is
    answered as undecodable; the examples use the texts of the table only. *)
Definition json_table : list (string * outcome pyval) :=
  [(os_json,
    Returns (PDict [(PStr "name", PStr " Ubuntu "); (PStr "version", PStr "")]))].

(** What [ast.literal_eval] answers on those texts. *)
Definition literal_table : list (string * outcome pyval) :=
  [(os_literal, Returns os_dict);
   (os_spaced_literal, Returns (PDict [(PStr "name", PStr "Debian")]));
   (software_literal,
    Returns (PList [PDict [(PStr "name", PStr "vim");
                           (PStr "version", PStr " 9.1 ")];
                    PInt 5;
                    PDict [(PStr "name", PStr "git")]]));
   (software_one, Returns (PList [PDict [(PStr "name", PStr "vim")]]));
   (software_two,
    Returns (PList [PDict [(PStr "name", PStr "vim");
                           (PStr "version", PStr "9.1")];
                    PDict [(PStr "name", PStr "git");
                           (PStr "version", PStr "2.44")]]))].

Fixpoint answer (table : list (string * outcome pyval)) (failure : exn)
    (text : string) : outcome pyval :=
  match table with
  | [] => Raises failure
  | (t, r) :: table' => if String.eqb t text then r else answer table' failure text
  end.

#[export] Instance decoders : Decoders := {|
  json_loads := answer json_table JSONDecodeError;
  literal_eval := answer literal_table SyntaxError
|}.

(** The title the library picks: the name itself when it is free, followed
    by 1 when one sheet holds it already. *)
#[export] Instance titles : Titles := {|
  avoid_duplicate_name := fun names value =>
    if existsb (String.eqb value) names then (value ++ "1")%string else value
|}.

Definition plain_device (name : string) (tenant : pyval) (sw : pyval)
  : device :=
  {| fqdn := Some name; tenantName := tenant; ipAddresses := PNaN;
     macAddresses := PNaN; os := PStr "Ubuntu 22.04"; software := sw;
     vulnerabilities := PNaN |}.

Definition plain_hardware (name : string) : hardware :=
  {| hw_fqdn := Some name; network_cards := PStr "eth0"; cpu := PInt 4;
     ram := PInt 16; disk_space := PInt 512 |}.

Definition inventory_columns : list string :=
  ["tenantName"; "fqdn"; "ipAddresses"; "macAddresses"; "os"; "software";
   "vulnerabilities"].

(** Four devices: one of the tenant "[TEST] Corp" with two software items,
    one of a tenant whose name makes an invalid sheet title, one whose
    tenant name is a bracketed span only, one without tenant name. *)
Definition inventory : frame device :=
  {| columns := inventory_columns;
     rows := [plain_device "h1" (PStr "[TEST] Corp") (PStr software_two);
              plain_device "h2" (PStr "A/B") PNaN;
              plain_device "h3" (PStr "[EXPIRED]") PNaN;
              plain_device "h4" PNaN PNaN] |}.

Definition hardware_table : list hardware :=
  [plain_hardware "h1"; plain_hardware "h2"; plain_hardware "h3";
   plain_hardware "h4"].

Definition hardware_frame : frame hardware :=
  {| columns := required_columns; rows := hardware_table |}.

(** The merged table of the navigation pipeline, tenant names cleaned and
    OS fields parsed. *)
Definition report_of (all_data : frame device)
    (devices_report : list hardware) : frame report_row :=
  {| columns := merged_columns (columns all_data);
     rows := match Nav.normalise (has_column all_data "os")
                     (Pd.merge_left (rows all_data) devices_report) with
             | Returns data => data
             | Raises _ => []
             end |}.

Definition report : frame report_row := report_of inventory hardware_table.

Definition report_row_of (d : device) (tenant : option string) : report_row :=
  {| r_merged := {| m_device := d;
                    m_specs := specs_of (plain_hardware "") |};
     r_tenant := tenant;
     r_os_parsed := Some "Ubuntu";
     r_os_version := Some "22.04" |}.

Definition no_run : run := {| book := []; printed := [] |}.

Definition blank_sheet (name : string) : worksheet :=
  {| title := name; cells := []; merged_cells := [] |}.

Definition two_items : list grouped_row :=
  rows_of_items (Some "h1")
    [[("name", Some "vim"); ("version", Some "9.1"); ("vendor", None)];
     [("name", Some "git"); ("version", Some "2.44"); ("vendor", None)]].

(** A text that opens 2000 lists one inside the other, on which
    [json.loads] exceeds the recursion limit of the interpreter. *)
Fixpoint brackets (n : nat) : string :=
  match n with
  | O => EmptyString
  | S n' => String "[" (brackets n')
  end.

Definition deep_list : string := brackets 2000.
Definition deep_os : string := (deep_list ++ "name")%string.

(** Decoders that answer as the ones above, and with a recursion error on
    the deep texts. *)
Definition deep_decoders : Decoders := {|
  json_loads := fun text =>
    if String.eqb text deep_list || String.eqb text deep_os
    then Raises RecursionError
    else answer json_table JSONDecodeError text;
  literal_eval := answer literal_table SyntaxError
|}.

(** An inventory of one device whose OS cell is a deep text, and the
    inventory above without its tenant column. *)
Definition deep_inventory : frame device :=
  {| columns := inventory_columns;
     rows := [{| fqdn := Some "h9"; tenantName := PStr "Corp";
                 ipAddresses := PNaN; macAddresses := PNaN;
                 os := PStr deep_os; software := PStr deep_list;
                 vulnerabilities := PNaN |}] |}.

Definition no_tenant_inventory : frame device :=
  {| columns := ["fqdn"; "ipAddresses"; "macAddresses"; "os"; "software";
                 "vulnerabilities"];
     rows := rows inventory |}.

(** Two software items of the device h1 and one of a device without
    name. *)
Definition three_items : list grouped_row :=
  two_items
  ++ rows_of_items None
       [[("name", Some "curl"); ("version", Some "8.5"); ("vendor", None)]].

(** Two items of the device h1 that have no vendor field: the table made
    of them has no vendor column. *)
Definition bare_items : list grouped_row :=
  rows_of_items (Some "h1")
    [[("name", Some "vim"); ("version", Some "9.1")];
     [("name", Some "git"); ("version", Some "2.44")]].

(** A hardware report without its memory and disk columns. *)
Definition short_hardware : frame hardware :=
  {| columns := ["fqdn"; "Network Cards"; "CPU"]; rows := hardware_table |}.

(** Two tenants whose names have the same first 25 characters. *)
Definition long_inventory : frame device :=
  {| columns := inventory_columns;
     rows := [plain_device "h1" (PStr "Global Logistics Holdings East") PNaN;
              plain_device "h2" (PStr "Global Logistics Holdings West")
                           PNaN] |}.

Definition long_report : frame report_row :=
  report_of long_inventory hardware_table.

Definition long_tenants : list string := tenants_of (rows long_report).

(** Rows of the software table of the first version: two items of the
    device h1 and a row of a device without name. *)
Definition legacy_items : list Legacy.sheet_row :=
  [{| Legacy.l_tenant := PStr "Corp";
      Legacy.l_row := {| g_fqdn := Some "h1";
                         g_item := [("software", Some "vim");
                                    ("version", Some "9.1")] |} |};
   {| Legacy.l_tenant := PStr "Corp";
      Legacy.l_row := {| g_fqdn := Some "h1";
                         g_item := [("software", Some "git")] |} |};
   {| Legacy.l_tenant := PStr "Corp";
      Legacy.l_row := {| g_fqdn := None; g_item := [] |} |}].

End Sample.

(** * Properties *)

#[local] Arguments Ascii.eqb : simpl never.
#[local] Arguments String.eqb : simpl never.
#[local] Arguments Py.is_space : simpl never.

(** ** Text primitives *)

Section TextFacts.

Import Py.

Lemma match_bracket_tail_shorter (s rest : string) :
  match_bracket_tail s = Some rest -> String.length rest < String.length s.
Proof.
  revert rest. induction s as [|c s IH]; intros rest; simpl.
  - discriminate.
  - destruct (Ascii.eqb c "]").
    + intros E. injection E as <-. lia.
    + destruct (Ascii.eqb c "010"); [discriminate|].
      intros E. apply IH in E. lia.
Qed.

Lemma sub_brackets_fuel_enough (n : nat) :
  forall (m : nat) (s : string),
    String.length s <= n -> String.length s <= m ->
    sub_brackets_fuel n s = sub_brackets_fuel m s.
Proof.
  induction n as [|n IH]; intros m s Hn Hm.
  - destruct s; simpl in Hn; [|lia]. destruct m; reflexivity.
  - destruct s as [|c s].
    + destruct m; reflexivity.
    + destruct m as [|m]; simpl in Hn, Hm; [lia|]. simpl.
      destruct (Ascii.eqb c "[").
      * destruct (match_bracket_tail s) as [rest|] eqn:E.
        -- apply match_bracket_tail_shorter in E. apply IH; lia.
        -- f_equal. apply IH; lia.
      * f_equal. apply IH; lia.
Qed.

(** The equation of [re.sub] on a non-empty text. *)
Lemma sub_brackets_cons (c : ascii) (s : string) :
  sub_brackets (String c s) =
  if Ascii.eqb c "[" then
    match match_bracket_tail s with
    | Some rest => sub_brackets rest
    | None => String c (sub_brackets s)
    end
  else String c (sub_brackets s).
Proof.
  unfold sub_brackets. simpl.
  destruct (Ascii.eqb c "[").
  - destruct (match_bracket_tail s) as [rest|] eqn:E.
    + apply match_bracket_tail_shorter in E.
      apply sub_brackets_fuel_enough; lia.
    + reflexivity.
  - reflexivity.
Qed.

Lemma sub_brackets_no_bracket (s : string) :
  has_char "[" s = false -> sub_brackets s = s.
Proof.
  induction s as [|c s IH]; [reflexivity|].
  intros H. simpl in H. apply orb_false_iff in H as [H1 H2].
  rewrite sub_brackets_cons, Ascii.eqb_sym, H1. now rewrite IH.
Qed.

(** [rsplit] cuts at the last space. *)
Lemma rsplit_space_no_space (s : string) :
  has_char " " s = false -> rsplit_space s = [s].
Proof.
  induction s as [|c s IH]; [reflexivity|].
  intros H. simpl in H. apply orb_false_iff in H as [H1 H2].
  simpl. rewrite (IH H2), Ascii.eqb_sym, H1. reflexivity.
Qed.

Lemma rsplit_space_last (a b : string) :
  has_char " " b = false ->
  rsplit_space (a ++ String " " b)%string = [a; b].
Proof.
  intros Hb. induction a as [|c a IH]; simpl.
  - now rewrite (rsplit_space_no_space b Hb).
  - now rewrite IH.
Qed.

Lemma rsplit_space_cases (s : string) :
  (has_char " " s = false /\ rsplit_space s = [s]) \/
  (exists a b, s = (a ++ String " " b)%string /\ has_char " " b = false
               /\ rsplit_space s = [a; b]).
Proof.
  induction s as [|c s IH].
  - left. split; reflexivity.
  - destruct IH as [[Hn Hr] | (a & b & -> & Hb & Hr)].
    + destruct (Ascii.eqb c " ") eqn:Ec.
      * right. exists EmptyString, s. apply Ascii.eqb_eq in Ec. subst c.
        repeat split; trivial. simpl. now rewrite Hr.
      * left. simpl. rewrite Hr, Ec. rewrite Ascii.eqb_sym, Ec.
        split; [exact Hn | reflexivity].
    + right. exists (String c a), b. repeat split; trivial.
      simpl. simpl in Hr. now rewrite Hr.
Qed.

(** Blanks at the two ends. *)
Lemma lstrip_not_blank (s : string) : starts_blank (lstrip s) = false.
Proof.
  induction s as [|c s IH]; [reflexivity|].
  simpl. destruct (is_space c) eqn:E; [exact IH | simpl; exact E].
Qed.

Lemma lstrip_id (s : string) : starts_blank s = false -> lstrip s = s.
Proof.
  destruct s as [|c s]; simpl; [reflexivity|]. now intros ->.
Qed.

Lemma rstrip_cons_keep (c : ascii) (s : string) :
  is_space c = false -> rstrip (String c s) = String c (rstrip s).
Proof.
  intros H. simpl. rewrite H. now destruct (rstrip s).
Qed.

Lemma rstrip_cons_blank (c : ascii) (s : string) :
  is_space c = true ->
  rstrip (String c s) =
  match rstrip s with
  | EmptyString => EmptyString
  | r => String c r
  end.
Proof.
  intros H. simpl. now rewrite H.
Qed.

Lemma rstrip_idempotent (s : string) : rstrip (rstrip s) = rstrip s.
Proof.
  induction s as [|c s IH]; [reflexivity|].
  destruct (is_space c) eqn:E.
  - rewrite (rstrip_cons_blank c s E).
    destruct (rstrip s) as [|d r] eqn:R; [reflexivity|].
    rewrite (rstrip_cons_blank c _ E), IH. reflexivity.
  - rewrite (rstrip_cons_keep c s E), (rstrip_cons_keep c _ E), IH.
    reflexivity.
Qed.

Lemma rstrip_starts_blank (s : string) :
  starts_blank s = false -> starts_blank (rstrip s) = false.
Proof.
  destruct s as [|c s]; [reflexivity|].
  simpl. intros E. rewrite E. destruct (rstrip s); simpl; exact E.
Qed.

Lemma strip_idempotent (s : string) : strip (strip s) = strip s.
Proof.
  unfold strip.
  rewrite (lstrip_id (rstrip (lstrip s))).
  - apply rstrip_idempotent.
  - apply rstrip_starts_blank, lstrip_not_blank.
Qed.

Lemma strip_not_blank (s : string) : starts_blank (strip s) = false.
Proof.
  apply rstrip_starts_blank, lstrip_not_blank.
Qed.

(** Words. *)
Lemma split_cons_blank (c : ascii) (s : string) :
  is_space c = true -> split (String c s) = split s.
Proof.
  intros H. simpl. now rewrite H.
Qed.

Lemma split_cons_word (c : ascii) (s : string) :
  is_space c = false ->
  split (String c s) =
  if starts_blank s then String c EmptyString :: split s
  else match split s with
       | w :: ws => String c w :: ws
       | [] => [String c EmptyString]
       end.
Proof.
  intros H. simpl. rewrite H. destruct s as [|d s]; [reflexivity|].
  simpl. destruct (is_space d); reflexivity.
Qed.

Lemma split_lstrip (s : string) : split (lstrip s) = split s.
Proof.
  induction s as [|c s IH]; [reflexivity|].
  simpl lstrip. destruct (is_space c) eqn:E.
  - now rewrite (split_cons_blank c s E).
  - reflexivity.
Qed.

Lemma split_rstrip (s : string) : split (rstrip s) = split s.
Proof.
  induction s as [|c s IH]; [reflexivity|].
  destruct (is_space c) eqn:E.
  - rewrite (rstrip_cons_blank c s E), (split_cons_blank c s E), <- IH.
    destruct (rstrip s) as [|d r]; [reflexivity|].
    now rewrite (split_cons_blank c _ E).
  - rewrite (rstrip_cons_keep c s E).
    rewrite (split_cons_word c s E), (split_cons_word c (rstrip s) E), IH.
    destruct (starts_blank s) eqn:B.
    + destruct s as [|d s]; [discriminate|]. simpl in B.
      rewrite (rstrip_cons_blank d s B) in *.
      destruct (rstrip s) as [|e r].
      * rewrite <- IH. reflexivity.
      * simpl. rewrite B. reflexivity.
    + rewrite (rstrip_starts_blank s B). reflexivity.
Qed.

Lemma split_strip (s : string) : split (strip s) = split s.
Proof.
  unfold strip. now rewrite split_rstrip, split_lstrip.
Qed.

Lemma split_nil_word (s : string) :
  starts_blank s = false -> s <> EmptyString -> split s <> [].
Proof.
  destruct s as [|c s]; [congruence|].
  simpl starts_blank. intros E _. rewrite (split_cons_word c s E).
  destruct (starts_blank s); [discriminate|].
  destruct (split s); discriminate.
Qed.

Lemma join_cons (sep w : string) (ws : list string) :
  join sep (w :: ws) =
  match ws with
  | [] => w
  | _ => (w ++ sep ++ join sep ws)%string
  end.
Proof.
  destruct ws; reflexivity.
Qed.

Lemma join_cons_char (c : ascii) (w : string) (ws : list string) :
  join " " (String c w :: ws) = String c (join " " (w :: ws)).
Proof.
  rewrite !join_cons. destruct ws; reflexivity.
Qed.

(** The words of a text, joined by single spaces, are the text with its
    runs of blanks collapsed and its right end trimmed, when the text does
    not begin with a blank. *)
Lemma rstrip_collapse (s : string) :
  rstrip (Spec.collapse_blanks s) =
  if starts_blank s then
    match split s with
    | [] => EmptyString
    | ws => String " " (join " " ws)
    end
  else join " " (split s).
Proof.
  induction s as [|c s IH]; [reflexivity|].
  simpl starts_blank. simpl Spec.collapse_blanks.
  destruct (is_space c) eqn:E.
  - rewrite (split_cons_blank c s E).
    destruct (starts_blank s) eqn:B.
    + exact IH.
    + rewrite (rstrip_cons_blank " " _ eq_refl), IH.
      destruct s as [|d s]; [reflexivity|].
      simpl in B. pose proof (split_nil_word (String d s) B) as W.
      destruct (split (String d s)) as [|w ws] eqn:S.
      * exfalso. apply W; [discriminate | reflexivity].
      * rewrite (split_cons_word d s B) in S.
        destruct (starts_blank s).
        -- injection S as <- <-. rewrite join_cons_char. reflexivity.
        -- destruct (split s); injection S as <- <-;
             rewrite join_cons_char; reflexivity.
  - rewrite (rstrip_cons_keep c _ E), IH, (split_cons_word c s E).
    destruct (starts_blank s).
    + rewrite join_cons. destruct (split s); reflexivity.
    + destruct (split s) as [|w ws]; [reflexivity|].
      now rewrite join_cons_char.
Qed.

Lemma collapse_lstrip (s : string) :
  lstrip (Spec.collapse_blanks s) = Spec.collapse_blanks (lstrip s).
Proof.
  induction s as [|c s IH]; [reflexivity|].
  simpl. destruct (is_space c) eqn:E.
  - destruct (starts_blank s); [exact IH | simpl; exact IH].
  - simpl. now rewrite E.
Qed.

(** [' '.join(s.split())] collapses the runs of blanks and trims. *)
Lemma join_split_collapse (s : string) :
  join " " (split s) = strip (Spec.collapse_blanks s).
Proof.
  unfold strip. rewrite collapse_lstrip, rstrip_collapse.
  now rewrite lstrip_not_blank, split_lstrip.
Qed.

Lemma strip_join_split (s : string) :
  strip (join " " (split s)) = join " " (split s).
Proof.
  rewrite join_split_collapse. apply strip_idempotent.
Qed.

Lemma collapse_single_spaced (s : string) :
  Spec.single_spaced s = true -> Spec.collapse_blanks s = s.
Proof.
  induction s as [|c s IH]; [reflexivity|].
  simpl. intros H. apply andb_true_iff in H as [H1 H2].
  rewrite (IH H2). destruct (is_space c) eqn:E; [|reflexivity].
  simpl in H1. apply andb_true_iff in H1 as [Hc Hb].
  apply Ascii.eqb_eq in Hc. subst c.
  apply negb_true_iff in Hb. now rewrite Hb.
Qed.

(** A trimmed text whose blanks are single spaces is left as it is. *)
Lemma join_split_single_spaced (s : string) :
  Spec.single_spaced (strip s) = true ->
  join " " (split s) = strip s.
Proof.
  intros H. rewrite <- split_strip, join_split_collapse.
  rewrite (collapse_single_spaced _ H). apply strip_idempotent.
Qed.

End TextFacts.

(** ** Field normalisation *)

Section FieldFacts.

Context `{Decoders}.

Lemma get_lookup (d : dict) (key : string) (default : pyval) :
  Val.get d key default =
  match Spec.lookup d key with
  | Some v => v
  | None => default
  end.
Proof.
  induction d as [|[k v] d IH]; [reflexivity|].
  simpl. destruct k; try exact IH.
  destruct (String.eqb s key); [reflexivity | exact IH].
Qed.

Lemma or_none_eqb (t : string) :
  Py.or_none t = if String.eqb t "" then None else Some t.
Proof.
  destruct t; reflexivity.
Qed.

(** The field the code builds is the sub-field the specification names. *)
Lemma field_subfield (d : dict) (key : string) :
  Val.field d key = Spec.subfield d key.
Proof.
  unfold Val.field, Spec.subfield. rewrite get_lookup.
  destruct (Spec.lookup d key) as [v|].
  - apply or_none_eqb.
  - reflexivity.
Qed.

Lemma subfield_not_empty (d : dict) (key : string) :
  Spec.subfield d key <> Some EmptyString.
Proof.
  unfold Spec.subfield. destruct (Spec.lookup d key) as [v|]; [|discriminate].
  destruct (Py.strip (Val.str v)); simpl; discriminate.
Qed.

Lemma has_marker_both (text : string) :
  negb (Py.contains "name" text) && negb (Py.contains "version" text)
  = negb (has_marker text).
Proof.
  unfold has_marker. simpl existsb.
  destruct (Py.contains "name" text), (Py.contains "version" text);
    reflexivity.
Qed.

Lemma eq_empty_text (s : string) :
  s <> EmptyString -> Val.eq_empty (PStr s) = false.
Proof.
  destruct s; [congruence | reflexivity].
Qed.

Lemma truth_text (s : string) :
  s <> EmptyString -> Val.truth (PStr s) = true.
Proof.
  destruct s; [congruence | reflexivity].
Qed.

(** The two pipelines on a text without marker. *)
Lemma nav_os_plain (s : string) :
  s <> EmptyString -> has_marker (Py.lower s) = false ->
  Nav.parse_os_data (PStr s)
  = Returns (name_and_version s (Py.rsplit_space s)).
Proof.
  intros Hs Hm. unfold Nav.parse_os_data.
  rewrite (eq_empty_text s Hs), Hm. reflexivity.
Qed.

Lemma opt_os_plain (s : string) :
  s <> EmptyString -> has_marker (Py.lower s) = false ->
  Opt.parse_os_data (PStr s)
  = Returns (name_and_version s (Py.rsplit_space s)).
Proof.
  intros Hs Hm. unfold Opt.parse_os_data.
  rewrite (truth_text s Hs), has_marker_both, Hm. reflexivity.
Qed.

(** The two pipelines on a text with a marker. *)
Lemma nav_os_marked (s : string) :
  s <> EmptyString -> has_marker (Py.lower s) = true ->
  Nav.parse_os_data (PStr s)
  = match json_loads s with
    | Returns v => Returns (os_of_value v)
    | Raises JSONDecodeError =>
        match literal_eval s with
        | Returns v => Returns (os_of_value v)
        | Raises _ => Returns (Some s, None)
        end
    | Raises e => Raises e
    end.
Proof.
  intros Hs Hm. unfold Nav.parse_os_data.
  rewrite (eq_empty_text s Hs), Hm. reflexivity.
Qed.

Lemma opt_os_marked (s : string) :
  s <> EmptyString -> has_marker (Py.lower s) = true ->
  Opt.parse_os_data (PStr s)
  = match (if Py.startswith_brace_or_bracket s
           then json_loads s else literal_eval s) with
    | Returns (PDict os_dict) => Returns (dict_name_version os_dict)
    | Returns _ => Returns (Some s, None)
    | Raises _ => Returns (Some s, None)
    end.
Proof.
  intros Hs Hm. unfold Opt.parse_os_data.
  rewrite (truth_text s Hs), has_marker_both, Hm. reflexivity.
Qed.

Lemma dict_name_version_subfields (d : dict) :
  dict_name_version d
  = (Spec.subfield d "name", Spec.subfield d "version").
Proof.
  unfold dict_name_version. now rewrite !field_subfield.
Qed.

(** C1 (amended).  The empty text gives (null, null) in both pipelines.
    For a text that is not empty: without the markers "name" and "version"
    (in any case) both pipelines return the text cut at its last space, or
    (text, null) when it has no space; with a marker, the navigation
    pipeline returns the trimmed [name] and [version] of the mapping that
    strict JSON decoding gives, or that the literal fallback gives once JSON
    decoding has failed, and the optimised pipeline those of the mapping its
    one decoder gives (JSON for a text that begins with a brace or a
    bracket, the literal decoder otherwise), an empty or missing sub-field
    being null.  When both decoders fail, the optimised pipeline returns
    (text, null); the navigation pipeline returns (text, null) when the
    failure of JSON decoding is a JSON decoding error, and any other
    exception of [json.loads] leaves it. *)
Theorem parse_os_data_text (s : string) :
  (Nav.parse_os_data (PStr "") = Returns (None, None) /\
   Opt.parse_os_data (PStr "") = Returns (None, None)) /\
  (s <> EmptyString ->
   (has_marker (Py.lower s) = false ->
    (Py.has_char " " s = false ->
     Nav.parse_os_data (PStr s) = Returns (Some s, None) /\
     Opt.parse_os_data (PStr s) = Returns (Some s, None)) /\
    (forall a b : string,
        s = (a ++ String " " b)%string -> Py.has_char " " b = false ->
        Nav.parse_os_data (PStr s) = Returns (Some a, Some b) /\
        Opt.parse_os_data (PStr s) = Returns (Some a, Some b))) /\
   (has_marker (Py.lower s) = true ->
    (forall d : dict,
        json_loads s = Returns (PDict d) \/
        (json_loads s = Raises JSONDecodeError /\
         literal_eval s = Returns (PDict d)) ->
        Nav.parse_os_data (PStr s)
        = Returns (Spec.subfield d "name", Spec.subfield d "version")) /\
    (forall d : dict,
        (if Py.startswith_brace_or_bracket s
         then json_loads s else literal_eval s) = Returns (PDict d) ->
        Opt.parse_os_data (PStr s)
        = Returns (Spec.subfield d "name", Spec.subfield d "version")) /\
    (forall e1 e2 : exn,
        json_loads s = Raises e1 -> literal_eval s = Raises e2 ->
        (e1 = JSONDecodeError ->
         Nav.parse_os_data (PStr s) = Returns (Some s, None)) /\
        (e1 <> JSONDecodeError ->
         Nav.parse_os_data (PStr s) = Raises e1) /\
        Opt.parse_os_data (PStr s) = Returns (Some s, None)))).
Proof.
  split; [split; reflexivity|].
  intros Hs. split.
  - intros Hm. rewrite (nav_os_plain s Hs Hm), (opt_os_plain s Hs Hm). split.
    + intros Hn. rewrite (rsplit_space_no_space s Hn). split; reflexivity.
    + intros a b -> Hb. rewrite (rsplit_space_last a b Hb). split; reflexivity.
  - intros Hm. rewrite (nav_os_marked s Hs Hm), (opt_os_marked s Hs Hm).
    split; [|split].
    + intros d [-> | [-> ->]]; simpl; now rewrite dict_name_version_subfields.
    + intros d ->. now rewrite dict_name_version_subfields.
    + intros e1 e2 Hj Hl. split; [|split].
      * intros ->. rewrite Hj, Hl. reflexivity.
      * intros He. rewrite Hj. destruct e1; congruence.
      * destruct (Py.startswith_brace_or_bracket s);
          [rewrite Hj | rewrite Hl]; reflexivity.
Qed.

(** C10 (amended).  For an input that is not missing and is neither a text,
    a mapping nor a list, the navigation pipeline returns (its text, null);
    the optimised pipeline returns the same when the value is true in a
    test, and (null, null) when it is false there, as 0 is. *)
Theorem parse_os_data_other (v : pyval) :
  Val.isna v = false -> Val.is_str v = false -> Val.is_dict v = false ->
  Val.is_list v = false ->
  Nav.parse_os_data v = Returns (Some (Val.str v), None) /\
  Opt.parse_os_data v
  = Returns (if Val.truth v then (Some (Val.str v), None) else (None, None)).
Proof.
  intros Hna Hs Hd Hl.
  destruct v; try discriminate; (split; [reflexivity|]);
    unfold Opt.parse_os_data; simpl.
  - destruct b; reflexivity.
  - destruct (z =? 0)%Z; reflexivity.
  - destruct truthy; reflexivity.
Qed.

(** C2.  When strict JSON decoding of a list field fails and the literal
    fallback fails too, [parse_json_data] of the optimised pipeline and
    [parse_software_data] of the first version return the empty list, and
    so do the two parsers of the navigation pipeline, which reach the
    fallback on a JSON decoding error; none raises. *)
Theorem list_parsers_decode_failure (s : string) (e1 e2 : exn)
    (fields : list string) :
  json_loads s = Raises e1 -> literal_eval s = Raises e2 ->
  Opt.parse_json_data (PStr s) fields = Returns [] /\
  Legacy.parse_software_data (PStr s) = Returns [] /\
  (e1 = JSONDecodeError ->
   Nav.parse_software_data (PStr s) = Returns [] /\
   Nav.parse_vulnerabilities_data (PStr s) = Returns []).
Proof.
  intros Hj Hl. split; [|split; [|intros ->; split]].
  - unfold Opt.parse_json_data. simpl.
    destruct (String.eqb s ""); simpl; [reflexivity|].
    rewrite Hj, Hl. destruct e1; reflexivity.
  - unfold Legacy.parse_software_data, Legacy.software_body. simpl.
    rewrite Hj, Hl. destruct e1; reflexivity.
  - unfold Nav.parse_software_data, Nav.parse_list_data.
    destruct s; [reflexivity|]. simpl. now rewrite Hj, Hl.
  - unfold Nav.parse_vulnerabilities_data, Nav.parse_list_data.
    destruct s; [reflexivity|]. simpl. now rewrite Hj, Hl.
Qed.

End FieldFacts.

(** ** List fields *)

Section ListFacts.

Context `{Decoders}.








End ListFacts.

(** ** Tenant names *)

Section TenantFacts.

Context `{Decoders}.

(** The navigation pipeline cleans a tenant name as the specification says:
    bracketed spans removed, runs of blanks collapsed, ends trimmed. *)
Lemma nav_clean_tenant_name_text (s : string) :
  Nav.clean_tenant_name (PStr s) = Some (Spec.cleaned_name s).
Proof.
  unfold Nav.clean_tenant_name, Spec.cleaned_name. simpl.
  now rewrite strip_join_split, join_split_collapse.
Qed.

Lemma nav_clean_tenant_name_value (v : pyval) :
  Val.isna v = false ->
  Nav.clean_tenant_name v
  = Some (Py.join " " (Py.split (Py.sub_brackets (Val.str v)))).
Proof.
  intros Hv. unfold Nav.clean_tenant_name. rewrite Hv.
  now rewrite strip_join_split.
Qed.

Lemma opt_clean_tenant_name_value (v : pyval) :
  Val.isna v = false ->
  Opt.clean_tenant_name v = Some (Py.strip (Py.sub_brackets (Val.str v))).
Proof.
  intros Hv. unfold Opt.clean_tenant_name. rewrite Hv.
  destruct (Val.is_str v); reflexivity.
Qed.

Lemma clean_tenant_name_missing (v : pyval) :
  Val.isna v = true ->
  Nav.clean_tenant_name v = None /\ Opt.clean_tenant_name v = None.
Proof.
  intros Hv. unfold Nav.clean_tenant_name, Opt.clean_tenant_name.
  now rewrite Hv.
Qed.

(** C9 (amended).  The two pipelines return the same pair for the OS field
    when it is missing, the empty text, a text without marker, a text on
    which JSON decoding fails with a JSON decoding error and the literal
    decoder fails too, a text that begins with a brace or a bracket and
    decodes as JSON to a mapping, a text that begins otherwise, on which
    JSON decoding fails with a JSON decoding error, and that decodes by
    the literal fallback to a mapping, a mapping, or any other value that
    is neither a text nor a list and is true in a test.  (On a text on
    which [json.loads] raises another exception the navigation pipeline
    raises it and the optimised one returns the text; lists are left
    out.)  The two pipelines return the same clean tenant name for a
    missing name, and for any name whose clean form in the optimised
    pipeline has no blank but single spaces. *)
Theorem pipelines_agree (v : pyval) :
  (Spec.os_common v -> Nav.parse_os_data v = Opt.parse_os_data v) /\
  (Val.isna v = true ->
   Nav.clean_tenant_name v = Opt.clean_tenant_name v) /\
  (forall t : string,
      Opt.clean_tenant_name v = Some t -> Spec.single_spaced t = true ->
      Nav.clean_tenant_name v = Some t).
Proof.
  split; [|split].
  - intros C. destruct C as [v Hv| |s Hm|s e Hj Hl|s d Hb Hj|s d Hb Hj Hl|d
                             |v Hna Hs Hl Ht].
    + unfold Nav.parse_os_data, Opt.parse_os_data. now rewrite Hv.
    + reflexivity.
    + destruct s as [|c s]; [reflexivity|].
      rewrite nav_os_plain, opt_os_plain; trivial; discriminate.
    + destruct s as [|c s]; [reflexivity|].
      destruct (has_marker (Py.lower (String c s))) eqn:Hm.
      * rewrite nav_os_marked, opt_os_marked; trivial; try discriminate.
        rewrite Hj, Hl.
        destruct (Py.startswith_brace_or_bracket (String c s)); reflexivity.
      * rewrite nav_os_plain, opt_os_plain; trivial; discriminate.
    + destruct s as [|c s]; [reflexivity|].
      destruct (has_marker (Py.lower (String c s))) eqn:Hm.
      * rewrite nav_os_marked, opt_os_marked; trivial; try discriminate.
        rewrite Hb, Hj. reflexivity.
      * rewrite nav_os_plain, opt_os_plain; trivial; discriminate.
    + destruct s as [|c s]; [reflexivity|].
      destruct (has_marker (Py.lower (String c s))) eqn:Hm.
      * rewrite nav_os_marked, opt_os_marked; trivial; try discriminate.
        rewrite Hb, Hj, Hl. reflexivity.
      * rewrite nav_os_plain, opt_os_plain; trivial; discriminate.
    + destruct d; reflexivity.
    + unfold Nav.parse_os_data, Opt.parse_os_data. rewrite Hna, Ht.
      destruct v; try discriminate; reflexivity.
  - intros Hv. destruct (clean_tenant_name_missing v Hv) as [-> ->].
    reflexivity.
  - intros t Ht Hsingle. destruct (Val.isna v) eqn:Hv.
    + destruct (clean_tenant_name_missing v Hv) as [_ E]. congruence.
    + rewrite (opt_clean_tenant_name_value v Hv) in Ht. injection Ht as <-.
      rewrite (nav_clean_tenant_name_value v Hv).
      now rewrite (join_split_single_spaced _ Hsingle).
Qed.

End TenantFacts.

(** ** The field parsers on concrete inputs *)

Section FieldExamples.

Import Sample.

(** A plain text with and without a space, a JSON mapping, a literal
    mapping, an undecodable text, and a deep text on which the JSON decoder
    exceeds the recursion limit. *)
Lemma parse_os_data_text_witness :
  (Nav.parse_os_data (PStr "Ubuntu 22.04")
   = Returns (Some "Ubuntu", Some "22.04") /\
   Opt.parse_os_data (PStr "Ubuntu 22.04")
   = Returns (Some "Ubuntu", Some "22.04")) /\
  (Nav.parse_os_data (PStr "Ubuntu") = Returns (Some "Ubuntu", None) /\
   Opt.parse_os_data (PStr "Ubuntu") = Returns (Some "Ubuntu", None)) /\
  Nav.parse_os_data (PStr os_literal)
  = Returns (Some "Ubuntu", Some "22.04") /\
  Opt.parse_os_data (PStr os_json) = Returns (Some "Ubuntu", None) /\
  (Nav.parse_os_data (PStr os_broken) = Returns (Some os_broken, None) /\
   Opt.parse_os_data (PStr os_broken) = Returns (Some os_broken, None)) /\
  (@Nav.parse_os_data deep_decoders (PStr deep_os) = Raises RecursionError /\
   @Opt.parse_os_data deep_decoders (PStr deep_os)
   = Returns (Some deep_os, None)).
Proof.
  split; [|split; [|split; [|split; [|split]]]].
  - destruct (@parse_os_data_text decoders "Ubuntu 22.04") as [_ Hne].
    destruct (Hne ltac:(discriminate)) as [Hplain _].
    destruct (Hplain eq_refl) as [_ Hcut].
    exact (Hcut "Ubuntu" "22.04" eq_refl eq_refl).
  - destruct (@parse_os_data_text decoders "Ubuntu") as [_ Hne].
    destruct (Hne ltac:(discriminate)) as [Hplain _].
    destruct (Hplain eq_refl) as [Hwhole _].
    exact (Hwhole eq_refl).
  - destruct (@parse_os_data_text decoders os_literal) as [_ Hne].
    destruct (Hne ltac:(discriminate)) as [_ Hmarked].
    destruct (Hmarked eq_refl) as [Hnav _].
    exact (Hnav [(PStr "name", PStr "Ubuntu"); (PStr "version", PStr "22.04")]
                (or_intror (conj eq_refl eq_refl))).
  - destruct (@parse_os_data_text decoders os_json) as [_ Hne].
    destruct (Hne ltac:(discriminate)) as [_ Hmarked].
    destruct (Hmarked eq_refl) as [_ [Hopt _]].
    exact (Hopt [(PStr "name", PStr " Ubuntu "); (PStr "version", PStr "")]
                eq_refl).
  - destruct (@parse_os_data_text decoders os_broken) as [_ Hne].
    destruct (Hne ltac:(discriminate)) as [_ Hmarked].
    destruct (Hmarked eq_refl) as [_ [_ Hfail]].
    destruct (Hfail JSONDecodeError SyntaxError eq_refl eq_refl)
      as (Hn & _ & Ho).
    exact (conj (Hn eq_refl) Ho).
  - assert (Hdeep : deep_os <> EmptyString) by (vm_compute; discriminate).
    assert (Hmark : has_marker (Py.lower deep_os) = true)
      by (vm_compute; reflexivity).
    assert (Hj : @json_loads deep_decoders deep_os = Raises RecursionError)
      by (vm_compute; reflexivity).
    assert (Hl : @literal_eval deep_decoders deep_os = Raises SyntaxError)
      by (vm_compute; reflexivity).
    assert (He : RecursionError <> JSONDecodeError) by discriminate.
    destruct (@parse_os_data_text deep_decoders deep_os) as [_ Hne].
    destruct (Hne Hdeep) as [_ Hmarked].
    destruct (Hmarked Hmark) as [_ [_ Hfail]].
    destruct (Hfail RecursionError SyntaxError Hj Hl) as (_ & Hn & Ho).
    exact (conj (Hn He) Ho).
Defined.

(** C1 as stated fails on the empty text, which has no marker and no space
    and yet gives (null, null), not (text, null); in the optimised
    pipeline on a mapping written as a Python literal, which begins with a
    brace, is refused by the JSON decoder and is never given to the literal
    decoder that accepts it; and in the navigation pipeline on a deep text
    on which both decoders fail, the JSON decoder with a recursion error:
    that error leaves the parser, where the optimised pipeline returns
    (text, null). *)
Lemma parse_os_data_text_counterexample :
  (has_marker (Py.lower "") = false /\ Py.has_char " " "" = false /\
   Nav.parse_os_data (PStr "") = Returns (None, None) /\
   Opt.parse_os_data (PStr "") = Returns (None, None) /\
   Nav.parse_os_data (PStr "") <> Returns (Some "", None)) /\
  (has_marker (Py.lower os_literal) = true /\
   Spec.decodes_to os_literal os_dict /\
   Opt.parse_os_data (PStr os_literal) = Returns (Some os_literal, None) /\
   Opt.parse_os_data (PStr os_literal)
   <> Returns (Spec.subfield [(PStr "name", PStr "Ubuntu");
                              (PStr "version", PStr "22.04")] "name",
               Spec.subfield [(PStr "name", PStr "Ubuntu");
                              (PStr "version", PStr "22.04")] "version")) /\
  (has_marker (Py.lower deep_os) = true /\
   @json_loads deep_decoders deep_os = Raises RecursionError /\
   @literal_eval deep_decoders deep_os = Raises SyntaxError /\
   @Nav.parse_os_data deep_decoders (PStr deep_os) = Raises RecursionError /\
   @Nav.parse_os_data deep_decoders (PStr deep_os)
   <> Returns (Some deep_os, None) /\
   @Opt.parse_os_data deep_decoders (PStr deep_os)
   = Returns (Some deep_os, None)).
Proof.
  split; [|split].
  - repeat split; discriminate.
  - repeat split; try discriminate.
    right. split; reflexivity.
  - assert (Hnav : @Nav.parse_os_data deep_decoders (PStr deep_os)
                   = Raises RecursionError) by (vm_compute; reflexivity).
    split; [vm_compute; reflexivity|].
    split; [vm_compute; reflexivity|].
    split; [vm_compute; reflexivity|].
    split; [exact Hnav|].
    split; [rewrite Hnav; discriminate|].
    vm_compute. reflexivity.
Qed.

Lemma parse_os_data_other_witness :
  (Nav.parse_os_data (PInt 7) = Returns (Some "7", None) /\
   Opt.parse_os_data (PInt 7) = Returns (Some "7", None)) /\
  (Nav.parse_os_data (PInt 0) = Returns (Some "0", None) /\
   Opt.parse_os_data (PInt 0) = Returns (None, None)).
Proof.
  split.
  - exact (@parse_os_data_other decoders (PInt 7)
             eq_refl eq_refl eq_refl eq_refl).
  - exact (@parse_os_data_other decoders (PInt 0)
             eq_refl eq_refl eq_refl eq_refl).
Defined.

(** C10 as stated fails in the optimised pipeline on the number 0, which is
    not missing, not a text and not a mapping. *)
Lemma parse_os_data_other_counterexample :
  Val.isna (PInt 0) = false /\ Val.is_str (PInt 0) = false /\
  Val.is_dict (PInt 0) = false /\
  Opt.parse_os_data (PInt 0) = Returns (None, None) /\
  Opt.parse_os_data (PInt 0) <> Returns (Some (Val.str (PInt 0)), None).
Proof.
  repeat split; discriminate.
Qed.

Lemma list_parsers_decode_failure_witness :
  Opt.parse_json_data (PStr software_broken) software_fields = Returns [] /\
  Legacy.parse_software_data (PStr software_broken) = Returns [] /\
  Nav.parse_software_data (PStr software_broken) = Returns [] /\
  Nav.parse_vulnerabilities_data (PStr software_broken) = Returns [].
Proof.
  destruct (@list_parsers_decode_failure decoders software_broken
              JSONDecodeError SyntaxError software_fields eq_refl eq_refl)
    as [Ho [Hl Hn]].
  destruct (Hn eq_refl) as [Hs Hv].
  exact (conj Ho (conj Hl (conj Hs Hv))).
Defined.



(** C4 at the tenant name "Acme [OLD] Corp": the optimised pipeline keeps
    the two blanks that the removed span leaves side by side, where the
    specification, and the navigation pipeline, give "Acme Corp".  On
    "Acme [LEGACY]" both give "Acme". *)
Lemma opt_clean_tenant_name_keeps_blank_runs :
  Opt.clean_tenant_name (PStr "Acme [OLD] Corp") = Some "Acme  Corp" /\
  Spec.cleaned_name "Acme [OLD] Corp" = "Acme Corp" /\
  Nav.clean_tenant_name (PStr "Acme [OLD] Corp") = Some "Acme Corp" /\
  Opt.clean_tenant_name (PStr "Acme [LEGACY]") = Some "Acme" /\
  Nav.clean_tenant_name (PStr "Acme [LEGACY]") = Some "Acme".
Proof.
  repeat split.
Qed.

Lemma pipelines_agree_witness :
  Nav.parse_os_data (PStr "Ubuntu 22.04")
  = Opt.parse_os_data (PStr "Ubuntu 22.04") /\
  Nav.clean_tenant_name PNaN = Opt.clean_tenant_name PNaN /\
  Nav.clean_tenant_name (PStr "[TEST] Corp") = Some "Corp".
Proof.
  split; [|split].
  - destruct (@pipelines_agree decoders (PStr "Ubuntu 22.04")) as [Hos _].
    exact (Hos (Spec.common_plain "Ubuntu 22.04" eq_refl)).
  - destruct (@pipelines_agree decoders PNaN) as [_ [Hmissing _]].
    exact (Hmissing eq_refl).
  - destruct (@pipelines_agree decoders (PStr "[TEST] Corp"))
      as [_ [_ Hsame]].
    exact (Hsame "Corp" eq_refl eq_refl).
Defined.

(** C9 as stated fails: the two pipelines differ on the number 0 as OS
    field, on a mapping written as a Python literal, on a deep text on
    which the JSON decoder exceeds the recursion limit (the navigation
    pipeline raises, the optimised one returns the text), and on a tenant
    name with a bracketed span between two words. *)
Lemma pipelines_agree_counterexample :
  Nav.parse_os_data (PInt 0) <> Opt.parse_os_data (PInt 0) /\
  Nav.parse_os_data (PStr os_literal) <> Opt.parse_os_data (PStr os_literal) /\
  @Nav.parse_os_data deep_decoders (PStr deep_os)
  <> @Opt.parse_os_data deep_decoders (PStr deep_os) /\
  Nav.clean_tenant_name (PStr "Acme [OLD] Corp")
  <> Opt.clean_tenant_name (PStr "Acme [OLD] Corp").
Proof.
  split; [discriminate|]. split; [discriminate|]. split; [|discriminate].
  assert (Hnav : @Nav.parse_os_data deep_decoders (PStr deep_os)
                 = Raises RecursionError) by (vm_compute; reflexivity).
  rewrite Hnav. destruct (@Opt.parse_os_data deep_decoders (PStr deep_os))
    eqn:E; [discriminate|].
  vm_compute in E. discriminate E.
Qed.

End FieldExamples.

(** ** Merging the two tables *)

Section MergeFacts.

Context `{Decoders}.

Lemma key_eqb_eq (a b : option string) : Pd.key_eqb a b = true <-> a = b.
Proof.
  destruct a as [x|], b as [y|]; simpl; try (split; congruence).
  rewrite String.eqb_eq. split; congruence.
Qed.

Lemma key_eqb_refl (a : option string) : Pd.key_eqb a a = true.
Proof.
  now apply key_eqb_eq.
Qed.

Lemma joined_device (right : list hardware) (d : device) (m : merged_row) :
  In m (Pd.joined right d) -> m_device m = d.
Proof.
  unfold Pd.joined. destruct (Pd.matching (fqdn d) right) as [|h hs].
  - intros [<- | []]. reflexivity.
  - intros Hin. apply in_map_iff in Hin as (h' & <- & _). reflexivity.
Qed.

Lemma joined_not_empty (right : list hardware) (d : device) :
  Pd.joined right d <> [].
Proof.
  unfold Pd.joined. destruct (Pd.matching (fqdn d) right); discriminate.
Qed.

Lemma joined_one (right : list hardware) (d : device) :
  List.length (Pd.matching (fqdn d) right) = 1 ->
  exists h, Pd.matching (fqdn d) right = [h] /\
            Pd.joined right d = [{| m_device := d; m_specs := specs_of h |}].
Proof.
  unfold Pd.joined. destruct (Pd.matching (fqdn d) right) as [|h [|h' hs]];
    try discriminate.
  intros _. exists h. split; reflexivity.
Qed.

Lemma merge_left_cons (d : device) (left : list device)
    (right : list hardware) :
  Pd.merge_left (d :: left) right = Pd.joined right d ++ Pd.merge_left left right.
Proof.
  reflexivity.
Qed.

Lemma merge_left_empty (left : list device) (right : list hardware) :
  (List.length (Pd.merge_left left right) =? 0)%nat
  = (List.length left =? 0)%nat.
Proof.
  destruct left as [|d left]; [reflexivity|].
  rewrite merge_left_cons, length_app.
  pose proof (joined_not_empty right d) as Hne.
  destruct (Pd.joined right d); [contradiction|]. reflexivity.
Qed.

Lemma merge_left_one_each (left : list device) (right : list hardware) :
  (forall d, In d left -> List.length (Pd.matching (fqdn d) right) = 1) ->
  map m_device (Pd.merge_left left right) = left.
Proof.
  induction left as [|d left IH]; intros Hone; [reflexivity|].
  rewrite merge_left_cons, map_app, IH.
  - destruct (joined_one right d (Hone d (or_introl eq_refl))) as (h & _ & ->).
    reflexivity.
  - intros d' Hd'. apply Hone. now right.
Qed.

Lemma normalise_rows (with_os : bool) (merged : list merged_row)
    (data : list report_row) :
  Nav.normalise with_os merged = Returns data -> map r_merged data = merged.
Proof.
  revert data. induction merged as [|m merged IH]; intros data; simpl.
  - intros E. injection E as <-. reflexivity.
  - destruct (if with_os then Nav.parse_os_data (os (m_device m))
              else Returns (None, None)) as [[p v]|e]; [|discriminate].
    destruct (Nav.normalise with_os merged) as [more|e]; [|discriminate].
    intros E. injection E as <-. simpl. now rewrite (IH more eq_refl).
Qed.

(** C6.  When the hardware table holds exactly one row for the device name
    of each inventory row, the merge gives as many rows as the inventory
    has, one per inventory row and in the same order, and the rows the
    report is drawn from are as many.  Whatever the hardware table, every
    inventory row is in the merge, no merged row comes from elsewhere, and
    an inventory row without hardware row is merged with empty hardware
    cells. *)
Theorem merge_left_cardinality (left : list device) (right : list hardware) :
  ((forall d, In d left -> List.length (Pd.matching (fqdn d) right) = 1) ->
   List.length (Pd.merge_left left right) = List.length left /\
   map m_device (Pd.merge_left left right) = left /\
   (forall (with_os : bool) (data : list report_row),
       Nav.normalise with_os (Pd.merge_left left right) = Returns data ->
       List.length data = List.length left)) /\
  (forall d, In d left ->
             exists m, In m (Pd.merge_left left right) /\ m_device m = d) /\
  (forall m, In m (Pd.merge_left left right) -> In (m_device m) left) /\
  (forall d, In d left -> Pd.matching (fqdn d) right = [] ->
             In {| m_device := d; m_specs := null_specs |}
                (Pd.merge_left left right)).
Proof.
  split; [|split; [|split]].
  - intros Hone. pose proof (merge_left_one_each left right Hone) as Hmap.
    assert (Hlen : List.length (Pd.merge_left left right) = List.length left).
    { rewrite <- Hmap at 2. now rewrite length_map. }
    split; [exact Hlen|]. split; [exact Hmap|].
    intros with_os data Hdata. apply normalise_rows in Hdata.
    rewrite <- Hlen, <- Hdata. now rewrite length_map.
  - intros d Hd. unfold Pd.merge_left.
    destruct (Pd.joined right d) as [|m ms] eqn:J.
    + now apply joined_not_empty in J.
    + exists m. split.
      * apply in_flat_map. exists d. split; [exact Hd|].
        rewrite J. now left.
      * apply (joined_device right). rewrite J. now left.
  - intros m Hm. unfold Pd.merge_left in Hm.
    apply in_flat_map in Hm as (d & Hd & Hm).
    now rewrite (joined_device right d m Hm).
  - intros d Hd Hnone. unfold Pd.merge_left. apply in_flat_map.
    exists d. split; [exact Hd|]. unfold Pd.joined. rewrite Hnone. now left.
Qed.

End MergeFacts.

(** ** Tenant partitions *)

Section PartitionFacts.

Context `{Decoders} `{Titles}.

Lemma in_unique (x : option string) (l : list (option string)) :
  In x (Pd.unique l) <-> In x l.
Proof.
  induction l as [|y l IH]; [reflexivity|].
  simpl. rewrite filter_In, IH. split.
  - intros [-> | [Hin _]]; [now left | now right].
  - intros [-> | Hin]; [now left|].
    destruct (Pd.key_eqb y x) eqn:E.
    + left. now apply key_eqb_eq.
    + right. split; [exact Hin | reflexivity].
Qed.

Lemma nodup_filter {A : Type} (f : A -> bool) (l : list A) :
  NoDup l -> NoDup (filter f l).
Proof.
  induction 1 as [|x l Hx Hl IH]; simpl; [constructor|].
  destruct (f x); [|exact IH].
  constructor; [|exact IH]. rewrite filter_In. tauto.
Qed.

Lemma nodup_unique (l : list (option string)) : NoDup (Pd.unique l).
Proof.
  induction l as [|x l IH]; simpl; constructor.
  - rewrite filter_In, key_eqb_refl. simpl. intros [_ F]. discriminate.
  - now apply nodup_filter.
Qed.

Lemma in_names (t : string) (l : list (option string)) :
  In t (flat_map (fun x => match x with Some s => [s] | None => [] end) l)
  <-> In (Some t) l.
Proof.
  rewrite in_flat_map. split.
  - intros ([s|] & Hin & Ht); [|destruct Ht].
    destruct Ht as [-> | []]. exact Hin.
  - intros Hin. exists (Some t). split; [exact Hin | now left].
Qed.

Lemma nodup_names (l : list (option string)) :
  NoDup l ->
  NoDup (flat_map (fun x => match x with Some s => [s] | None => [] end) l).
Proof.
  induction 1 as [|x l Hx Hl IH]; simpl; [constructor|].
  destruct x as [s|]; [|exact IH].
  simpl. constructor; [|exact IH]. rewrite in_names. exact Hx.
Qed.

Lemma in_tenants_of (t : string) (data : list report_row) :
  In t (tenants_of data) <-> exists r, In r data /\ r_tenant r = Some t.
Proof.
  unfold tenants_of. rewrite in_names, in_unique, in_map_iff.
  split; intros (r & A & B); exists r; tauto.
Qed.

Lemma in_tenant_rows (data : frame report_row) (t : string)
    (r : report_row) :
  In r (rows (tenant_rows data t)) <-> In r (rows data) /\ r_tenant r = Some t.
Proof.
  unfold tenant_rows. simpl. rewrite filter_In, key_eqb_eq. reflexivity.
Qed.

Lemma navigation_lines_length (names tenants : list string)
    (lines : list (list pyval)) :
  Nav.navigation_lines names tenants = Returns lines ->
  map (hd PNone) lines
  = map (fun t => PStr (Spec.cleaned_name t)) tenants.
Proof.
  revert lines. induction tenants as [|t tenants IH]; intros lines.
  - intros E. injection E as <-. reflexivity.
  - cbn [Nav.navigation_lines]. unfold Nav.navigation_line.
    rewrite nav_clean_tenant_name_text.
    destruct (Nav.navigation_lines names tenants) as [more|e];
      [|discriminate].
    intros E. injection E as <-.
    cbn [map hd]. now rewrite (IH more eq_refl).
Qed.

(** C5 (amended).  A merged row whose clean tenant name is null belongs to
    no tenant partition.  A row whose clean tenant name is a text, the
    empty text included, belongs to the partition of that name and to no
    other, and that name is listed once among the tenants; the navigation
    sheet has one row per listed tenant. *)
Theorem tenant_partition (data : frame report_row) (r : report_row) :
  In r (rows data) ->
  (r_tenant r = None ->
   forall t : string, ~ In r (rows (tenant_rows data t))) /\
  (forall n : string,
      r_tenant r = Some n ->
      In n (tenants_of (rows data)) /\
      In r (rows (tenant_rows data n)) /\
      (forall t : string, In r (rows (tenant_rows data t)) -> t = n)) /\
  NoDup (tenants_of (rows data)) /\
  (forall t : string,
      In t (tenants_of (rows data)) ->
      exists r', In r' (rows data) /\ r_tenant r' = Some t) /\
  (forall (names : list string) (lines : list (list pyval)),
      Nav.navigation_lines names (tenants_of (rows data)) = Returns lines ->
      map (hd PNone) lines
      = map (fun t => PStr (Spec.cleaned_name t)) (tenants_of (rows data))).
Proof.
  intros Hr. split; [|split; [|split; [|split]]].
  - intros Hnone t Hin. apply in_tenant_rows in Hin as [_ Ht]. congruence.
  - intros n Hn. split; [|split].
    + apply in_tenants_of. now exists r.
    + now apply in_tenant_rows.
    + intros t Hin. apply in_tenant_rows in Hin as [_ Ht]. congruence.
  - apply nodup_names, nodup_unique.
  - intros t. apply in_tenants_of.
  - intros names lines. apply navigation_lines_length.
Qed.

End PartitionFacts.

(** ** Rendering the tenants *)

Section RenderFacts.

Context `{Decoders} `{Titles}.

Lemma only_adds_ret {A : Type} (a : A) : only_adds (ret a).
Proof.
  intros wb. exists []. simpl. now rewrite app_nil_r.
Qed.

Lemma only_adds_raise {A : Type} (e : exn) : only_adds (@raise A e).
Proof.
  intros wb. exists []. simpl. now rewrite app_nil_r.
Qed.

Lemma only_adds_lift {A : Type} (o : outcome A) : only_adds (lift o).
Proof.
  intros wb. exists []. simpl. now rewrite app_nil_r.
Qed.

Lemma only_adds_create_sheet (name : string) : only_adds (create_sheet name).
Proof.
  intros wb. exists []. simpl. now rewrite app_nil_r.
Qed.

Lemma only_adds_commit (ws : worksheet) : only_adds (commit ws).
Proof.
  intros wb. exists [ws]. reflexivity.
Qed.

Lemma only_adds_bind {A B : Type} (m : action A) (k : A -> action B) :
  only_adds m -> (forall a, only_adds (k a)) -> only_adds (bind m k).
Proof.
  intros Hm Hk wb. unfold bind. destruct (Hm wb) as [new1 E1].
  destruct (m wb) as [wb1 [a|e]]; simpl in E1; subst wb1.
  - destruct (Hk a (wb ++ new1)) as [new2 E2]. exists (new1 ++ new2).
    now rewrite E2, app_assoc.
  - now exists new1.
Qed.

Lemma only_adds_group_sheet (rows_found : outcome (list grouped_row))
    (name : string) (fields : list string) :
  only_adds
    (found <- lift rows_found ;;
     match found with
     | [] => ret tt
     | _ =>
         ws <- create_sheet name ;;
         commit (Nav.create_merged_sheet (add_back_to_navigation_link ws)
                                         found fields)
     end).
Proof.
  apply only_adds_bind; [apply only_adds_lift|].
  intros [|r found]; [apply only_adds_ret|].
  apply only_adds_bind; [apply only_adds_create_sheet|].
  intros ws. apply only_adds_commit.
Qed.

Lemma only_adds_body (merged_data : frame report_row) (tenant_name : string) :
  only_adds (Nav.tenant_sheets_body merged_data tenant_name).
Proof.
  unfold Nav.tenant_sheets_body.
  destruct (Nav.clean_tenant_name (PStr tenant_name)) as [clean_name|];
    [|apply only_adds_raise].
  apply only_adds_bind; [apply only_adds_create_sheet|]. intros ws_main.
  apply only_adds_bind; [apply only_adds_commit|]. intros _.
  apply only_adds_bind.
  - destruct (has_column _ "software");
      [apply only_adds_group_sheet | apply only_adds_ret].
  - intros _. destruct (has_column _ "vulnerabilities");
      [apply only_adds_group_sheet | apply only_adds_ret].
Qed.

(** One tenant: the sheets and the messages already there stay. *)
Lemma create_tenant_sheets_extends (st : run)
    (merged_data : frame report_row) (tenant_name : string) :
  exists new_sheets new_messages,
    book (Nav.create_tenant_sheets st merged_data tenant_name)
    = book st ++ new_sheets /\
    printed (Nav.create_tenant_sheets st merged_data tenant_name)
    = printed st ++ new_messages.
Proof.
  unfold Nav.create_tenant_sheets.
  destruct (only_adds_body merged_data tenant_name (book st)) as [new E].
  destruct (Nav.tenant_sheets_body merged_data tenant_name (book st))
    as [wb [u|e]]; simpl in E; subst wb; simpl.
  - exists new, []. now rewrite app_nil_r.
  - now exists new, [{| about_tenant := tenant_name; error := e |}].
Qed.

Lemma render_tenants_extends (tenants : list string) :
  forall (st : run) (merged_data : frame report_row),
  exists new_sheets new_messages,
    book (Nav.render_tenants st merged_data tenants) = book st ++ new_sheets /\
    printed (Nav.render_tenants st merged_data tenants)
    = printed st ++ new_messages.
Proof.
  induction tenants as [|t tenants IH]; intros st merged_data.
  - exists [], []. simpl. now rewrite !app_nil_r.
  - simpl.
    destruct (create_tenant_sheets_extends st merged_data t)
      as (s1 & m1 & Eb1 & Ep1).
    destruct (IH (Nav.create_tenant_sheets st merged_data t) merged_data)
      as (s2 & m2 & Eb2 & Ep2).
    exists (s1 ++ s2), (m1 ++ m2). unfold Nav.render_tenants in *. simpl.
    rewrite Eb2, Ep2, Eb1, Ep1, !app_assoc. split; reflexivity.
Qed.

Lemma render_tenants_app (st : run) (merged_data : frame report_row)
    (before after : list string) :
  Nav.render_tenants st merged_data (before ++ after)
  = Nav.render_tenants (Nav.render_tenants st merged_data before)
                       merged_data after.
Proof.
  unfold Nav.render_tenants. apply fold_left_app.
Qed.

Lemma cells_append_all (lines : list (list pyval)) :
  forall ws : worksheet,
    cells (fold_left (fun w line => Xl.append line w) lines ws)
    = cells ws ++ lines.
Proof.
  induction lines as [|l lines IH]; intros ws; simpl.
  - now rewrite app_nil_r.
  - rewrite IH. simpl. now rewrite <- app_assoc.
Qed.

Lemma merged_append_all (lines : list (list pyval)) :
  forall ws : worksheet,
    merged_cells (fold_left (fun w line => Xl.append line w) lines ws)
    = merged_cells ws.
Proof.
  induction lines as [|l lines IH]; intros ws; simpl; [reflexivity|].
  now rewrite IH.
Qed.

Lemma new_sheet_empty (wb : workbook) (name : string) (ws : worksheet) :
  Xl.new_sheet wb name = Returns ws -> cells ws = [] /\ merged_cells ws = [].
Proof.
  unfold Xl.new_sheet. destruct (Xl.invalid_title name); [discriminate|].
  intros E. injection E as <-. split; reflexivity.
Qed.

Lemma back_link_on_empty (ws : worksheet) :
  cells ws = [] ->
  cells (add_back_to_navigation_link ws) = [[PStr back_label]].
Proof.
  intros E. unfold add_back_to_navigation_link, Xl.set_cell. simpl.
  now rewrite E.
Qed.

(** The main sheet of a tenant whose rendering returns. *)
Lemma body_main_sheet (merged_data : frame report_row) (tenant_name : string)
    (wb wb' : workbook) :
  Nav.tenant_sheets_body merged_data tenant_name wb = (wb', Returns tt) ->
  exists (ws_main : worksheet) (more : list worksheet),
    wb' = wb ++ ws_main :: more /\
    cells ws_main
    = [PStr back_label] :: main_lines (tenant_rows merged_data tenant_name).
Proof.
  unfold Nav.tenant_sheets_body.
  rewrite nav_clean_tenant_name_text.
  set (prefix := Py.take 25 (Spec.cleaned_name tenant_name)).
  set (lines := main_lines (tenant_rows merged_data tenant_name)).
  unfold bind at 1. unfold create_sheet at 1.
  destruct (Xl.new_sheet wb (prefix ++ "_MAIN")) as [ws_main|e] eqn:Enew;
    [|discriminate].
  apply new_sheet_empty in Enew as [Hcells _].
  unfold bind at 1. unfold commit at 1.
  set (rest := bind _ _).
  intros E.
  assert (Hrest : only_adds rest).
  { subst rest. apply only_adds_bind.
    - destruct (has_column _ "software");
        [apply only_adds_group_sheet | apply only_adds_ret].
    - intros _. destruct (has_column _ "vulnerabilities");
        [apply only_adds_group_sheet | apply only_adds_ret]. }
  set (sheet := fold_left (fun w line => Xl.append line w) lines
                          (add_back_to_navigation_link ws_main)) in *.
  destruct (Hrest (wb ++ [sheet])) as [more Emore].
  rewrite E in Emore. cbn [fst] in Emore. rewrite <- app_assoc in Emore.
  exists sheet, more. split; [exact Emore|].
  subst sheet. rewrite cells_append_all, (back_link_on_empty _ Hcells).
  reflexivity.
Qed.

Lemma nav_navigation_lines_return (names tenants : list string) :
  exists lines,
    Nav.navigation_lines names tenants = Returns lines /\
    List.length lines = List.length tenants.
Proof.
  induction tenants as [|t tenants (lines & E & L)].
  - exists []. split; reflexivity.
  - cbn [Nav.navigation_lines]. unfold Nav.navigation_line.
    rewrite nav_clean_tenant_name_text, E.
    eexists. split; [reflexivity|]. simpl. now rewrite L.
Qed.

Lemma nav_navigation_sheet_returns (tenants : list string) (wb : workbook) :
  exists nav lines,
    Nav.create_navigation_sheet tenants wb = (nav :: wb, Returns tt) /\
    cells nav
    = [PStr navigation_heading]
      :: map PStr ["Tenant Name"; "Main Data"; "Software"; "Vulnerabilities"]
      :: lines /\
    List.length lines = List.length tenants.
Proof.
  unfold Nav.create_navigation_sheet, bind, create_sheet, lift, commit_first.
  unfold Xl.new_sheet.
  change (Xl.invalid_title navigation_title) with false. cbv iota.
  destruct (nav_navigation_lines_return
              (avoid_duplicate_name (Xl.sheetnames wb) navigation_title
               :: Xl.sheetnames wb) tenants) as (lines & E & L).
  cbn [title]. rewrite E.
  eexists _, lines. split; [reflexivity|]. split; [reflexivity | exact L].
Qed.

(** C8.  In the loop over the tenants, whatever the rendering of a tenant
    raises is caught and printed with the name of that tenant, and the loop
    goes on: the sheets that stand in the workbook after the turn of a
    tenant are all in the workbook the loop ends with, whatever happens to
    the tenants before and after it.  So the main sheet of a tenant whose
    rendering returns is in the final workbook, and the sheets made before
    a tenant whose rendering raises are in it too; the navigation sheet is
    then added in front of them, and the workbook that [process_data]
    returns is the one of the loop under the navigation sheet.  The run
    itself returns whatever the rendering of the tenants raised: once the
    tables are merged and normalised and the tenant column is there,
    [process_data] returns the workbook of the loop under the navigation
    sheet, with the messages of the tenants that failed. *)
Theorem tenant_failure_is_contained (merged_data : frame report_row)
    (st0 : run) (before after : list string) (t : string) :
  let st1 := Nav.render_tenants st0 merged_data before in
  let st2 := Nav.create_tenant_sheets st1 merged_data t in
  let final := Nav.render_tenants st0 merged_data (before ++ t :: after) in
  (forall ws, In ws (book st2) -> In ws (book final)) /\
  (forall wb e,
      Nav.tenant_sheets_body merged_data t (book st1) = (wb, Raises e) ->
      In {| about_tenant := t; error := e |} (printed final) /\
      (forall ws, In ws (book st1) -> In ws (book final))) /\
  (forall wb,
      Nav.tenant_sheets_body merged_data t (book st1) = (wb, Returns tt) ->
      exists ws_main,
        In ws_main (book final) /\
        cells ws_main
        = [PStr back_label] :: main_lines (tenant_rows merged_data t)) /\
  (forall tenants wb,
      Nav.create_navigation_sheet tenants (book final) = (wb, Returns tt) ->
      forall ws, In ws (book final) -> In ws wb) /\
  (forall all_data devices_report out,
      Nav.process_data all_data devices_report = Returns out ->
      exists data nav,
        Nav.normalise (has_column all_data "os")
                      (Pd.merge_left (rows all_data) (rows devices_report))
        = Returns data /\
        book out
        = nav :: book (Nav.render_tenants
                         {| book := []; printed := [] |}
                         {| columns := merged_columns (columns all_data);
                            rows := data |}
                         (tenants_of data))) /\
  (forall all_data devices_report data,
      missing_columns devices_report = [] ->
      has_column all_data "fqdn" = true ->
      has_column all_data "tenantName" = true ->
      has_column all_data "os" = false \/ rows all_data <> [] ->
      Nav.normalise (has_column all_data "os")
                    (Pd.merge_left (rows all_data) (rows devices_report))
      = Returns data ->
      let loop := Nav.render_tenants
                    {| book := []; printed := [] |}
                    {| columns := merged_columns (columns all_data);
                       rows := data |}
                    (tenants_of data) in
      exists nav,
        Nav.process_data all_data devices_report
        = Returns {| book := nav :: book loop; printed := printed loop |}).
Proof.
  intros st1 st2 final.
  assert (Hfinal : final = Nav.render_tenants st2 merged_data after).
  { subst final st2 st1. now rewrite render_tenants_app. }
  destruct (render_tenants_extends after st2 merged_data)
    as (s2 & m2 & Eb2 & Ep2).
  rewrite <- Hfinal in Eb2, Ep2.
  destruct (create_tenant_sheets_extends st1 merged_data t)
    as (s1 & m1 & Eb1 & Ep1).
  fold st2 in Eb1, Ep1.
  split; [|split; [|split; [|split; [|split]]]].
  - intros ws Hin. rewrite Eb2. apply in_or_app. now left.
  - intros wb e Hbody. split.
    + rewrite Ep2. apply in_or_app. left.
      subst st2. unfold Nav.create_tenant_sheets. rewrite Hbody. simpl.
      apply in_or_app. right. now left.
    + intros ws Hin. rewrite Eb2, Eb1. apply in_or_app. left.
      apply in_or_app. now left.
  - intros wb Hbody.
    destruct (body_main_sheet merged_data t (book st1) wb Hbody)
      as (ws_main & more & Ewb & Hcells).
    exists ws_main. split; [|exact Hcells].
    rewrite Eb2. apply in_or_app. left.
    subst st2. unfold Nav.create_tenant_sheets. rewrite Hbody. simpl.
    rewrite Ewb. apply in_or_app. right. now left.
  - intros tenants wb. unfold Nav.create_navigation_sheet.
    unfold bind, create_sheet, lift, commit_first.
    destruct (Xl.new_sheet (book final) navigation_title); [|discriminate].
    destruct (Nav.navigation_lines _ tenants); [|discriminate].
    intros E. injection E as <-. intros ws Hin. now right.
  - intros all_data devices_report out. unfold Nav.process_data.
    destruct (missing_columns devices_report); [|discriminate].
    destruct (negb (has_column all_data "fqdn")); [discriminate|].
    destruct (Nav.normalise _ _) as [data|e]; [|discriminate].
    destruct (has_column all_data "os" && _); [discriminate|].
    destruct (negb (has_column all_data "tenantName")); [discriminate|].
    unfold Nav.create_navigation_sheet.
    unfold bind, create_sheet, lift, commit_first.
    destruct (Xl.new_sheet _ navigation_title); [|discriminate].
    destruct (Nav.navigation_lines _ _); [|discriminate].
    intros E. injection E as <-. simpl. eexists _, _.
    split; reflexivity.
  - intros all_data devices_report data Hhw Hf Ht Hrows N loop.
    unfold Nav.process_data. rewrite Hhw, Hf, N, Ht, merge_left_empty.
    assert (Hgo : has_column all_data "os"
                  && (List.length (rows all_data) =? 0)%nat = false).
    { destruct Hrows as [-> | Hne]; [reflexivity|].
      destruct (rows all_data); [contradiction|]. apply andb_false_r. }
    rewrite Hgo. cbn [negb]. fold loop.
    destruct (nav_navigation_sheet_returns (tenants_of data) (book loop))
      as (nav & lines & -> & _).
    exists nav. reflexivity.
Qed.

End RenderFacts.

(** ** Grouped sheets *)

Section GroupFacts.

(** The keys of a grouping are sorted, hence distinct. *)
Lemma ltb_compare (a b : string) :
  Spec.key_lt a b <-> String.compare a b = Lt.
Proof.
  unfold Spec.key_lt, String.ltb.
  destruct (String.compare a b); split; congruence.
Qed.

Lemma key_lt_trans (a b c : string) :
  Spec.key_lt a b -> Spec.key_lt b c -> Spec.key_lt a c.
Proof.
  rewrite !ltb_compare. intros Hab Hbc.
  apply String_as_OT.cmp_lt. apply String_as_OT.cmp_lt in Hab, Hbc.
  exact (String_as_OT.lt_trans _ _ _ Hab Hbc).
Qed.

Lemma key_lt_irrefl (a : string) : ~ Spec.key_lt a a.
Proof.
  rewrite ltb_compare. intros E. pose proof (String.compare_antisym a a) as S.
  rewrite E in S. discriminate.
Qed.

Lemma key_lt_total (a b : string) :
  String.eqb a b = false -> String.ltb a b = false -> Spec.key_lt b a.
Proof.
  intros Hne Hnlt. apply ltb_compare. rewrite String.compare_antisym.
  unfold String.ltb in Hnlt. destruct (String.compare a b) eqn:C.
  - apply String.compare_eq_iff in C. subst b.
    now rewrite String.eqb_refl in Hne.
  - discriminate.
  - reflexivity.
Qed.

Lemma in_insert_key (x k : string) (ks : list string) :
  In x (Pd.insert_key k ks) <-> x = k \/ In x ks.
Proof.
  induction ks as [|k' ks IH]; simpl.
  - intuition.
  - destruct (String.eqb k k') eqn:E.
    + apply String.eqb_eq in E. subst k'. simpl. intuition.
    + destruct (String.ltb k k'); simpl; [intuition|].
      rewrite IH. intuition.
Qed.

Lemma insert_key_sorted (k : string) (ks : list string) :
  StronglySorted Spec.key_lt ks ->
  StronglySorted Spec.key_lt (Pd.insert_key k ks).
Proof.
  induction 1 as [|k' ks Hs IH Hall]; simpl.
  - constructor; constructor.
  - destruct (String.eqb k k') eqn:E; [now constructor|].
    destruct (String.ltb k k') eqn:L.
    + constructor; [now constructor|].
      constructor; [exact L|].
      apply Forall_forall. intros x Hx.
      apply (key_lt_trans k k' x); [exact L|].
      rewrite Forall_forall in Hall. now apply Hall.
    + constructor; [exact IH|].
      apply Forall_forall. intros x Hx. apply in_insert_key in Hx.
      destruct Hx as [-> | Hx].
      * now apply key_lt_total.
      * rewrite Forall_forall in Hall. now apply Hall.
Qed.

Lemma group_keys_sorted (df : list grouped_row) :
  StronglySorted Spec.key_lt (group_keys df).
Proof.
  induction df as [|r df IH]; simpl; [constructor|].
  destruct (g_fqdn r); [now apply insert_key_sorted | exact IH].
Qed.

Lemma sorted_nodup (ks : list string) :
  StronglySorted Spec.key_lt ks -> NoDup ks.
Proof.
  induction 1 as [|k ks Hs IH Hall]; constructor; [|exact IH].
  intros Hin. rewrite Forall_forall in Hall.
  exact (key_lt_irrefl k (Hall k Hin)).
Qed.

Lemma in_group_keys (k : string) (df : list grouped_row) :
  In k (group_keys df) <-> exists r, In r df /\ g_fqdn r = Some k.
Proof.
  induction df as [|r df IH]; simpl.
  - split; [intros [] | intros (r & [] & _)].
  - destruct (g_fqdn r) as [k'|] eqn:E.
    + rewrite in_insert_key, IH. split.
      * intros [-> | (r' & Hin & Hk)].
        -- exists r. split; [now left | exact E].
        -- exists r'. split; [now right | exact Hk].
      * intros (r' & [<- | Hin] & Hk).
        -- left. congruence.
        -- right. now exists r'.
    + rewrite IH. split.
      * intros (r' & Hin & Hk). exists r'. split; [now right | exact Hk].
      * intros (r' & [<- | Hin] & Hk); [congruence|]. now exists r'.
Qed.

Lemma groupby_keys (df : list grouped_row) :
  map fst (groupby df) = group_keys df.
Proof.
  unfold groupby. rewrite map_map. simpl. apply map_id.
Qed.

Lemma in_groupby (df : list grouped_row) (k : string)
    (g : list grouped_row) :
  In (k, g) (groupby df) ->
  g = group_of df k /\ 1 <= List.length g.
Proof.
  unfold groupby. rewrite in_map_iff. intros (k' & E & Hin).
  injection E as -> <-. split; [reflexivity|].
  apply in_group_keys in Hin as (r & Hr & Hk).
  assert (Hg : In r (group_of df k)).
  { unfold group_of. apply filter_In. split; [exact Hr|].
    rewrite Hk. apply key_eqb_refl. }
  destruct (group_of df k); [destruct Hg | simpl; lia].
Qed.

(** What the loop over the groups writes. *)
Lemma length_group_lines (cols : list string) (g : list grouped_row) :
  List.length (group_lines cols g) = List.length g.
Proof.
  destruct g as [|r g]; simpl; [reflexivity|]. now rewrite length_map.
Qed.

Lemma write_groups_cells (cols : list string)
    (groups : list (string * list grouped_row)) :
  forall (current_row : nat) (ws : worksheet),
    cells (write_groups cols groups current_row ws)
    = cells ws ++ flat_map (fun kg => group_lines cols (snd kg)) groups.
Proof.
  induction groups as [|[k g] groups IH]; intros current_row ws.
  - simpl. now rewrite app_nil_r.
  - cbn [write_groups flat_map snd]. rewrite IH.
    destruct (1 <? List.length g)%nat; cbn [Xl.merge_cells cells];
      rewrite cells_append_all; now rewrite app_assoc.
Qed.

Lemma write_groups_merged (cols : list string)
    (groups : list (string * list grouped_row)) :
  forall (current_row : nat) (ws : worksheet),
    merged_cells (write_groups cols groups current_row ws)
    = merged_cells ws ++ Spec.group_ranges groups current_row.
Proof.
  induction groups as [|[k g] groups IH]; intros current_row ws.
  - simpl. now rewrite app_nil_r.
  - cbn [write_groups Spec.group_ranges]. rewrite IH.
    destruct (1 <? List.length g)%nat; cbn [Xl.merge_cells merged_cells];
      rewrite merged_append_all; [|reflexivity].
    now rewrite <- app_assoc.
Qed.

Lemma length_flat_lines (cols : list string)
    (groups : list (string * list grouped_row)) :
  List.length (flat_map (fun kg => group_lines cols (snd kg)) groups)
  = Spec.total_rows groups.
Proof.
  induction groups as [|[k g] groups IH]; [reflexivity|].
  cbn [flat_map snd]. rewrite length_app, length_group_lines, IH.
  reflexivity.
Qed.

Lemma total_rows_cons (k : string) (g : list grouped_row)
    (groups : list (string * list grouped_row)) :
  Spec.total_rows ((k, g) :: groups)
  = List.length g + Spec.total_rows groups.
Proof.
  reflexivity.
Qed.

(** The merged ranges lie where the groups are. *)
Lemma group_ranges_start (groups : list (string * list grouped_row)) :
  forall (first : nat) (r : cell_range),
    In r (Spec.group_ranges groups first) -> first <= start_row r.
Proof.
  induction groups as [|[k g] groups IH]; intros first r; simpl.
  - intros [].
  - intros Hin. apply in_app_or in Hin as [Hin | Hin].
    + destruct (1 <? List.length g)%nat; [|destruct Hin].
      destruct Hin as [<- | []]. simpl. lia.
    + apply IH in Hin. lia.
Qed.

Lemma group_ranges_cover (before : list (string * list grouped_row)) :
  forall (k : string) (g : list grouped_row)
         (after : list (string * list grouped_row))
         (first : nat) (r : cell_range) (i : nat),
    In r (Spec.group_ranges (before ++ (k, g) :: after) first) ->
    i < List.length g ->
    start_row r <= first + Spec.total_rows before + i <= end_row r ->
    (1 < List.length g)%nat /\
    r = Spec.group_range (first + Spec.total_rows before) g.
Proof.
  induction before as [|[k' g'] before IH];
    intros k g after first r i Hin Hi Hcover.
  - cbn [app Spec.group_ranges] in Hin.
    replace (first + Spec.total_rows []) with first in *
      by (unfold Spec.total_rows; simpl; lia).
    apply in_app_or in Hin as [Hin | Hin].
    + destruct (1 <? List.length g)%nat eqn:L; [|destruct Hin].
      destruct Hin as [<- | []]. apply Nat.ltb_lt in L.
      split; [exact L | reflexivity].
    + apply group_ranges_start in Hin. lia.
  - cbn [app Spec.group_ranges] in Hin. rewrite total_rows_cons in *.
    apply in_app_or in Hin as [Hin | Hin].
    + destruct (1 <? List.length g')%nat eqn:L; [|destruct Hin].
      destruct Hin as [<- | []]. apply Nat.ltb_lt in L.
      unfold Spec.group_range in Hcover. simpl in Hcover. lia.
    + replace (first + (List.length g' + Spec.total_rows before))
        with (first + List.length g' + Spec.total_rows before) in * by lia.
      exact (IH k g after (first + List.length g') r i Hin Hi Hcover).
Qed.

Lemma group_ranges_member (before : list (string * list grouped_row)) :
  forall (k : string) (g : list grouped_row)
         (after : list (string * list grouped_row)) (first : nat),
    (1 < List.length g)%nat ->
    In (Spec.group_range (first + Spec.total_rows before) g)
       (Spec.group_ranges (before ++ (k, g) :: after) first).
Proof.
  induction before as [|[k' g'] before IH]; intros k g after first L.
  - cbn [app Spec.group_ranges]. apply in_or_app. left.
    apply Nat.ltb_lt in L. rewrite L.
    replace (first + Spec.total_rows []) with first
      by (unfold Spec.total_rows; simpl; lia).
    now left.
  - cbn [app Spec.group_ranges]. apply in_or_app. right.
    rewrite total_rows_cons.
    replace (first + (List.length g' + Spec.total_rows before))
      with (first + List.length g' + Spec.total_rows before) by lia.
    now apply IH.
Qed.

(** The headers of the navigation pipeline, written cell by cell. *)
Lemma set_nth_end {A : Type} (pad x : A) (l : list A) :
  Xl.set_nth pad (List.length l) x l = l ++ [x].
Proof.
  induction l as [|y l IH]; simpl; [reflexivity|]. now rewrite IH.
Qed.

Lemma header_cells (headers : list string) :
  forall (line1 written : list pyval) (column : nat) (ws : worksheet),
    cells ws = [line1; written] -> column = List.length written + 1 ->
    let ws' :=
      fold_left (fun w ch => Xl.set_cell 2 (fst ch) (PStr (snd ch)) w)
                (combine (seq column (List.length headers)) headers) ws in
    cells ws' = [line1; written ++ map PStr headers] /\
    merged_cells ws' = merged_cells ws.
Proof.
  induction headers as [|h headers IH]; intros line1 written column ws Hc ->.
  - simpl. rewrite app_nil_r. split; [exact Hc | reflexivity].
  - cbn [List.length seq combine fold_left fst snd].
    destruct (IH line1 (written ++ [PStr h]) (S (List.length written + 1))
                 (Xl.set_cell 2 (List.length written + 1) (PStr h) ws))
      as [Hcells Hmerged].
    + unfold Xl.set_cell. cbn [cells]. rewrite Hc.
      replace (List.length written + 1 - 1) with (List.length written) by lia.
      simpl. now rewrite set_nth_end.
    + rewrite length_app. simpl. lia.
    + cbv zeta in Hcells, Hmerged. rewrite Hcells, Hmerged.
      rewrite <- app_assoc. split; reflexivity.
Qed.

Lemma nav_header_cells (cols : list string) (ws0 : worksheet) :
  cells ws0 = [] ->
  let ws' :=
    fold_left (fun w ch => Xl.set_cell 2 (fst ch) (PStr (snd ch)) w)
              (enumerate ("fqdn" :: cols) 1)
              (add_back_to_navigation_link ws0) in
  cells ws' = [[PStr back_label]; map PStr ("fqdn" :: cols)] /\
  merged_cells ws' = merged_cells ws0.
Proof.
  intros Hempty. unfold enumerate.
  cbn [List.length seq combine fold_left fst snd].
  destruct (header_cells cols [PStr back_label] [PStr "fqdn"] 2
              (Xl.set_cell 2 1 (PStr "fqdn")
                           (add_back_to_navigation_link ws0)))
    as [Hcells Hmerged].
  - unfold Xl.set_cell. cbn [cells].
    rewrite (back_link_on_empty ws0 Hempty). reflexivity.
  - reflexivity.
  - cbv zeta in Hcells, Hmerged. split; [exact Hcells|].
    rewrite Hmerged. reflexivity.
Qed.

Lemma skipn_length_app {A : Type} (a b : list A) :
  skipn (List.length a) (a ++ b) = b.
Proof.
  induction a as [|x a IH]; simpl; [reflexivity | exact IH].
Qed.

Lemma firstn_length_app {A : Type} (a b : list A) :
  firstn (List.length a) (a ++ b) = a.
Proof.
  induction a as [|x a IH]; simpl; [reflexivity | now rewrite IH].
Qed.

Lemma nav_sheet_groups (ws : worksheet) (df : list grouped_row)
    (cols : list string) :
  Nav.create_merged_sheet ws df cols
  = write_groups cols (groupby df) 3
      (fold_left (fun w ch => Xl.set_cell 2 (fst ch) (PStr (snd ch)) w)
                 (enumerate ("fqdn" :: cols) 1) ws).
Proof.
  unfold Nav.create_merged_sheet. now destruct df.
Qed.

Lemma nav_sheet_cells (ws0 : worksheet) (df : list grouped_row)
    (cols : list string) :
  cells ws0 = [] ->
  cells (Nav.create_merged_sheet (add_back_to_navigation_link ws0) df cols)
  = [PStr back_label] :: map PStr ("fqdn" :: cols)
    :: flat_map (fun kg => group_lines cols (snd kg)) (groupby df).
Proof.
  intros Hempty. destruct (nav_header_cells cols ws0 Hempty) as [Hhead _].
  cbv zeta in Hhead.
  rewrite nav_sheet_groups, write_groups_cells, Hhead. reflexivity.
Qed.

Lemma nav_sheet_merged (ws0 : worksheet) (df : list grouped_row)
    (cols : list string) :
  cells ws0 = [] ->
  merged_cells (Nav.create_merged_sheet (add_back_to_navigation_link ws0)
                                        df cols)
  = merged_cells ws0 ++ Spec.group_ranges (groupby df) 3.
Proof.
  intros Hempty. destruct (nav_header_cells cols ws0 Hempty) as [_ Hmerged].
  cbv zeta in Hmerged.
  rewrite nav_sheet_groups, write_groups_merged, Hmerged. reflexivity.
Qed.

(** The rows of a group on a sheet that holds two rows above the groups. *)
Lemma lines_of_group (ws : worksheet) (cols : list string)
    (line1 line2 : list pyval)
    (before : list (string * list grouped_row)) (k : string)
    (g : list grouped_row) (after : list (string * list grouped_row)) :
  cells ws
  = line1 :: line2
    :: flat_map (fun kg => group_lines cols (snd kg))
                (before ++ (k, g) :: after) ->
  1 <= List.length g ->
  Spec.lines_between ws (3 + Spec.total_rows before)
                     (3 + Spec.total_rows before + List.length g - 1)
  = group_lines cols g.
Proof.
  intros Ecells Hlen. unfold Spec.lines_between. rewrite Ecells.
  replace (3 + Spec.total_rows before + List.length g - 1 + 1
           - (3 + Spec.total_rows before))
    with (List.length (group_lines cols g))
    by (rewrite length_group_lines; lia).
  replace (3 + Spec.total_rows before - 1)
    with (S (S (List.length
                  (flat_map (fun kg => group_lines cols (snd kg)) before))))
    by (rewrite length_flat_lines; lia).
  cbn [skipn]. rewrite flat_map_app. cbn [flat_map snd].
  rewrite skipn_length_app. apply firstn_length_app.
Qed.

Lemma same_lines_refl (lines : list (list pyval)) :
  Spec.same_lines lines lines.
Proof.
  unfold Spec.same_lines.
  induction lines as [|line lines IH]; constructor; [|exact IH].
  induction line as [|c line IHl]; constructor; [now left | exact IHl].
Qed.

(** X19.  The grouped sheet of the navigation pipeline, drawn on a new
    sheet: the link, the headers, then the rows of the groups in the order
    of the device names, which are distinct.  The group of a device name
    holds the rows of that name and takes as many consecutive rows of the
    sheet; its first column is merged over exactly these rows when there is
    more than one, and no merged range touches them otherwise.  The cells
    are given up to the kind of the empty ones. *)
Theorem nav_grouped_sheet (ws0 : worksheet) (df : list grouped_row)
    (cols : list string) :
  cells ws0 = [] -> merged_cells ws0 = [] ->
  let ws := Nav.create_merged_sheet (add_back_to_navigation_link ws0)
                                    df cols in
  Spec.same_lines
    (cells ws)
    ([PStr back_label] :: map PStr ("fqdn" :: cols)
       :: flat_map (fun kg => group_lines cols (snd kg)) (groupby df)) /\
  NoDup (map fst (groupby df)) /\
  (forall before k g after,
      groupby df = before ++ (k, g) :: after ->
      let first := 3 + Spec.total_rows before in
      g = group_of df k /\ 1 <= List.length g /\
      Spec.same_lines
        (Spec.lines_between ws first (first + List.length g - 1))
        (group_lines cols g) /\
      (1 < List.length g -> In (Spec.group_range first g) (merged_cells ws)) /\
      (forall r i,
          In r (merged_cells ws) -> i < List.length g ->
          start_row r <= first + i <= end_row r ->
          1 < List.length g /\ r = Spec.group_range first g)).
Proof.
  intros Hcells0 Hmerged0 ws.
  assert (Ecells : cells ws
                   = [PStr back_label] :: map PStr ("fqdn" :: cols)
                     :: flat_map (fun kg => group_lines cols (snd kg))
                                 (groupby df)).
  { subst ws. now apply nav_sheet_cells. }
  assert (Emerged : merged_cells ws = Spec.group_ranges (groupby df) 3).
  { subst ws. rewrite (nav_sheet_merged ws0 df cols Hcells0), Hmerged0.
    reflexivity. }
  split; [rewrite Ecells; apply same_lines_refl|]. split.
  - rewrite groupby_keys. apply sorted_nodup, group_keys_sorted.
  - intros before k g after Hsplit first.
    assert (Hin : In (k, g) (groupby df)).
    { rewrite Hsplit. apply in_or_app. right. now left. }
    destruct (in_groupby df k g Hin) as [Hg Hlen].
    split; [exact Hg|]. split; [exact Hlen|].
    rewrite Emerged. split; [|split].
    + rewrite Hsplit in Ecells.
      pose proof (lines_of_group ws cols _ _ before k g after Ecells Hlen)
        as Hlines.
      fold first in Hlines. rewrite Hlines. apply same_lines_refl.
    + intros L. rewrite Hsplit. now apply group_ranges_member.
    + intros r i Hr Hi Hcover. rewrite Hsplit in Hr.
      now apply (group_ranges_cover before k g after 3 r i).
Qed.

Lemma group_of_app (a b : list grouped_row) (k : string) :
  group_of (a ++ b) k = group_of a k ++ group_of b k.
Proof.
  unfold group_of. apply filter_app.
Qed.

Lemma length_group_of_rows (name : option string) (k : string)
    (its : list item) :
  List.length (group_of (rows_of_items name its) k)
  = if Pd.key_eqb name (Some k) then List.length its else 0.
Proof.
  unfold group_of, rows_of_items.
  induction its as [|it its IH]; simpl.
  - now destruct (Pd.key_eqb name (Some k)).
  - destruct (Pd.key_eqb name (Some k)); simpl; now rewrite IH.
Qed.

(** The rows a device name has on the grouped table of the navigation
    pipeline: with one inventory row of that name and K items, K >= 1, it
    has K. *)
Lemma nav_item_rows_count (parse : pyval -> outcome (list item))
    (field_of : device -> pyval) (k : string) (data : list report_row) :
  forall df : list grouped_row,
    Nav.item_rows parse field_of data = Returns df ->
    List.length (group_of df k)
    = list_sum (map (Spec.rows_brought parse field_of k) data).
Proof.
  induction data as [|row data IH]; intros df.
  - intros E. injection E as <-. reflexivity.
  - cbn [Nav.item_rows map list_sum]. unfold Spec.rows_brought at 1.
    destruct (parse (field_of (m_device (r_merged row)))) as [items|e];
      [|discriminate].
    destruct (Nav.item_rows parse field_of data) as [more|e]; [|discriminate].
    intros E. injection E as <-.
    rewrite group_of_app, length_app, length_group_of_rows.
    rewrite (IH more eq_refl).
    destruct (Pd.key_eqb (fqdn (m_device (r_merged row))) (Some k));
      [|reflexivity].
    destruct items; reflexivity.
Qed.

End GroupFacts.

(** ** The tables and the sheets on concrete inputs *)

Section TableExamples.

Import Sample.

Lemma merge_left_cardinality_witness :
  List.length (Pd.merge_left (rows inventory) hardware_table) = 4 /\
  In {| m_device := plain_device "h2" (PStr "A/B") PNaN;
        m_specs := null_specs |}
     (Pd.merge_left (rows inventory) [plain_hardware "h1"]).
Proof.
  split.
  - destruct (merge_left_cardinality (rows inventory) hardware_table)
      as [Hone _].
    refine (proj1 (Hone _)).
    intros d [<- | [<- | [<- | [<- | []]]]]; reflexivity.
  - destruct (merge_left_cardinality (rows inventory)
                [plain_hardware "h1"]) as (_ & _ & _ & Hnull).
    refine (Hnull (plain_device "h2" (PStr "A/B") PNaN) _ eq_refl).
    right. left. reflexivity.
Defined.

Lemma tenant_partition_witness :
  (forall t : string,
      ~ In (report_row_of (plain_device "h4" PNaN PNaN) None)
           (rows (tenant_rows report t))) /\
  (In "" (tenants_of (rows report)) /\
   In (report_row_of (plain_device "h3" (PStr "[EXPIRED]") PNaN) (Some ""))
      (rows (tenant_rows report ""))).
Proof.
  split.
  - destruct (tenant_partition report
                (report_row_of (plain_device "h4" PNaN PNaN) None))
      as [Hnone _].
    + vm_compute. tauto.
    + exact (Hnone eq_refl).
  - destruct (tenant_partition report
                (report_row_of (plain_device "h3" (PStr "[EXPIRED]") PNaN)
                               (Some "")))
      as (_ & Hsome & _).
    + vm_compute. tauto.
    + destruct (Hsome "" eq_refl) as (Hlisted & Hin & _).
      exact (conj Hlisted Hin).
Defined.

(** C5 as stated fails on a device whose tenant name is a bracketed span
    only: its clean tenant name is the empty text, which is listed as a
    tenant, with its own sheets and its row on the navigation sheet. *)
Lemma tenant_partition_counterexample :
  Nav.clean_tenant_name (PStr "[EXPIRED]") = Some "" /\
  Opt.clean_tenant_name (PStr "[EXPIRED]") = Some "" /\
  match Nav.process_data
          {| columns := inventory_columns;
             rows := [plain_device "h3" (PStr "[EXPIRED]") PNaN] |}
          {| columns := required_columns; rows := [plain_hardware "h3"] |}
          with
  | Returns out =>
      map title (book out)
      = ["NAVIGATION"; "_MAIN"; "_SOFTWARE"; "_VULNERABILITIES"] /\
      map cells (firstn 2 (book out))
      = [[[PStr "REPORT NAVIGATION"];
          [PStr "Tenant Name"; PStr "Main Data"; PStr "Software";
           PStr "Vulnerabilities"];
          [PStr ""; PStr "Go"; PStr "Go"; PStr "Go"]];
         [[PStr "<- Back to navigation"];
          [PStr "fqdn"; PStr "ipAddresses"; PStr "CPU"; PStr "RAM";
           PStr "Disk Space"; PStr "Network Cards"; PStr "macAddresses";
           PStr "os"; PStr "os_version"];
          [PStr "h3"; PNaN; PInt 4; PInt 16; PInt 512; PStr "eth0"; PNaN;
           PStr "Ubuntu"; PStr "22.04"]]] /\
      printed out = []
  | Raises _ => False
  end.
Proof.
  vm_compute. repeat split.
Qed.

Lemma tenant_failure_is_contained_witness :
  In {| about_tenant := "A/B"; error := ValueError |}
     (printed (Nav.render_tenants no_run report ["A/B"; "Corp"])) /\
  (exists ws_main,
      In ws_main (book (Nav.render_tenants no_run report ["A/B"; "Corp"])) /\
      cells ws_main
      = [PStr back_label] :: main_lines (tenant_rows report "Corp")) /\
  (exists nav,
      Nav.process_data inventory hardware_frame
      = Returns
          {| book := nav :: book (Nav.render_tenants
                                    no_run report (tenants_of (rows report)));
             printed := printed (Nav.render_tenants
                                   no_run report
                                   (tenants_of (rows report))) |} /\
      In {| about_tenant := "A/B"; error := ValueError |}
         (printed (Nav.render_tenants no_run report
                                      (tenants_of (rows report))))).
Proof.
  split; [|split].
  - destruct (tenant_failure_is_contained report no_run
                [] ["Corp"] "A/B") as (_ & Hraise & _).
    exact (proj1 (Hraise [] ValueError eq_refl)).
  - destruct (tenant_failure_is_contained report no_run
                ["A/B"] [] "Corp") as (_ & _ & Hreturn & _).
    refine (Hreturn (fst (Nav.tenant_sheets_body report "Corp" [])) _).
    vm_compute. reflexivity.
  - destruct (tenant_failure_is_contained report no_run [] [] "Corp")
      as (_ & _ & _ & _ & _ & Hrun).
    assert (Hrows : has_column inventory "os" = false
                    \/ rows inventory <> []).
    { right. unfold inventory. cbn [rows]. discriminate. }
    destruct (Hrun inventory hardware_frame (rows report)
                   eq_refl eq_refl eq_refl Hrows eq_refl) as [nav Hnav].
    exists nav. split; [exact Hnav|].
    vm_compute. left. reflexivity.
Defined.

(** C7 at a device with two software items, in the optimised pipeline: the
    sheet has the link in row 1, the headers in row 2 and the two items in
    rows 3 and 4, and the range merged in the first column is rows 2 to 3:
    the header and the first item, not the two items.  The navigation
    pipeline merges rows 3 to 4. *)
Lemma opt_merged_range_is_one_row_up :
  Opt.item_rows software_fields software
    (rows (tenant_rows report "Corp")) = Returns two_items /\
  cells (Opt.create_merged_sheet
           (add_back_to_navigation_link (blank_sheet "Corp_SOFTWARE"))
           two_items software_fields)
  = [[PStr "<- Back to navigation"];
     [PStr "fqdn"; PStr "name"; PStr "version"; PStr "vendor"];
     [PStr "h1"; PStr "vim"; PStr "9.1"; PNone];
     [PNone; PStr "git"; PStr "2.44"; PNone]] /\
  merged_cells (Opt.create_merged_sheet
                  (add_back_to_navigation_link (blank_sheet "Corp_SOFTWARE"))
                  two_items software_fields)
  = [{| start_row := 2; end_row := 3; start_column := 1; end_column := 1 |}] /\
  map (fun ws => (title ws, merged_cells ws))
      (book (Opt.render_tenants no_run report ["Corp"]))
  = [("Corp_MAIN", []);
     ("Corp_SOFTWARE",
      [{| start_row := 2; end_row := 3;
          start_column := 1; end_column := 1 |}])] /\
  merged_cells (Nav.create_merged_sheet
                  (add_back_to_navigation_link (blank_sheet "Corp_SOFTWARE"))
                  two_items software_fields)
  = [{| start_row := 3; end_row := 4; start_column := 1; end_column := 1 |}].
Proof.
  vm_compute. repeat split.
Qed.

End TableExamples.

(** * Further properties of the code *)

(** ** Clean tenant names *)

Section CleanFacts.

Import Py.

Lemma starts_blank_collapse (s : string) :
  starts_blank (Spec.collapse_blanks s) = starts_blank s.
Proof.
  induction s as [|c s IH]; [reflexivity|].
  simpl. destruct (is_space c) eqn:E.
  - destruct (starts_blank s) eqn:B; [now rewrite IH | reflexivity].
  - simpl. exact E.
Qed.

Lemma collapse_is_single_spaced (s : string) :
  Spec.single_spaced (Spec.collapse_blanks s) = true.
Proof.
  induction s as [|c s IH]; [reflexivity|].
  simpl. destruct (is_space c) eqn:E.
  - destruct (starts_blank s) eqn:B; [exact IH|].
    simpl. rewrite starts_blank_collapse, B, IH. reflexivity.
  - simpl. rewrite E, IH. reflexivity.
Qed.

Lemma single_spaced_tail (c : ascii) (s : string) :
  Spec.single_spaced (String c s) = true -> Spec.single_spaced s = true.
Proof.
  simpl. intros H. now apply andb_true_iff in H as [_ H].
Qed.

Lemma single_spaced_lstrip (s : string) :
  Spec.single_spaced s = true -> Spec.single_spaced (lstrip s) = true.
Proof.
  induction s as [|c s IH]; [reflexivity|].
  intros H. simpl lstrip. destruct (is_space c); [|exact H].
  apply IH. exact (single_spaced_tail c s H).
Qed.

Lemma single_spaced_rstrip (s : string) :
  Spec.single_spaced s = true -> Spec.single_spaced (rstrip s) = true.
Proof.
  induction s as [|c s IH]; [reflexivity|].
  intros H. pose proof (single_spaced_tail c s H) as Ht.
  simpl in H. apply andb_true_iff in H as [Hc _].
  destruct (is_space c) eqn:E.
  - assert (Hkeep : Spec.single_spaced (String c (rstrip s)) = true).
    { simpl. rewrite (IH Ht), andb_true_r, E.
      simpl in Hc. apply andb_true_iff in Hc as [Hsp Hb].
      rewrite Hsp. apply negb_true_iff in Hb.
      rewrite (rstrip_starts_blank s Hb). reflexivity. }
    rewrite (rstrip_cons_blank c s E).
    destruct (rstrip s); [reflexivity | exact Hkeep].
  - rewrite (rstrip_cons_keep c s E). simpl. now rewrite E, (IH Ht).
Qed.

Lemma single_spaced_strip (s : string) :
  Spec.single_spaced s = true -> Spec.single_spaced (strip s) = true.
Proof.
  intros H. now apply single_spaced_rstrip, single_spaced_lstrip.
Qed.

Lemma join_split_is_single_spaced (s : string) :
  Spec.single_spaced (join " " (split s)) = true.
Proof.
  rewrite join_split_collapse.
  apply single_spaced_strip, collapse_is_single_spaced.
Qed.


(** Spans that are left. *)
Lemma no_span_fixed (s : string) :
  Spec.no_span s = true -> sub_brackets s = s.
Proof.
  induction s as [|c s IH]; [reflexivity|].
  simpl. intros H. apply andb_true_iff in H as [Hc Hs].
  rewrite sub_brackets_cons, (IH Hs).
  destruct (Ascii.eqb c "["); [|reflexivity].
  destruct (match_bracket_tail s); [discriminate | reflexivity].
Qed.

Lemma tail_none_sub (s : string) :
  match_bracket_tail s = None -> match_bracket_tail (sub_brackets s) = None.
Proof.
  induction s as [|c s IH]; [reflexivity|].
  simpl. destruct (Ascii.eqb c "]") eqn:Eclose; [discriminate|].
  destruct (Ascii.eqb c "010") eqn:Elf.
  - intros _. rewrite sub_brackets_cons.
    destruct (Ascii.eqb c "[") eqn:Eopen.
    + apply Ascii.eqb_eq in Eopen, Elf. congruence.
    + simpl. now rewrite Eclose, Elf.
  - intros Hs. rewrite sub_brackets_cons, Hs.
    destruct (Ascii.eqb c "["); simpl; rewrite Eclose, Elf; now apply IH.
Qed.

Lemma no_span_sub_bounded (n : nat) :
  forall s : string,
    String.length s <= n -> Spec.no_span (sub_brackets s) = true.
Proof.
  induction n as [|n IH]; intros s Hn.
  - destruct s; [reflexivity | simpl in Hn; lia].
  - destruct s as [|c s]; [reflexivity|].
    simpl in Hn. rewrite sub_brackets_cons.
    assert (Hs : Spec.no_span (sub_brackets s) = true) by (apply IH; lia).
    destruct (Ascii.eqb c "[") eqn:Eopen.
    + destruct (match_bracket_tail s) as [rest|] eqn:T.
      * apply IH. apply match_bracket_tail_shorter in T. lia.
      * simpl. now rewrite Eopen, (tail_none_sub s T), Hs.
    + simpl. now rewrite Eopen, Hs.
Qed.

Lemma no_span_sub (s : string) : Spec.no_span (sub_brackets s) = true.
Proof.
  now apply (no_span_sub_bounded (String.length s)).
Qed.

Lemma no_span_tail (c : ascii) (s : string) :
  Spec.no_span (String c s) = true -> Spec.no_span s = true.
Proof.
  simpl. intros H. now apply andb_true_iff in H as [_ H].
Qed.

Lemma no_span_lstrip (s : string) :
  Spec.no_span s = true -> Spec.no_span (lstrip s) = true.
Proof.
  induction s as [|c s IH]; [reflexivity|].
  intros H. simpl lstrip. destruct (is_space c); [|exact H].
  apply IH. exact (no_span_tail c s H).
Qed.

Lemma tail_none_rstrip (s : string) :
  match_bracket_tail s = None -> match_bracket_tail (rstrip s) = None.
Proof.
  induction s as [|c s IH]; [reflexivity|].
  simpl match_bracket_tail at 1.
  destruct (Ascii.eqb c "]") eqn:Eclose; [discriminate|].
  intros Hs.
  assert (Hkeep : match_bracket_tail (String c (rstrip s)) = None).
  { simpl. rewrite Eclose. destruct (Ascii.eqb c "010"); [reflexivity|].
    now apply IH. }
  simpl rstrip. destruct (rstrip s) as [|d r] eqn:R.
  - destruct (is_space c); [reflexivity|]. exact Hkeep.
  - exact Hkeep.
Qed.

Lemma no_span_rstrip (s : string) :
  Spec.no_span s = true -> Spec.no_span (rstrip s) = true.
Proof.
  induction s as [|c s IH]; [reflexivity|].
  intros H. pose proof (no_span_tail c s H) as Ht.
  simpl in H. apply andb_true_iff in H as [Hc _].
  assert (Hkeep : Spec.no_span (String c (rstrip s)) = true).
  { simpl. rewrite (IH Ht), andb_true_r.
    destruct (Ascii.eqb c "["); [|reflexivity].
    destruct (match_bracket_tail s) eqn:T; [discriminate|].
    now rewrite (tail_none_rstrip s T). }
  simpl rstrip. destruct (rstrip s) as [|d r] eqn:R.
  - destruct (is_space c); [reflexivity|]. exact Hkeep.
  - exact Hkeep.
Qed.

Lemma no_span_strip (s : string) :
  Spec.no_span s = true -> Spec.no_span (strip s) = true.
Proof.
  intros H. now apply no_span_rstrip, no_span_lstrip.
Qed.

(** X2.  In the optimised pipeline a clean tenant name is left as it is
    when it is cleaned again, as [create_tenant_sheets] and
    [create_navigation_sheet] do with the names of the tenant column. *)
Theorem opt_clean_tenant_name_again (v : pyval) (t : string) :
  Opt.clean_tenant_name v = Some t ->
  Opt.clean_tenant_name (PStr t) = Some t.
Proof.
  intros Hv. destruct (Val.isna v) eqn:Hna.
  - destruct (clean_tenant_name_missing v Hna) as [_ E]. congruence.
  - rewrite (opt_clean_tenant_name_value v Hna) in Hv. injection Hv as <-.
    rewrite (opt_clean_tenant_name_value (PStr _) eq_refl). cbn [Val.str].
    rewrite (no_span_fixed (strip _)).
    + now rewrite strip_idempotent.
    + apply no_span_strip, no_span_sub.
Qed.

Lemma has_char_tail_rest (c : ascii) (s rest : string) :
  match_bracket_tail s = Some rest ->
  has_char c s = false -> has_char c rest = false.
Proof.
  revert rest. induction s as [|d s IH]; intros rest; simpl; [discriminate|].
  intros T H. apply orb_false_iff in H as [_ Hs].
  destruct (Ascii.eqb d "]").
  - injection T as <-. exact Hs.
  - destruct (Ascii.eqb d "010"); [discriminate|]. now apply IH.
Qed.

Lemma has_char_sub_bounded (c : ascii) (n : nat) :
  forall s : string,
    String.length s <= n ->
    has_char c s = false -> has_char c (sub_brackets s) = false.
Proof.
  induction n as [|n IH]; intros s Hn Hc.
  - destruct s; [reflexivity | simpl in Hn; lia].
  - destruct s as [|d s]; [reflexivity|].
    simpl in Hn. simpl in Hc. apply orb_false_iff in Hc as [Hd Hs].
    assert (Hsub : has_char c (sub_brackets s) = false) by (apply IH; [lia|easy]).
    rewrite sub_brackets_cons.
    destruct (Ascii.eqb d "[").
    + destruct (match_bracket_tail s) as [rest|] eqn:T.
      * apply IH.
        -- apply match_bracket_tail_shorter in T. lia.
        -- exact (has_char_tail_rest c s rest T Hs).
      * simpl. now rewrite Hd, Hsub.
    + simpl. now rewrite Hd, Hsub.
Qed.

Lemma has_char_sub (c : ascii) (s : string) :
  has_char c s = false -> has_char c (sub_brackets s) = false.
Proof.
  now apply (has_char_sub_bounded c (String.length s)).
Qed.

Lemma tail_none_no_close (s : string) :
  has_char "010" s = false -> match_bracket_tail s = None ->
  has_char "]" s = false.
Proof.
  induction s as [|c s IH]; [reflexivity|].
  simpl. intros Hlf. apply orb_false_iff in Hlf as [Hc Hs].
  rewrite (Ascii.eqb_sym "]" c).
  destruct (Ascii.eqb c "]"); [discriminate|].
  rewrite (Ascii.eqb_sym c "010"), Hc. simpl. now apply IH.
Qed.

Lemma no_close_tail_none (s : string) :
  has_char "]" s = false -> match_bracket_tail s = None.
Proof.
  induction s as [|c s IH]; [reflexivity|].
  simpl. intros H. apply orb_false_iff in H as [Hc Hs].
  rewrite (Ascii.eqb_sym c "]"), Hc.
  destruct (Ascii.eqb c "010"); [reflexivity | now apply IH].
Qed.

Lemma has_char_collapse (c : ascii) (s : string) :
  is_space c = false ->
  has_char c s = false -> has_char c (Spec.collapse_blanks s) = false.
Proof.
  intros Hc. induction s as [|d s IH]; [reflexivity|].
  simpl. intros H. apply orb_false_iff in H as [Hd Hs].
  destruct (is_space d) eqn:E.
  - destruct (starts_blank s); [now apply IH|].
    simpl. rewrite (IH Hs), orb_false_r.
    destruct (Ascii.eqb c " ") eqn:Esp; [|reflexivity].
    apply Ascii.eqb_eq in Esp. subst c. discriminate.
  - simpl. now rewrite Hd, (IH Hs).
Qed.

Lemma no_span_collapse (s : string) :
  has_char "010" s = false -> Spec.no_span s = true ->
  Spec.no_span (Spec.collapse_blanks s) = true.
Proof.
  induction s as [|c s IH]; [reflexivity|].
  intros Hlf Hspan. pose proof (no_span_tail c s Hspan) as Ht.
  simpl in Hlf. apply orb_false_iff in Hlf as [_ Hlfs].
  simpl in Hspan. apply andb_true_iff in Hspan as [Hc _].
  simpl. destruct (is_space c) eqn:E.
  - destruct (starts_blank s); [now apply IH|].
    simpl. now apply IH.
  - simpl. rewrite (IH Hlfs Ht), andb_true_r.
    destruct (Ascii.eqb c "["); [|reflexivity].
    destruct (match_bracket_tail s) eqn:T; [discriminate|].
    rewrite (no_close_tail_none (Spec.collapse_blanks s)); [reflexivity|].
    apply has_char_collapse; [reflexivity|].
    now apply tail_none_no_close.
Qed.

Lemma split_collapse (s : string) :
  split (Spec.collapse_blanks s) = split s.
Proof.
  induction s as [|c s IH]; [reflexivity|].
  simpl Spec.collapse_blanks. destruct (is_space c) eqn:E.
  - rewrite (split_cons_blank c s E).
    destruct (starts_blank s); [exact IH|].
    now rewrite (split_cons_blank " " _ eq_refl).
  - rewrite (split_cons_word c s E), (split_cons_word c _ E).
    now rewrite starts_blank_collapse, IH.
Qed.

Lemma split_join_split (s : string) :
  split (join " " (split s)) = split s.
Proof.
  now rewrite join_split_collapse, split_strip, split_collapse.
Qed.

(** X3.  In the navigation pipeline a clean tenant name that comes from a
    text without line feed is left as it is when it is cleaned again, as
    [create_tenant_sheets] and [create_navigation_sheet] do with the names
    of the tenant column.  (A line feed inside brackets keeps the span in
    the first cleaning and becomes a space, so that the second cleaning
    removes the span.) *)
Theorem nav_clean_tenant_name_again (v : pyval) (t : string) :
  has_char "010" (Val.str v) = false ->
  Nav.clean_tenant_name v = Some t ->
  Nav.clean_tenant_name (PStr t) = Some t.
Proof.
  intros Hlf Hv. destruct (Val.isna v) eqn:Hna.
  - destruct (clean_tenant_name_missing v Hna) as [E _]. congruence.
  - rewrite (nav_clean_tenant_name_value v Hna) in Hv. injection Hv as <-.
    rewrite (nav_clean_tenant_name_value (PStr _) eq_refl). cbn [Val.str].
    set (u := sub_brackets (Val.str v)).
    assert (Hspan : Spec.no_span (join " " (split u)) = true).
    { rewrite join_split_collapse. apply no_span_strip, no_span_collapse.
      - subst u. now apply has_char_sub.
      - subst u. apply no_span_sub. }
    rewrite (no_span_fixed _ Hspan). f_equal.
    rewrite join_split_single_spaced.
    + apply strip_join_split.
    + rewrite strip_join_split. apply join_split_is_single_spaced.
Qed.

(** X4.  The names the two pipelines give to a tenant have the same words:
    the name of the navigation pipeline is the name of the optimised one
    with every run of blanks replaced by one space. *)
Theorem clean_tenant_names_same_words (v : pyval) (t1 t2 : string) :
  Nav.clean_tenant_name v = Some t1 ->
  Opt.clean_tenant_name v = Some t2 ->
  t1 = join " " (split t2) /\ split t1 = split t2.
Proof.
  intros H1 H2. destruct (Val.isna v) eqn:Hna.
  - destruct (clean_tenant_name_missing v Hna) as [E _]. congruence.
  - rewrite (nav_clean_tenant_name_value v Hna) in H1. injection H1 as <-.
    rewrite (opt_clean_tenant_name_value v Hna) in H2. injection H2 as <-.
    rewrite split_strip. split; [reflexivity | apply split_join_split].
Qed.

End CleanFacts.

(** ** The parsers on every input *)

Section ParserFacts.

Context `{Decoders}.

Lemma field_well_formed (d : dict) (key : string) :
  match Val.field d key with
  | None => True
  | Some t => t <> EmptyString /\ Py.strip t = t
  end.
Proof.
  unfold Val.field.
  destruct (Py.strip (Val.str (Val.get d key (PStr "")))) as [|c t] eqn:E;
    simpl; [exact I|].
  split; [discriminate|]. rewrite <- E. apply strip_idempotent.
Qed.

Lemma record_well_formed (fields : list string) (d : dict) :
  Spec.well_formed_item fields (map (fun f => (f, Val.field d f)) fields).
Proof.
  split.
  - rewrite map_map. simpl. apply map_id.
  - apply Forall_forall. intros kv Hin.
    apply in_map_iff in Hin as (f & <- & _). apply field_well_formed.
Qed.

Lemma kept_well_formed (fields : list string) (l : list pyval) :
  Forall (Spec.well_formed_item fields)
    (map (fun it =>
            match it with
            | PDict d => map (fun f => (f, Val.field d f)) fields
            | _ => []
            end)
         (filter Val.is_dict l)).
Proof.
  apply Forall_forall. intros it Hin.
  apply in_map_iff in Hin as (v & <- & Hv).
  apply filter_In in Hv as [_ Hd].
  destruct v; try discriminate. apply record_well_formed.
Qed.

Lemma nav_items_well_formed (fields : list string) (v : pyval) :
  Forall (Spec.well_formed_item fields) (Nav.items_of fields v).
Proof.
  destruct v; try constructor. apply kept_well_formed.
Qed.

Lemma opt_items_well_formed (fields : list string) (v : pyval) :
  Forall (Spec.well_formed_item fields) (Opt.items_of fields v).
Proof.
  destruct v; try constructor. apply kept_well_formed.
Qed.

Ltac items_returned :=
  let E := fresh "E" in
  intros E; injection E as <-;
  first [ constructor
        | apply kept_well_formed
        | apply nav_items_well_formed
        | apply opt_items_well_formed ].

Lemma nav_list_well_formed (fields : list string) (v : pyval)
    (items : list item) :
  Nav.parse_list_data fields v = Returns items ->
  Forall (Spec.well_formed_item fields) items.
Proof.
  unfold Nav.parse_list_data.
  destruct (Val.isna v || Val.eq_empty v); [items_returned|].
  destruct v; try items_returned.
  destruct (json_loads s) as [w|[]]; try discriminate; try items_returned.
  destruct (literal_eval s) as [w|e]; items_returned.
Qed.

(** X5.  Whatever the value of the field, every item that the list parsers
    of the two pipelines return has the expected fields, in their order,
    and each field is null or a trimmed text that is not empty. *)
Theorem parsed_items_well_formed (v : pyval) (fields : list string)
    (items : list item) :
  (Nav.parse_software_data v = Returns items ->
   Forall (Spec.well_formed_item software_fields) items) /\
  (Nav.parse_vulnerabilities_data v = Returns items ->
   Forall (Spec.well_formed_item vuln_fields) items) /\
  (Opt.parse_json_data v fields = Returns items ->
   Forall (Spec.well_formed_item fields) items).
Proof.
  split; [|split].
  - apply nav_list_well_formed.
  - apply nav_list_well_formed.
  - unfold Opt.parse_json_data.
    destruct (Val.isna v || negb (Val.truth v)); [items_returned|].
    destruct v; try items_returned.
    destruct (json_loads s) as [w|[]]; try items_returned.
    destruct (literal_eval s) as [w|e]; items_returned.
Qed.

Lemma opt_parse_os_data_returns (v : pyval) :
  exists r, Opt.parse_os_data v = Returns r.
Proof.
  unfold Opt.parse_os_data.
  destruct (Val.isna v || negb (Val.truth v)); [eexists; reflexivity|].
  destruct v; try (eexists; reflexivity).
  destruct (negb _ && negb _); [eexists; reflexivity|].
  destruct (if Py.startswith_brace_or_bracket s
            then json_loads s else literal_eval s) as [[]|];
    eexists; reflexivity.
Qed.

Lemma opt_parse_json_data_returns (v : pyval) (fields : list string) :
  exists r, Opt.parse_json_data v fields = Returns r.
Proof.
  unfold Opt.parse_json_data.
  destruct (Val.isna v || negb (Val.truth v)); [eexists; reflexivity|].
  destruct v; try (eexists; reflexivity).
  destruct (json_loads s) as [w|[]]; try (eexists; reflexivity).
  destruct (literal_eval s); eexists; reflexivity.
Qed.

(** X6.  The parsers of the optimised pipeline and of the first version
    return on every value that is not a list, whatever the decoders do: no
    exception leaves them.  (On a list the test [pd.isna(value) or ...],
    which stands before their guarded part, is the truth value of an
    array, and that can raise.) *)
Theorem guarded_parsers_return (v : pyval) (fields : list string) :
  Val.is_list v = false ->
  (exists r, Opt.parse_os_data v = Returns r) /\
  (exists r, Opt.parse_json_data v fields = Returns r) /\
  (exists r, Legacy.parse_os_data v = Returns r) /\
  (exists r, Legacy.parse_software_data v = Returns r) /\
  (exists r, Legacy.parse_vulnerabilities_data v = Returns r).
Proof.
  intros _.
  split; [apply opt_parse_os_data_returns|].
  split; [apply opt_parse_json_data_returns|].
  repeat split.
  - unfold Legacy.parse_os_data.
    destruct (Val.isna v); [eexists; reflexivity|].
    destruct (Legacy.os_body v); eexists; reflexivity.
  - unfold Legacy.parse_software_data.
    destruct (Val.isna v); [eexists; reflexivity|].
    destruct (Legacy.software_body v); eexists; reflexivity.
  - unfold Legacy.parse_vulnerabilities_data.
    destruct (Val.isna v); [eexists; reflexivity|].
    destruct (Legacy.vulnerabilities_body v); eexists; reflexivity.
Qed.

Lemma nav_list_raises (fields : list string) (v : pyval) (e : exn) :
  Nav.parse_list_data fields v = Raises e <->
  exists s, v = PStr s /\ s <> EmptyString /\
            json_loads s = Raises e /\ e <> JSONDecodeError.
Proof.
  unfold Nav.parse_list_data. split.
  - destruct (Val.isna v || Val.eq_empty v) eqn:G; [discriminate|].
    destruct v; try discriminate.
    intros E. exists s. split; [reflexivity|].
    split; [intros ->; discriminate|].
    destruct (json_loads s) as [w|e']; [discriminate|].
    destruct e'; try (injection E as <-; split; [reflexivity|discriminate]).
    destruct (literal_eval s); discriminate.
  - intros (s & -> & Hs & Hj & He).
    destruct s; [congruence|]. simpl. rewrite Hj.
    destruct e; congruence.
Qed.

Lemma nav_os_raises (v : pyval) (e : exn) :
  Nav.parse_os_data v = Raises e <->
  exists s, v = PStr s /\ s <> EmptyString /\
            has_marker (Py.lower s) = true /\
            json_loads s = Raises e /\ e <> JSONDecodeError.
Proof.
  unfold Nav.parse_os_data. split.
  - destruct (Val.isna v || Val.eq_empty v) eqn:G; [discriminate|].
    destruct v; try discriminate.
    destruct (has_marker (Py.lower s)) eqn:Hm; [|discriminate].
    simpl negb. cbv iota.
    intros E. exists s. split; [reflexivity|].
    split; [intros ->; discriminate|]. split; [exact Hm|].
    destruct (json_loads s) as [w|e']; [discriminate|].
    destruct e'; try (injection E as <-; split; [reflexivity|discriminate]).
    destruct (literal_eval s); discriminate.
  - intros (s & -> & Hs & Hm & Hj & He).
    destruct s; [congruence|]. simpl Val.isna. simpl Val.eq_empty.
    simpl orb. cbv iota. rewrite Hm, Hj. simpl.
    destruct e; congruence.
Qed.

(** X7.  On a value that is not a list, the parsers of the navigation
    pipeline raise in one case only: on a text that is not empty (with a
    marker, for the OS field) on which [json.loads] raises something else
    than a JSON decoding error, and they raise that exception.  (On a list
    the test [pd.isna(value) or ...] at their beginning is the truth value
    of an array, and that can raise.) *)
Theorem nav_parsers_raise (v : pyval) (e : exn) :
  Val.is_list v = false ->
  (Nav.parse_os_data v = Raises e <->
   exists s, v = PStr s /\ s <> EmptyString /\
             has_marker (Py.lower s) = true /\
             json_loads s = Raises e /\ e <> JSONDecodeError) /\
  (Nav.parse_software_data v = Raises e <->
   exists s, v = PStr s /\ s <> EmptyString /\
             json_loads s = Raises e /\ e <> JSONDecodeError) /\
  (Nav.parse_vulnerabilities_data v = Raises e <->
   exists s, v = PStr s /\ s <> EmptyString /\
             json_loads s = Raises e /\ e <> JSONDecodeError).
Proof.
  intros _.
  split; [apply nav_os_raises|].
  split; apply nav_list_raises.
Qed.

(** The markers of a text are markers of its lower-case form. *)
Lemma prefix_lower (p s : string) :
  prefix p s = true -> prefix (Py.lower p) (Py.lower s) = true.
Proof.
  revert s. induction p as [|a p IH]; intros s; [now destruct s|].
  destruct s as [|b s]; simpl; [discriminate|].
  destruct (ascii_dec a b) as [->|]; [|discriminate].
  intros Hp. destruct (ascii_dec (Py.lower_char b) (Py.lower_char b));
    [now apply IH | congruence].
Qed.

Lemma contains_lower (p s : string) :
  Py.contains p s = true -> Py.contains (Py.lower p) (Py.lower s) = true.
Proof.
  induction s as [|c s IH].
  - simpl. rewrite orb_false_r. intros Hp.
    apply (prefix_lower p "") in Hp. simpl in Hp. now rewrite Hp.
  - simpl. intros Hp. apply orb_true_iff in Hp as [Hp | Hp].
    + apply (prefix_lower p (String c s)) in Hp. simpl in Hp.
      now rewrite Hp.
    + rewrite (IH Hp). apply orb_true_r.
Qed.

Lemma has_marker_lower (s : string) :
  has_marker (Py.lower s) = false -> has_marker s = false.
Proof.
  unfold has_marker. simpl existsb. rewrite !orb_false_r.
  intros Hl. apply orb_false_iff in Hl as [Hn Hv].
  apply orb_false_iff. split.
  - destruct (Py.contains "name" s) eqn:E; [|reflexivity].
    apply contains_lower in E. change (Py.lower "name") with "name" in E.
    congruence.
  - destruct (Py.contains "version" s) eqn:E; [|reflexivity].
    apply contains_lower in E.
    change (Py.lower "version") with "version" in E. congruence.
Qed.

(** X8.  On a text that is not empty and has no marker in any case, the
    three versions of [parse_os_data] return the same pair; when the pair
    has a version, the name, a space and the version make the text again,
    and the version has no space. *)
Theorem parse_os_data_plain (s : string) :
  s <> EmptyString -> has_marker (Py.lower s) = false ->
  Legacy.parse_os_data (PStr s) = Nav.parse_os_data (PStr s) /\
  Opt.parse_os_data (PStr s) = Nav.parse_os_data (PStr s) /\
  (forall a b : string,
      Nav.parse_os_data (PStr s) = Returns (Some a, Some b) ->
      s = (a ++ String " " b)%string /\ Py.has_char " " b = false) /\
  (forall a : string,
      Nav.parse_os_data (PStr s) = Returns (Some a, None) ->
      a = s /\ Py.has_char " " s = false).
Proof.
  intros Hs Hm.
  rewrite (nav_os_plain s Hs Hm), (opt_os_plain s Hs Hm).
  split; [|split; [reflexivity|split]].
  - unfold Legacy.parse_os_data, Legacy.os_body. simpl.
    now rewrite (has_marker_lower s Hm).
  - intros a b E.
    destruct (rsplit_space_cases s) as [[Hn Hr] | (a' & b' & -> & Hb & Hr)];
      rewrite Hr in E; simpl in E; [discriminate|].
    injection E as <- <-. split; [reflexivity | exact Hb].
  - intros a E.
    destruct (rsplit_space_cases s) as [[Hn Hr] | (a' & b' & -> & Hb & Hr)];
      rewrite Hr in E; simpl in E; [|discriminate].
    injection E as <-. split; [reflexivity | exact Hn].
Qed.

(** X9.  On a text with a marker as it is written, the first version
    returns the trimmed name and version of the mapping that the two decode
    stages give, as the navigation pipeline does; when they give anything
    else than a mapping, or fail, it returns (text, null). *)
Theorem legacy_parse_os_data_marked (s : string) :
  has_marker s = true ->
  (forall d : dict,
      Spec.decodes_to s (PDict d) ->
      Legacy.parse_os_data (PStr s)
      = Returns (Spec.subfield d "name", Spec.subfield d "version") /\
      Nav.parse_os_data (PStr s) = Legacy.parse_os_data (PStr s)) /\
  (forall v : pyval,
      Spec.decodes_to s v -> Val.is_dict v = false ->
      Legacy.parse_os_data (PStr s) = Returns (Some s, None)) /\
  (forall e1 e2 : exn,
      json_loads s = Raises e1 ->
      (e1 = JSONDecodeError -> literal_eval s = Raises e2) ->
      Legacy.parse_os_data (PStr s) = Returns (Some s, None)).
Proof.
  intros Hm.
  assert (Hlow : has_marker (Py.lower s) = true).
  { destruct (has_marker (Py.lower s)) eqn:E; [reflexivity|].
    apply has_marker_lower in E. congruence. }
  assert (Hs : s <> EmptyString) by (intros ->; discriminate).
  unfold Legacy.parse_os_data, Legacy.os_body. simpl Val.isna. cbv iota.
  rewrite Hm. simpl negb. cbv iota.
  split; [|split].
  - intros d Hd. rewrite (nav_os_marked s Hs Hlow).
    destruct Hd as [-> | [-> ->]]; simpl;
      rewrite dict_name_version_subfields; split; reflexivity.
  - intros v Hd Hv.
    destruct Hd as [-> | [-> ->]]; destruct v; try discriminate; reflexivity.
  - intros e1 e2 Hj Hl. rewrite Hj.
    destruct e1; try reflexivity. now rewrite (Hl eq_refl).
Qed.

End ParserFacts.

(** ** The merge and the grouped sheets on every table *)

Section TableFacts.

Context `{Decoders}.

Lemma length_joined (right : list hardware) (d : device) :
  List.length (Pd.joined right d)
  = Nat.max 1 (List.length (Pd.matching (fqdn d) right)).
Proof.
  unfold Pd.joined. destruct (Pd.matching (fqdn d) right) as [|h hs].
  - reflexivity.
  - rewrite length_map. reflexivity.
Qed.

Lemma joined_specs (right : list hardware) (d : device) (m : merged_row) :
  In m (Pd.joined right d) ->
  (Pd.matching (fqdn d) right = [] /\ m_specs m = null_specs) \/
  (exists h, In h right /\ hw_fqdn h = fqdn d /\ m_specs m = specs_of h).
Proof.
  unfold Pd.joined. destruct (Pd.matching (fqdn d) right) as [|h hs] eqn:M.
  - intros [<- | []]. left. split; reflexivity.
  - intros Hin. apply in_map_iff in Hin as (h' & <- & Hh). right.
    exists h'. rewrite <- M in Hh. unfold Pd.matching in Hh.
    apply filter_In in Hh as [Hr Hk]. apply key_eqb_eq in Hk.
    repeat split; [exact Hr | now symmetry].
Qed.

(** X10.  The merge gives, for each inventory row, one row per hardware
    row of the same device name, and one row when there is none: rows with
    the same name in the hardware table multiply the inventory row.  A
    merged row carries the hardware cells of a row of its own device name,
    or empty cells when the hardware table has no such row. *)
Theorem merge_left_rows (left : list device) (right : list hardware) :
  List.length (Pd.merge_left left right)
  = list_sum (map (fun d => Nat.max 1 (List.length
                                         (Pd.matching (fqdn d) right)))
                  left) /\
  (forall m, In m (Pd.merge_left left right) ->
             (Pd.matching (fqdn (m_device m)) right = [] /\
              m_specs m = null_specs) \/
             (exists h, In h right /\ hw_fqdn h = fqdn (m_device m) /\
                        m_specs m = specs_of h)).
Proof.
  split.
  - induction left as [|d left IH]; [reflexivity|].
    rewrite merge_left_cons, length_app, length_joined, IH. reflexivity.
  - intros m Hm. unfold Pd.merge_left in Hm.
    apply in_flat_map in Hm as (d & _ & Hm).
    rewrite (joined_device right d m Hm). now apply joined_specs.
Qed.

(** Rows and groups. *)
Lemma total_rows_groupby (df : list grouped_row) :
  Spec.total_rows (groupby df)
  = list_sum (map (fun k => List.length (group_of df k)) (group_keys df)).
Proof.
  unfold Spec.total_rows, groupby. now rewrite map_map.
Qed.

Lemma no_key_counts (k0 : string) (ks : list string) :
  ~ In k0 ks ->
  list_sum (map (fun k => if String.eqb k0 k then 1 else 0) ks) = 0.
Proof.
  induction ks as [|k ks IH]; [reflexivity|].
  intros Hk. cbn [map list_sum].
  destruct (String.eqb k0 k) eqn:E.
  - apply String.eqb_eq in E. subst k. exfalso. apply Hk. now left.
  - apply IH. intros Hin. apply Hk. now right.
Qed.

Lemma one_key_counts (k0 : string) (ks : list string) :
  NoDup ks -> In k0 ks ->
  list_sum (map (fun k => if String.eqb k0 k then 1 else 0) ks) = 1.
Proof.
  induction 1 as [|k ks Hk Hnd IH]; [intros []|].
  intros Hin. cbn [map list_sum].
  destruct (String.eqb k0 k) eqn:E.
  - apply String.eqb_eq in E. subst k.
    change (1 + list_sum (map (fun k => if String.eqb k0 k then 1 else 0) ks)
            = 1).
    now rewrite (no_key_counts k0 ks Hk).
  - destruct Hin as [-> | Hin]; [now rewrite String.eqb_refl in E|].
    exact (IH Hin).
Qed.

Lemma list_sum_add {A : Type} (f g : A -> nat) (l : list A) :
  list_sum (map (fun x => f x + g x) l)
  = list_sum (map f l) + list_sum (map g l).
Proof.
  induction l as [|x l IH]; [reflexivity|].
  simpl. rewrite IH. lia.
Qed.

Lemma list_sum_zero {A : Type} (l : list A) :
  list_sum (map (fun _ => 0) l) = 0.
Proof.
  induction l as [|x l IH]; [reflexivity | exact IH].
Qed.

Lemma groups_hold_named_rows (ks : list string) (df : list grouped_row) :
  NoDup ks ->
  (forall r k, In r df -> g_fqdn r = Some k -> In k ks) ->
  list_sum (map (fun k => List.length (group_of df k)) ks)
  = List.length (filter Spec.named df).
Proof.
  intros Hnd. induction df as [|r df IH]; intros Hall.
  - simpl. apply list_sum_zero.
  - assert (IH' : list_sum (map (fun k => List.length (group_of df k)) ks)
                  = List.length (filter Spec.named df)).
    { apply IH. intros r' k Hr' Hk. apply (Hall r' k); [now right | exact Hk]. }
    cbn [filter]. unfold Spec.named at 1.
    destruct (g_fqdn r) as [k0|] eqn:E.
    + assert (Hpt : forall k,
                 List.length (group_of (r :: df) k)
                 = (if String.eqb k0 k then 1 else 0)
                   + List.length (group_of df k)).
      { intros k. unfold group_of. cbn [filter]. rewrite E.
        cbn [Pd.key_eqb]. destruct (String.eqb k0 k); reflexivity. }
      rewrite (map_ext _ _ Hpt), list_sum_add.
      rewrite (one_key_counts k0 ks Hnd (Hall r k0 (or_introl eq_refl) E)).
      rewrite IH'. reflexivity.
    + rewrite <- IH'. f_equal. apply map_ext. intros k.
      unfold group_of. cbn [filter]. rewrite E. reflexivity.
Qed.

Lemma total_rows_named (df : list grouped_row) :
  Spec.total_rows (groupby df) = List.length (filter Spec.named df).
Proof.
  rewrite total_rows_groupby. apply groups_hold_named_rows.
  - apply sorted_nodup, group_keys_sorted.
  - intros r k Hr Hk. apply in_group_keys. now exists r.
Qed.

(** What the loop of the optimised pipeline writes. *)
Lemma opt_length_group_lines (cols : list string) (g : list grouped_row) :
  List.length (Opt.group_lines cols g) = List.length g.
Proof.
  destruct g as [|r g]; simpl; [reflexivity|]. now rewrite length_map.
Qed.

Lemma opt_write_groups_cells (cols : list string)
    (groups : list (string * list grouped_row)) :
  forall (current_row : nat) (ws : worksheet),
    cells (Opt.write_groups cols groups current_row ws)
    = cells ws ++ flat_map (fun kg => Opt.group_lines cols (snd kg)) groups.
Proof.
  induction groups as [|[k g] groups IH]; intros current_row ws.
  - simpl. now rewrite app_nil_r.
  - cbn [Opt.write_groups flat_map snd]. rewrite IH.
    destruct (1 <? List.length g)%nat; cbn [Xl.merge_cells cells];
      rewrite cells_append_all; now rewrite app_assoc.
Qed.

Lemma opt_write_groups_merged (cols : list string)
    (groups : list (string * list grouped_row)) :
  forall (current_row : nat) (ws : worksheet),
    merged_cells (Opt.write_groups cols groups current_row ws)
    = merged_cells ws ++ Spec.group_ranges groups current_row.
Proof.
  induction groups as [|[k g] groups IH]; intros current_row ws.
  - simpl. now rewrite app_nil_r.
  - cbn [Opt.write_groups Spec.group_ranges]. rewrite IH.
    destruct (1 <? List.length g)%nat; cbn [Xl.merge_cells merged_cells];
      rewrite merged_append_all; [|reflexivity].
    now rewrite <- app_assoc.
Qed.

Lemma opt_length_flat_lines (cols : list string)
    (groups : list (string * list grouped_row)) :
  List.length (flat_map (fun kg => Opt.group_lines cols (snd kg)) groups)
  = Spec.total_rows groups.
Proof.
  induction groups as [|[k g] groups IH]; [reflexivity|].
  cbn [flat_map snd]. rewrite length_app, opt_length_group_lines, IH.
  reflexivity.
Qed.

(** The two ways of [create_merged_sheet] in the optimised pipeline. *)
Lemma opt_sheet_written (ws : worksheet) (df : list grouped_row)
    (cols : list string) :
  forallb (table_has df) cols = true ->
  Opt.create_merged_sheet ws df cols
  = Opt.write_groups cols (groupby df) 2
                     (Xl.append (map PStr ("fqdn" :: cols)) ws).
Proof.
  intros Hcols. unfold Opt.create_merged_sheet. destruct df as [|r df].
  - reflexivity.
  - rewrite Hcols. now destruct (groupby (r :: df)).
Qed.

Lemma opt_sheet_refused (ws : worksheet) (df : list grouped_row)
    (cols : list string) :
  forallb (table_has df) cols = false ->
  Opt.create_merged_sheet ws df cols
  = Xl.append (map PStr ("fqdn" :: cols)) ws.
Proof.
  intros Hcols. unfold Opt.create_merged_sheet. destruct df as [|r df].
  - reflexivity.
  - rewrite Hcols. now destruct (groupby (r :: df)).
Qed.

Lemma opt_sheet_cells (ws : worksheet) (df : list grouped_row)
    (cols : list string) :
  forallb (table_has df) cols = true ->
  cells (Opt.create_merged_sheet ws df cols)
  = cells ws ++ map PStr ("fqdn" :: cols)
    :: flat_map (fun kg => Opt.group_lines cols (snd kg)) (groupby df).
Proof.
  intros Hcols. rewrite (opt_sheet_written ws df cols Hcols).
  rewrite opt_write_groups_cells. cbn [Xl.append cells].
  now rewrite <- app_assoc.
Qed.

Lemma opt_sheet_merged (ws : worksheet) (df : list grouped_row)
    (cols : list string) :
  forallb (table_has df) cols = true ->
  merged_cells (Opt.create_merged_sheet ws df cols)
  = merged_cells ws ++ Spec.group_ranges (groupby df) 2.
Proof.
  intros Hcols. rewrite (opt_sheet_written ws df cols Hcols).
  now rewrite opt_write_groups_merged.
Qed.

(** The cells that the two pipelines write for the fields of an item show
    the same. *)
Lemma same_fields (it : item) (cols : list string) :
  Forall2 Spec.same_cell (map (Opt.row_index it) cols)
          (map (item_get it) cols).
Proof.
  induction cols as [|c cols IH]; constructor; [|exact IH].
  clear IH. induction it as [|[k v] it IH].
  - right. split; reflexivity.
  - cbn [Opt.row_index item_get].
    destruct (String.eqb k c); [now left | exact IH].
Qed.

Lemma same_data_columns (cols : list string) (g : list grouped_row) :
  Spec.same_lines (map (skipn 1) (Opt.group_lines cols g))
                  (map (skipn 1) (group_lines cols g)).
Proof.
  unfold Spec.same_lines. destruct g as [|r g]; [constructor|].
  cbn [Opt.group_lines group_lines map skipn]. constructor.
  - apply same_fields.
  - induction g as [|r' g IH]; [constructor|].
    cbn [map skipn]. constructor; [apply same_fields | exact IH].
Qed.

Lemma opt_lines_of_group (ws : worksheet) (cols : list string)
    (line1 line2 : list pyval)
    (before : list (string * list grouped_row)) (k : string)
    (g : list grouped_row) (after : list (string * list grouped_row)) :
  cells ws
  = line1 :: line2
    :: flat_map (fun kg => Opt.group_lines cols (snd kg))
                (before ++ (k, g) :: after) ->
  1 <= List.length g ->
  Spec.lines_between ws (3 + Spec.total_rows before)
                     (3 + Spec.total_rows before + List.length g - 1)
  = Opt.group_lines cols g.
Proof.
  intros Ecells Hlen. unfold Spec.lines_between. rewrite Ecells.
  replace (3 + Spec.total_rows before + List.length g - 1 + 1
           - (3 + Spec.total_rows before))
    with (List.length (Opt.group_lines cols g))
    by (rewrite opt_length_group_lines; lia).
  replace (3 + Spec.total_rows before - 1)
    with (S (S (List.length
                  (flat_map (fun kg => Opt.group_lines cols (snd kg))
                            before))))
    by (rewrite opt_length_flat_lines; lia).
  cbn [skipn]. rewrite flat_map_app. cbn [flat_map snd].
  rewrite skipn_length_app. apply firstn_length_app.
Qed.

(** X11.  A grouped sheet drawn on a new sheet has the link, the headers,
    and one row for each row of the table that has a device name: the rows
    without device name are not written.  This holds in the navigation
    pipeline for every table, and in the optimised pipeline for a table
    that has every data column; on a table that lacks one, the optimised
    pipeline leaves the sheet with the link and the headers. *)
Theorem grouped_sheet_row_count (ws0 : worksheet) (df : list grouped_row)
    (cols : list string) :
  cells ws0 = [] ->
  List.length (cells (Nav.create_merged_sheet
                        (add_back_to_navigation_link ws0) df cols))
  = 2 + List.length (filter Spec.named df) /\
  List.length (cells (Opt.create_merged_sheet
                        (add_back_to_navigation_link ws0) df cols))
  = (if forallb (table_has df) cols
     then 2 + List.length (filter Spec.named df) else 2).
Proof.
  intros Hempty. split.
  - rewrite (nav_sheet_cells ws0 df cols Hempty). cbn [List.length].
    rewrite length_flat_lines, total_rows_named. reflexivity.
  - destruct (forallb (table_has df) cols) eqn:Hcols.
    + rewrite (opt_sheet_cells _ df cols Hcols),
        (back_link_on_empty ws0 Hempty).
      cbn [app List.length].
      rewrite opt_length_flat_lines, total_rows_named. reflexivity.
    + rewrite (opt_sheet_refused _ df cols Hcols). cbn [Xl.append cells].
      rewrite (back_link_on_empty ws0 Hempty). reflexivity.
Qed.

Lemma group_ranges_one_row_up (groups : list (string * list grouped_row)) :
  forall first : nat,
    Spec.group_ranges groups first
    = map Spec.one_row_up (Spec.group_ranges groups (S first)).
Proof.
  induction groups as [|[k g] groups IH]; intros first; [reflexivity|].
  cbn [Spec.group_ranges]. rewrite map_app. f_equal.
  - destruct (1 <? List.length g)%nat eqn:L; [|reflexivity].
    apply Nat.ltb_lt in L. cbn [map].
    unfold Spec.one_row_up, Spec.group_range. cbn [start_row end_row
      start_column end_column].
    replace (S first - 1) with first by lia.
    replace (S first + List.length g - 1 - 1)
      with (first + List.length g - 1) by lia.
    reflexivity.
  - exact (IH (first + List.length g)).
Qed.

(** X12.  The grouped sheet of the optimised pipeline, drawn on a new
    sheet.  On a table that lacks a data column the key error of the first
    row is caught: the sheet keeps the link and the headers, and nothing
    is merged.  On a table that has every data column the groups are
    where the navigation pipeline has them, in consecutive rows from row 3
    on, but the merged ranges are those of the navigation pipeline moved
    one row up: the range of a group of more than one row begins one row
    above the first row of the group, which holds the device name, and
    ends one row above its last row.  (Merging empties the cells of a
    range below its first row, which the sheets here do not show; the rows
    are therefore compared from their second column on, and up to the kind
    of the empty cells.) *)
Theorem opt_grouped_sheet (ws0 : worksheet) (df : list grouped_row)
    (cols : list string) :
  cells ws0 = [] -> merged_cells ws0 = [] ->
  let ws := Opt.create_merged_sheet (add_back_to_navigation_link ws0)
                                    df cols in
  (forallb (table_has df) cols = false ->
   cells ws = [[PStr back_label]; map PStr ("fqdn" :: cols)] /\
   merged_cells ws = []) /\
  (forallb (table_has df) cols = true ->
   merged_cells ws
   = map Spec.one_row_up
         (merged_cells (Nav.create_merged_sheet
                          (add_back_to_navigation_link ws0) df cols)) /\
   (forall before k g after,
       groupby df = before ++ (k, g) :: after ->
       let first := 3 + Spec.total_rows before in
       Spec.same_lines
         (map (skipn 1)
              (Spec.lines_between ws first (first + List.length g - 1)))
         (map (skipn 1) (group_lines cols g)) /\
       (1 < List.length g ->
        In (Spec.group_range (first - 1) g) (merged_cells ws) /\
        start_row (Spec.group_range (first - 1) g) < first
        <= end_row (Spec.group_range (first - 1) g)) /\
       (forall r i,
           In r (merged_cells ws) -> i < List.length g ->
           start_row r <= first - 1 + i <= end_row r ->
           1 < List.length g /\ r = Spec.group_range (first - 1) g))).
Proof.
  intros Hcells0 Hmerged0 ws.
  assert (Hback : merged_cells (add_back_to_navigation_link ws0) = []).
  { unfold add_back_to_navigation_link, Xl.set_cell. cbn [merged_cells].
    exact Hmerged0. }
  split.
  - intros Hcols. subst ws. rewrite (opt_sheet_refused _ df cols Hcols).
    cbn [Xl.append cells merged_cells].
    rewrite (back_link_on_empty ws0 Hcells0), Hback. split; reflexivity.
  - intros Hcols.
    assert (Ecells : cells ws
                     = [PStr back_label] :: map PStr ("fqdn" :: cols)
                       :: flat_map
                            (fun kg => Opt.group_lines cols (snd kg))
                            (groupby df)).
    { subst ws. rewrite (opt_sheet_cells _ df cols Hcols),
        (back_link_on_empty ws0 Hcells0). reflexivity. }
    assert (Emerged : merged_cells ws = Spec.group_ranges (groupby df) 2).
    { subst ws. rewrite (opt_sheet_merged _ df cols Hcols), Hback.
      reflexivity. }
    split.
    + rewrite Emerged, (nav_sheet_merged ws0 df cols Hcells0), Hmerged0.
      cbn [app]. apply group_ranges_one_row_up.
    + intros before k g after Hsplit first.
      assert (Hin : In (k, g) (groupby df)).
      { rewrite Hsplit. apply in_or_app. right. now left. }
      destruct (in_groupby df k g Hin) as [_ Hlen].
      split; [|split].
      * rewrite Hsplit in Ecells.
        pose proof (opt_lines_of_group ws cols _ _ before k g after
                                       Ecells Hlen) as Hlines.
        fold first in Hlines. rewrite Hlines. apply same_data_columns.
      * intros L. split.
        -- rewrite Emerged, Hsplit.
           replace (first - 1) with (2 + Spec.total_rows before)
             by (subst first; lia).
           now apply group_ranges_member.
        -- unfold Spec.group_range. cbn [start_row end_row].
           subst first. lia.
      * intros r i Hr Hi Hcover. rewrite Emerged, Hsplit in Hr.
        replace (first - 1) with (2 + Spec.total_rows before) in *
          by (subst first; lia).
        now apply (group_ranges_cover before k g after 2 r i).
Qed.

Lemma opt_item_rows_count (fields : list string) (field_of : device -> pyval)
    (k : string) (data : list report_row) :
  forall df : list grouped_row,
    Opt.item_rows fields field_of data = Returns df ->
    List.length (group_of df k)
    = list_sum (map (Spec.items_brought fields field_of k) data).
Proof.
  induction data as [|row data IH]; intros df.
  - intros E. injection E as <-. reflexivity.
  - cbn [Opt.item_rows map list_sum]. unfold Spec.items_brought at 1.
    destruct (Opt.parse_json_data _ fields) as [items|e]; [|discriminate].
    destruct (Opt.item_rows fields field_of data) as [more|e];
      [|discriminate].
    intros E. injection E as <-.
    rewrite group_of_app, length_app, length_group_of_rows.
    rewrite (IH more eq_refl).
    destruct (Pd.key_eqb (fqdn (m_device (r_merged row))) (Some k));
      reflexivity.
Qed.

Lemma nav_item_rows_none (parse : pyval -> outcome (list item))
    (field_of : device -> pyval) (data : list report_row) :
  Nav.item_rows parse field_of data = Returns [] -> data = [].
Proof.
  destruct data as [|row data]; [reflexivity|].
  cbn [Nav.item_rows].
  destruct (parse _) as [items|e]; [|discriminate].
  destruct (Nav.item_rows parse field_of data) as [more|e]; [|discriminate].
  destruct items; discriminate.
Qed.

(** X13.  The rows a device name has on the grouped table of a tenant: in
    the navigation pipeline each inventory row of that name brings one row
    per parsed item, and one row when it has no item, so that the table is
    empty only for a tenant without rows; in the optimised pipeline it
    brings one row per parsed item, and none when it has no item. *)
Theorem item_rows_per_device (parse : pyval -> outcome (list item))
    (fields : list string) (field_of : device -> pyval) (k : string)
    (data : list report_row) (df : list grouped_row) :
  (Nav.item_rows parse field_of data = Returns df ->
   List.length (group_of df k)
   = list_sum (map (Spec.rows_brought parse field_of k) data) /\
   (df = [] -> data = [])) /\
  (Opt.item_rows fields field_of data = Returns df ->
   List.length (group_of df k)
   = list_sum (map (Spec.items_brought fields field_of k) data)).
Proof.
  split.
  - intros E. split.
    + now apply nav_item_rows_count.
    + intros ->. now apply (nav_item_rows_none parse field_of).
  - apply opt_item_rows_count.
Qed.

End TableFacts.

(** ** The whole run *)

Section ProcessFacts.

Context `{Decoders} `{Titles}.

Lemma nav_normalise_raises (with_os : bool) (merged : list merged_row)
    (e : exn) :
  Nav.normalise with_os merged = Raises e ->
  with_os = true /\
  exists m, In m merged /\ Nav.parse_os_data (os (m_device m)) = Raises e.
Proof.
  induction merged as [|m merged IH]; [discriminate|].
  cbn [Nav.normalise]. destruct with_os.
  - destruct (Nav.parse_os_data (os (m_device m))) as [[p v]|e'] eqn:P.
    + destruct (Nav.normalise true merged) as [more|e'']; [discriminate|].
      intros E. injection E as ->.
      destruct (IH eq_refl) as [_ (m' & Hin & Hm')].
      split; [reflexivity|]. exists m'. split; [now right | exact Hm'].
    + intros E. injection E as ->. split; [reflexivity|].
      exists m. split; [now left | exact P].
  - destruct (Nav.normalise false merged) as [more|e'']; [discriminate|].
    intros E. injection E as ->. now destruct (IH eq_refl).
Qed.

Lemma opt_normalise_returns (with_os : bool) (merged : list merged_row) :
  exists data,
    Opt.normalise with_os merged = Returns data /\
    map r_merged data = merged.
Proof.
  induction merged as [|m merged (more & Hmore & Hmap)].
  - exists []. split; reflexivity.
  - cbn [Opt.normalise]. rewrite Hmore.
    destruct (opt_parse_os_data_returns (os (m_device m))) as [[p v] P].
    destruct with_os.
    + rewrite P. eexists. split; [reflexivity|]. simpl. now rewrite Hmap.
    + eexists. split; [reflexivity|]. simpl. now rewrite Hmap.
Qed.

Lemma opt_navigation_lines_return (names tenants : list string) :
  exists lines,
    Opt.navigation_lines names tenants = Returns lines /\
    List.length lines = List.length tenants.
Proof.
  induction tenants as [|t tenants (lines & E & L)].
  - exists []. split; reflexivity.
  - cbn [Opt.navigation_lines]. unfold Opt.navigation_line.
    rewrite (opt_clean_tenant_name_value (PStr t) eq_refl), E.
    eexists. split; [reflexivity|]. simpl. now rewrite L.
Qed.

Lemma opt_navigation_sheet_returns (tenants : list string) (wb : workbook) :
  exists nav lines,
    Opt.create_navigation_sheet tenants wb = (nav :: wb, Returns tt) /\
    cells nav
    = [PStr navigation_heading]
      :: map PStr ["Tenant Name"; "Main Data"; "Software"; "Vulnerabilities"]
      :: lines /\
    List.length lines = List.length tenants.
Proof.
  unfold Opt.create_navigation_sheet, bind, create_sheet, lift, commit_first.
  unfold Xl.new_sheet.
  change (Xl.invalid_title navigation_title) with false. cbv iota.
  destruct (opt_navigation_lines_return
              (avoid_duplicate_name (Xl.sheetnames wb) navigation_title
               :: Xl.sheetnames wb) tenants) as (lines & E & L).
  cbn [title]. rewrite E.
  eexists _, lines. split; [reflexivity|]. split; [reflexivity | exact L].
Qed.

Lemma merged_device_in (left : list device) (right : list hardware)
    (m : merged_row) :
  In m (Pd.merge_left left right) -> In (m_device m) left.
Proof.
  unfold Pd.merge_left. intros Hm.
  apply in_flat_map in Hm as (d & Hd & Hm).
  now rewrite (joined_device right d m Hm).
Qed.

(** X14.  On an inventory as it is loaded, without a list in a cell,
    [process_data] of the navigation pipeline fails in five cases only.  A
    hardware report that lacks one of the five required columns
    gives an exception of its own; an inventory without device-name column
    gives the key error of the merge; an OS cell that is a text with a
    marker on which [json.loads] raises something else than a JSON
    decoding error gives that exception; an inventory with an OS column
    and no row gives the value error of the assignment of the two OS
    columns; an inventory without tenant column gives an exception of its
    own.  The first two cases fail whatever the rest of the input is.
    When the run returns, the workbook is the navigation sheet, with its
    heading, its headers and one row per tenant, followed by the sheets of
    the tenants. *)
Theorem nav_process_data_outcome (all_data : frame device)
    (devices_report : frame hardware) :
  Spec.loaded_inventory all_data = true ->
  (missing_columns devices_report <> [] ->
   Nav.process_data all_data devices_report = Raises PlainException) /\
  (missing_columns devices_report = [] ->
   has_column all_data "fqdn" = false ->
   Nav.process_data all_data devices_report = Raises KeyError) /\
  (forall e,
      Nav.process_data all_data devices_report = Raises e ->
      (missing_columns devices_report <> [] /\ e = PlainException) \/
      (has_column all_data "fqdn" = false /\ e = KeyError) \/
      (has_column all_data "os" = true /\
       exists d s,
         In d (rows all_data) /\ os d = PStr s /\ s <> EmptyString /\
         has_marker (Py.lower s) = true /\
         json_loads s = Raises e /\ e <> JSONDecodeError) \/
      (has_column all_data "os" = true /\ rows all_data = [] /\
       e = ValueError) \/
      (has_column all_data "tenantName" = false /\ e = PlainException)) /\
  (forall out,
      Nav.process_data all_data devices_report = Returns out ->
      missing_columns devices_report = [] /\
      has_column all_data "fqdn" = true /\
      (has_column all_data "os" = false \/ rows all_data <> []) /\
      has_column all_data "tenantName" = true /\
      exists data nav lines,
        Nav.normalise (has_column all_data "os")
                      (Pd.merge_left (rows all_data) (rows devices_report))
        = Returns data /\
        book out
        = nav :: book (Nav.render_tenants
                         {| book := []; printed := [] |}
                         {| columns := merged_columns (columns all_data);
                            rows := data |}
                         (tenants_of data)) /\
        cells nav
        = [PStr navigation_heading]
          :: map PStr ["Tenant Name"; "Main Data"; "Software";
                       "Vulnerabilities"]
          :: lines /\
        List.length lines = List.length (tenants_of data)).
Proof.
  intros _. unfold Nav.process_data.
  destruct (missing_columns devices_report) as [|col cols] eqn:M.
  2:{ split; [reflexivity|]. split; [discriminate|]. split.
      - intros e E. injection E as <-. left. split; [discriminate|].
        reflexivity.
      - discriminate. }
  split; [intros C; now contradiction C|].
  destruct (has_column all_data "fqdn") eqn:F; simpl negb; cbv iota.
  2:{ split; [reflexivity|]. split.
      - intros e E. injection E as <-. right. left. split; reflexivity.
      - discriminate. }
  split; [discriminate|].
  rewrite merge_left_empty.
  split.
  - intros e.
    destruct (Nav.normalise _ _) as [data|e'] eqn:N.
    + destruct (has_column all_data "os" &&
                (List.length (rows all_data) =? 0)%nat) eqn:Z.
      * intros E. injection E as <-. apply andb_true_iff in Z as [Hos Hz].
        right. right. right. left. split; [exact Hos|].
        split; [|reflexivity].
        destruct (rows all_data); [reflexivity | discriminate].
      * destruct (has_column all_data "tenantName") eqn:T; simpl negb;
          cbv iota.
        -- set (st := Nav.render_tenants _ _ _).
           destruct (nav_navigation_sheet_returns (tenants_of data)
                                                  (book st))
             as (nav & lines & -> & _). discriminate.
        -- intros E. injection E as <-. right. right. right. right.
           split; reflexivity.
    + intros E. injection E as ->. right. right. left.
      apply nav_normalise_raises in N as [Hos (m & Hm & Hraise)].
      split; [exact Hos|].
      apply nav_os_raises in Hraise as (s & Hs & Hne & Hmark & Hj & He).
      exists (m_device m), s. split; [now apply merged_device_in in Hm|].
      repeat split; assumption.
  - intros out.
    destruct (Nav.normalise _ _) as [data|e'] eqn:N; [|discriminate].
    destruct (has_column all_data "os" &&
              (List.length (rows all_data) =? 0)%nat) eqn:Z; [discriminate|].
    destruct (has_column all_data "tenantName") eqn:T; simpl negb; cbv iota;
      [|discriminate].
    set (st := Nav.render_tenants _ _ _).
    destruct (nav_navigation_sheet_returns (tenants_of data) (book st))
      as (nav & lines & -> & Hcells & Hlen).
    intros E. injection E as <-.
    split; [reflexivity|]. split; [reflexivity|]. split.
    { apply andb_false_iff in Z as [Hos | Hz]; [now left | right].
      intros Hr. rewrite Hr in Hz. discriminate. }
    split; [reflexivity|].
    exists data, nav, lines. repeat split; assumption.
Qed.

(** X15.  On an inventory as it is loaded, without a list in a cell,
    [process_data] of the optimised pipeline fails in four cases only,
    whatever the decoders do: with the value error of the reading
    on a hardware report that lacks one of the five columns it selects;
    with the key error of the merge on an inventory without device-name
    column; with a value error on an inventory that has an OS column and
    no row; and otherwise with an exception of its own on an inventory
    without tenant column.  In every other case it returns, with as many
    report rows as the merge gives, and its workbook is the navigation
    sheet, with one row per tenant, followed by the sheets of the
    tenants. *)
Theorem opt_process_data_outcome (all_data : frame device)
    (devices_report : frame hardware) :
  Spec.loaded_inventory all_data = true ->
  (missing_columns devices_report <> [] ->
   Opt.process_data all_data devices_report = Raises ValueError) /\
  (missing_columns devices_report = [] ->
   has_column all_data "fqdn" = false ->
   Opt.process_data all_data devices_report = Raises KeyError) /\
  (missing_columns devices_report = [] ->
   has_column all_data "fqdn" = true ->
   (has_column all_data "os" = true -> rows all_data = [] ->
    Opt.process_data all_data devices_report = Raises ValueError) /\
   (has_column all_data "os" = false \/ rows all_data <> [] ->
    has_column all_data "tenantName" = false ->
    Opt.process_data all_data devices_report = Raises PlainException) /\
   (has_column all_data "os" = false \/ rows all_data <> [] ->
    has_column all_data "tenantName" = true ->
    exists out data nav lines,
      Opt.process_data all_data devices_report = Returns out /\
      Opt.normalise (has_column all_data "os")
                    (Pd.merge_left (rows all_data) (rows devices_report))
      = Returns data /\
      map r_merged data
      = Pd.merge_left (rows all_data) (rows devices_report) /\
      book out
      = nav :: book (Opt.render_tenants
                       {| book := []; printed := [] |}
                       {| columns := merged_columns (columns all_data);
                          rows := data |}
                       (tenants_of data)) /\
      cells nav
      = [PStr navigation_heading]
        :: map PStr ["Tenant Name"; "Main Data"; "Software";
                     "Vulnerabilities"]
        :: lines /\
      List.length lines = List.length (tenants_of data))).
Proof.
  intros _. unfold Opt.process_data.
  destruct (missing_columns devices_report) as [|col cols] eqn:M.
  2:{ split; [reflexivity|]. split; discriminate. }
  split; [intros C; now contradiction C|].
  split; [intros _ ->; reflexivity|].
  intros _ ->. simpl negb. cbv iota.
  destruct (opt_normalise_returns
              (has_column all_data "os")
              (Pd.merge_left (rows all_data) (rows devices_report)))
    as (data & N & Hmap).
  rewrite N, merge_left_empty.
  assert (Hgo : has_column all_data "os" = false \/ rows all_data <> [] ->
                has_column all_data "os"
                && (List.length (rows all_data) =? 0)%nat = false).
  { intros [-> | Hne]; [reflexivity|].
    destruct (rows all_data); [contradiction|]. apply andb_false_r. }
  split; [|split].
  - intros -> ->. reflexivity.
  - intros Hrows ->. now rewrite (Hgo Hrows).
  - intros Hrows ->. rewrite (Hgo Hrows). simpl negb. cbv iota.
    set (st := Opt.render_tenants _ _ _).
    destruct (opt_navigation_sheet_returns (tenants_of data) (book st))
      as (nav & lines & -> & Hcells & Hlen).
    eexists _, data, nav, lines. repeat split; assumption.
Qed.

Lemma length_append_one (s : string) (c : ascii) :
  String.length (s ++ String c EmptyString) = S (String.length s).
Proof.
  induction s as [|d s IH]; simpl; [reflexivity|]. now rewrite IH.
Qed.

Lemma title_append_all (lines : list (list pyval)) :
  forall ws : worksheet,
    title (fold_left (fun w line => Xl.append line w) lines ws) = title ws.
Proof.
  induction lines as [|l lines IH]; intros ws; simpl; [reflexivity|].
  now rewrite IH.
Qed.

Lemma body_main_named (merged_data : frame report_row) (tenant_name : string)
    (wb wb' : workbook) :
  Nav.tenant_sheets_body merged_data tenant_name wb = (wb', Returns tt) ->
  exists (ws_main : worksheet) (more : list worksheet),
    wb' = wb ++ ws_main :: more /\
    title ws_main
    = avoid_duplicate_name
        (Xl.sheetnames wb)
        (Py.take 25 (Spec.cleaned_name tenant_name) ++ "_MAIN") /\
    cells ws_main
    = [PStr back_label] :: main_lines (tenant_rows merged_data tenant_name).
Proof.
  unfold Nav.tenant_sheets_body.
  rewrite nav_clean_tenant_name_text.
  set (prefix := Py.take 25 (Spec.cleaned_name tenant_name)).
  set (lines := main_lines (tenant_rows merged_data tenant_name)).
  unfold bind at 1. unfold create_sheet at 1.
  destruct (Xl.new_sheet wb (prefix ++ "_MAIN")) as [ws_main|e] eqn:Enew;
    [|discriminate].
  assert (Htitle : title ws_main
                   = avoid_duplicate_name (Xl.sheetnames wb)
                                          (prefix ++ "_MAIN")).
  { unfold Xl.new_sheet in Enew.
    destruct (Xl.invalid_title (prefix ++ "_MAIN")); [discriminate|].
    injection Enew as <-. reflexivity. }
  apply new_sheet_empty in Enew as [Hcells _].
  unfold bind at 1. unfold commit at 1.
  set (rest := bind _ _).
  intros E.
  assert (Hrest : only_adds rest).
  { subst rest. apply only_adds_bind.
    - destruct (has_column _ "software");
        [apply only_adds_group_sheet | apply only_adds_ret].
    - intros _. destruct (has_column _ "vulnerabilities");
        [apply only_adds_group_sheet | apply only_adds_ret]. }
  set (sheet := fold_left (fun w line => Xl.append line w) lines
                          (add_back_to_navigation_link ws_main)) in *.
  destruct (Hrest (wb ++ [sheet])) as [more Emore].
  rewrite E in Emore. cbn [fst] in Emore. rewrite <- app_assoc in Emore.
  exists sheet, more. split; [exact Emore|]. subst sheet. split.
  - rewrite title_append_all. exact Htitle.
  - rewrite cells_append_all, (back_link_on_empty _ Hcells). reflexivity.
Qed.

(** The sheets of the workbook after the turn of a tenant stay to the end
    of the loop. *)
Lemma turn_sheets_stay (merged_data : frame report_row) (st : run)
    (t : string) (after : list string) (wb : workbook) (u : unit)
    (ws : worksheet) :
  Nav.tenant_sheets_body merged_data t (book st) = (wb, Returns u) ->
  In ws wb ->
  In ws (book (Nav.render_tenants st merged_data (t :: after))).
Proof.
  intros Hbody Hin.
  change (t :: after) with ([t] ++ after).
  rewrite render_tenants_app.
  destruct (render_tenants_extends
              after (Nav.render_tenants st merged_data [t]) merged_data)
    as (s2 & _ & Eb2 & _).
  rewrite Eb2. apply in_or_app. left.
  unfold Nav.render_tenants. cbn [fold_left].
  unfold Nav.create_tenant_sheets. rewrite Hbody. exact Hin.
Qed.

Lemma navigation_line_main (names : list string) (t : string) :
  In (Py.take 25 (Spec.cleaned_name t) ++ "_MAIN")%string names ->
  exists rest,
    Nav.navigation_line names t
    = Returns (PStr (Spec.cleaned_name t) :: PStr go_label :: rest).
Proof.
  intros Hin. unfold Nav.navigation_line.
  rewrite nav_clean_tenant_name_text. unfold sheet_types. cbn [map].
  set (name := (Py.take 25 (Spec.cleaned_name t) ++ "_MAIN")%string) in *.
  assert (X : existsb (String.eqb name) names = true).
  { apply existsb_exists. exists name. split; [exact Hin|].
    apply String.eqb_refl. }
  change (Py.take 25 (Spec.cleaned_name t) ++ "_" ++ "MAIN")%string
    with name.
  rewrite X. eexists. reflexivity.
Qed.

(** X18.  A tenant whose rendering returns has a main sheet under the title
    that the workbook picked for it, and the sheet is still there when the
    navigation sheet is drawn, whatever happens to the other tenants.  When
    the workbook kept the title asked for, the navigation sheet has the
    link to the main sheet in the row of the tenant. *)
Theorem rendered_tenant_has_main_link (merged_data : frame report_row)
    (st0 : run) (before after : list string) (t : string) :
  let name := (Py.take 25 (Spec.cleaned_name t) ++ "_MAIN")%string in
  let st1 := Nav.render_tenants st0 merged_data before in
  let final := Nav.render_tenants st0 merged_data (before ++ t :: after) in
  forall wb,
    Nav.tenant_sheets_body merged_data t (book st1) = (wb, Returns tt) ->
    In (avoid_duplicate_name (Xl.sheetnames (book st1)) name)
       (Xl.sheetnames (book final)) /\
    (avoid_duplicate_name (Xl.sheetnames (book st1)) name = name ->
     forall nav_title : string,
     exists rest,
       Nav.navigation_line (nav_title :: Xl.sheetnames (book final)) t
       = Returns (PStr (Spec.cleaned_name t) :: PStr go_label :: rest)).
Proof.
  intros name st1 final wb Hbody.
  destruct (body_main_named merged_data t (book st1) wb Hbody)
    as (ws_main & more & Ewb & Htitle & _).
  fold name in Htitle.
  assert (Hfinal : In ws_main (book final)).
  { subst final. rewrite render_tenants_app.
    apply (turn_sheets_stay merged_data st1 t after wb tt ws_main Hbody).
    rewrite Ewb. apply in_or_app. right. now left. }
  assert (Hname : In (avoid_duplicate_name (Xl.sheetnames (book st1)) name)
                     (Xl.sheetnames (book final))).
  { rewrite <- Htitle. unfold Xl.sheetnames. now apply in_map. }
  split; [exact Hname|].
  intros Hkept nav_title. apply navigation_line_main.
  right. fold name. rewrite <- Hkept. exact Hname.
Qed.

(** X20.  Two tenants whose clean names have the same first 25 characters
    ask for the same sheet titles.  When the first one got the title of its
    main sheet and the workbook never keeps a title that a sheet holds
    already, the main sheet of the second one has another title: in the
    final workbook the name that the navigation row of the second tenant
    links to is the title of the main sheet of the first tenant, with the
    rows of the first tenant (up to the kind of the empty cells). *)
Theorem shared_prefix_links_to_first_tenant
    (merged_data : frame report_row) (st0 : run)
    (t1 t2 : string) (between after : list string) :
  (forall (names : list string) (value : string),
      In value names -> avoid_duplicate_name names value <> value) ->
  Py.take 25 (Spec.cleaned_name t1) = Py.take 25 (Spec.cleaned_name t2) ->
  let name := (Py.take 25 (Spec.cleaned_name t2) ++ "_MAIN")%string in
  let st1 := Nav.render_tenants st0 merged_data (t1 :: between) in
  let final :=
    Nav.render_tenants st0 merged_data (t1 :: between ++ t2 :: after) in
  forall wb1 wb2,
    Nav.tenant_sheets_body merged_data t1 (book st0) = (wb1, Returns tt) ->
    Nav.tenant_sheets_body merged_data t2 (book st1) = (wb2, Returns tt) ->
    avoid_duplicate_name (Xl.sheetnames (book st0)) name = name ->
    exists ws1 ws2,
      In ws1 (book final) /\ In ws2 (book final) /\
      title ws1 = name /\
      Spec.same_lines
        (cells ws1)
        ([PStr back_label] :: main_lines (tenant_rows merged_data t1)) /\
      title ws2 <> name /\
      Spec.same_lines
        (cells ws2)
        ([PStr back_label] :: main_lines (tenant_rows merged_data t2)) /\
      (forall nav_title : string,
          exists rest,
            Nav.navigation_line (nav_title :: Xl.sheetnames (book final)) t2
            = Returns (PStr (Spec.cleaned_name t2) :: PStr go_label
                            :: rest)).
Proof.
  intros Hlaw Hprefix name st1 final wb1 wb2 Hbody1 Hbody2 Hkept.
  destruct (body_main_named merged_data t1 (book st0) wb1 Hbody1)
    as (ws1 & more1 & Ewb1 & Htitle1 & Hcells1).
  destruct (body_main_named merged_data t2 (book st1) wb2 Hbody2)
    as (ws2 & more2 & Ewb2 & Htitle2 & Hcells2).
  rewrite Hprefix in Htitle1. fold name in Htitle1, Htitle2.
  rewrite Hkept in Htitle1.
  assert (Hin1 : In ws1 (book st1)).
  { subst st1.
    apply (turn_sheets_stay merged_data st0 t1 between wb1 tt ws1 Hbody1).
    rewrite Ewb1. apply in_or_app. right. now left. }
  assert (Efinal : final
                   = Nav.render_tenants st1 merged_data (t2 :: after)).
  { subst final st1.
    change (t1 :: between ++ t2 :: after)
      with ((t1 :: between) ++ t2 :: after).
    apply render_tenants_app. }
  assert (Hfinal : forall ws, In ws wb2 -> In ws (book final)).
  { intros ws Hws. rewrite Efinal.
    now apply (turn_sheets_stay merged_data st1 t2 after wb2 tt ws Hbody2). }
  exists ws1, ws2. split; [|split; [|split; [|split; [|split; [|split]]]]].
  - apply Hfinal. rewrite Ewb2. apply in_or_app. now left.
  - apply Hfinal. rewrite Ewb2. apply in_or_app. right. now left.
  - exact Htitle1.
  - rewrite Hcells1. apply same_lines_refl.
  - rewrite Htitle2. apply Hlaw. rewrite <- Htitle1.
    unfold Xl.sheetnames. now apply in_map.
  - rewrite Hcells2. apply same_lines_refl.
  - intros nav_title. apply navigation_line_main. right. fold name.
    rewrite <- Htitle1. unfold Xl.sheetnames. apply in_map.
    apply Hfinal. rewrite Ewb2. apply in_or_app. now left.
Qed.

End ProcessFacts.

(** ** The export of the JSON files *)

Section ParsedFacts.

Lemma has_char_keep_wanted (c : ascii) (s : string) :
  Py.has_char c Parsed.unwanted = true ->
  Py.has_char c (Parsed.keep_wanted s) = false.
Proof.
  intros Hc. induction s as [|d s IH]; [reflexivity|].
  cbn [Parsed.keep_wanted].
  destruct (Py.has_char d Parsed.unwanted) eqn:Hd; [exact IH|].
  cbn [Py.has_char]. rewrite IH, orb_false_r.
  destruct (Ascii.eqb c d) eqn:E; [|reflexivity].
  apply Ascii.eqb_eq in E. congruence.
Qed.

Lemma keep_wanted_valid (s : string) :
  Xl.invalid_title (Parsed.keep_wanted s) = false.
Proof.
  unfold Xl.invalid_title. simpl existsb.
  now rewrite !has_char_keep_wanted.
Qed.

Lemma length_keep_wanted (s : string) :
  String.length (Parsed.keep_wanted s) <= String.length s.
Proof.
  induction s as [|d s IH]; [reflexivity|].
  cbn [Parsed.keep_wanted String.length].
  destruct (Py.has_char d Parsed.unwanted); cbn [String.length]; lia.
Qed.

Lemma length_take (n : nat) (s : string) :
  String.length (Py.take n s) <= n.
Proof.
  revert s. induction n as [|n IH]; intros s; [reflexivity|].
  destruct s as [|c s]; simpl; [lia|]. specialize (IH s). lia.
Qed.

Lemma take_all (n : nat) (s : string) :
  String.length s <= n -> Py.take n s = s.
Proof.
  revert s. induction n as [|n IH]; intros s.
  - destruct s; simpl; [reflexivity | lia].
  - destruct s as [|c s]; simpl; [reflexivity|].
    intros L. rewrite IH; [reflexivity | lia].
Qed.

Lemma has_char_head (x c : ascii) (s : string) :
  Py.has_char x (String c s) = false ->
  Ascii.eqb c x = false /\ Py.has_char x s = false.
Proof.
  cbn [Py.has_char]. intros Hx. apply orb_false_iff in Hx as [Hc Hs].
  now rewrite Ascii.eqb_sym.
Qed.

Lemma invalid_title_head (c : ascii) (s : string) :
  Xl.invalid_title (String c s) = false ->
  Py.has_char c Parsed.unwanted = false /\ Xl.invalid_title s = false.
Proof.
  unfold Xl.invalid_title. cbn [existsb]. intros Hv.
  apply orb_false_iff in Hv as [H1 Hv]. apply has_char_head in H1 as [C1 S1].
  apply orb_false_iff in Hv as [H2 Hv]. apply has_char_head in H2 as [C2 S2].
  apply orb_false_iff in Hv as [H3 Hv]. apply has_char_head in H3 as [C3 S3].
  apply orb_false_iff in Hv as [H4 Hv]. apply has_char_head in H4 as [C4 S4].
  apply orb_false_iff in Hv as [H5 Hv]. apply has_char_head in H5 as [C5 S5].
  apply orb_false_iff in Hv as [H6 Hv]. apply has_char_head in H6 as [C6 S6].
  apply orb_false_iff in Hv as [H7 _]. apply has_char_head in H7 as [C7 S7].
  split.
  - unfold Parsed.unwanted. cbn [Py.has_char].
    now rewrite C1, C2, C3, C4, C5, C6, C7.
  - now rewrite S1, S2, S3, S4, S5, S6, S7.
Qed.

Lemma keep_wanted_id (s : string) :
  Xl.invalid_title s = false -> Parsed.keep_wanted s = s.
Proof.
  induction s as [|c s IH]; [reflexivity|].
  intros Hv. apply invalid_title_head in Hv as [Hc Hs].
  cbn [Parsed.keep_wanted]. now rewrite Hc, (IH Hs).
Qed.

(** X16.  The sheet name that the export gives to a tenant has at most 31
    characters and none of the characters that the workbook refuses in a
    title, whatever the tenant name; a tenant name of at most 31 characters
    without such a character is its own sheet name. *)
Theorem sheet_name_valid (tenant : pyval) :
  Xl.invalid_title (Parsed.sheet_name tenant) = false /\
  String.length (Parsed.sheet_name tenant) <= 31 /\
  (Xl.invalid_title (Val.str tenant) = false ->
   String.length (Val.str tenant) <= 31 ->
   Parsed.sheet_name tenant = Val.str tenant).
Proof.
  unfold Parsed.sheet_name. split; [apply keep_wanted_valid|]. split.
  - pose proof (length_keep_wanted (Py.take 31 (Val.str tenant))).
    pose proof (length_take 31 (Val.str tenant)). lia.
  - intros Hv Hl. rewrite (take_all 31 _ Hl). now apply keep_wanted_id.
Qed.

Lemma has_char_removed (c : ascii) (s : string) :
  Py.has_char c (Parsed.remove_char c s) = false.
Proof.
  induction s as [|d s IH]; [reflexivity|].
  simpl. destruct (Ascii.eqb d c) eqn:E; [exact IH|].
  simpl. now rewrite (Ascii.eqb_sym c d), E, IH.
Qed.

Lemma has_char_remove_other (c d : ascii) (s : string) :
  Py.has_char c s = false -> Py.has_char c (Parsed.remove_char d s) = false.
Proof.
  induction s as [|x s IH]; [reflexivity|].
  simpl. intros Hc. apply orb_false_iff in Hc as [Hx Hs].
  destruct (Ascii.eqb x d); [now apply IH|].
  simpl. now rewrite Hx, (IH Hs).
Qed.

Lemma remove_char_absent (c : ascii) (s : string) :
  Py.has_char c s = false -> Parsed.remove_char c s = s.
Proof.
  induction s as [|x s IH]; [reflexivity|].
  simpl. intros Hc. apply orb_false_iff in Hc as [Hx Hs].
  now rewrite (Ascii.eqb_sym x c), Hx, (IH Hs).
Qed.

(** X17.  [clean_field] of a value that is not a list leaves no bracket
    and no apostrophe in its text, and a text that it has cleaned is left
    as it is when it is cleaned again. *)
Theorem clean_field_scalar (value : pyval) :
  Val.is_list value = false ->
  Py.has_char "[" (Parsed.clean_field value) = false /\
  Py.has_char "]" (Parsed.clean_field value) = false /\
  Py.has_char "'" (Parsed.clean_field value) = false /\
  Parsed.clean_field (PStr (Parsed.clean_field value))
  = Parsed.clean_field value.
Proof.
  intros Hl.
  assert (E : Parsed.clean_field value
              = Parsed.remove_char "'"
                  (Parsed.remove_char "]"
                     (Parsed.remove_char "[" (Val.str value)))).
  { destruct value; try reflexivity. discriminate. }
  rewrite E. clear E Hl.
  set (t := Val.str value).
  assert (H1 : Py.has_char "[" (Parsed.remove_char "'"
                 (Parsed.remove_char "]" (Parsed.remove_char "[" t))) = false).
  { apply has_char_remove_other, has_char_remove_other, has_char_removed. }
  assert (H2 : Py.has_char "]" (Parsed.remove_char "'"
                 (Parsed.remove_char "]" (Parsed.remove_char "[" t))) = false).
  { apply has_char_remove_other, has_char_removed. }
  assert (H3 : Py.has_char "'" (Parsed.remove_char "'"
                 (Parsed.remove_char "]" (Parsed.remove_char "[" t))) = false).
  { apply has_char_removed. }
  repeat split; try assumption.
  cbn [Parsed.clean_field Val.str].
  rewrite (remove_char_absent "[" _ H1).
  rewrite (remove_char_absent "]" _ H2).
  now rewrite (remove_char_absent "'" _ H3).
Qed.

End ParsedFacts.

(** ** The report of the first version *)

Section LegacyFacts.

Context `{Decoders} `{Titles}.

Lemma length_legacy_group_lines (df : list Legacy.sheet_row)
    (cols : list string) (g : list Legacy.sheet_row) :
  List.length (Legacy.group_lines df cols g) = List.length g.
Proof.
  destruct g as [|r g]; simpl; [reflexivity|]. now rewrite length_map.
Qed.

Lemma legacy_write_groups_cells (df : list Legacy.sheet_row)
    (cols : list string) (groups : list (string * list Legacy.sheet_row)) :
  forall (current_row : nat) (ws : worksheet),
    cells (Legacy.write_groups df cols groups current_row ws)
    = cells ws
      ++ flat_map (fun kg => Legacy.group_lines df cols (snd kg)) groups.
Proof.
  induction groups as [|[k g] groups IH]; intros current_row ws.
  - simpl. now rewrite app_nil_r.
  - cbn [Legacy.write_groups flat_map snd]. rewrite IH.
    destruct (1 <? List.length g)%nat; cbn [Xl.merge_cells cells];
      rewrite cells_append_all; now rewrite app_assoc.
Qed.

Lemma legacy_write_groups_merged (df : list Legacy.sheet_row)
    (cols : list string) (groups : list (string * list Legacy.sheet_row)) :
  forall (current_row : nat) (ws : worksheet),
    merged_cells (Legacy.write_groups df cols groups current_row ws)
    = merged_cells ws
      ++ Spec.paired_ranges (map (fun kg => List.length (snd kg)) groups)
                            current_row.
Proof.
  induction groups as [|[k g] groups IH]; intros current_row ws.
  - simpl. now rewrite app_nil_r.
  - cbn [Legacy.write_groups map snd Spec.paired_ranges]. rewrite IH.
    destruct (1 <? List.length g)%nat; cbn [Xl.merge_cells merged_cells];
      rewrite merged_append_all; [|reflexivity].
    rewrite <- !app_assoc. reflexivity.
Qed.

Lemma length_legacy_flat_lines (df : list Legacy.sheet_row)
    (cols : list string) (groups : list (string * list Legacy.sheet_row)) :
  List.length (flat_map (fun kg => Legacy.group_lines df cols (snd kg))
                        groups)
  = Spec.rows_taken groups.
Proof.
  induction groups as [|[k g] groups IH]; [reflexivity|].
  cbn [flat_map snd]. rewrite length_app, length_legacy_group_lines, IH.
  reflexivity.
Qed.

(** The merged ranges lie where the groups are. *)
Lemma paired_ranges_start (sizes : list nat) :
  forall (first : nat) (r : cell_range),
    In r (Spec.paired_ranges sizes first) -> first <= start_row r.
Proof.
  induction sizes as [|n sizes IH]; intros first r; simpl.
  - intros [].
  - intros Hin. apply in_app_or in Hin as [Hin | Hin].
    + destruct (1 <? n)%nat; [|destruct Hin].
      destruct Hin as [<- | [<- | []]]; simpl; lia.
    + apply IH in Hin. lia.
Qed.

Lemma paired_ranges_cover (before : list nat) :
  forall (n : nat) (after : list nat) (first : nat) (r : cell_range)
         (i : nat),
    In r (Spec.paired_ranges (before ++ n :: after) first) ->
    i < n ->
    start_row r <= first + list_sum before + i <= end_row r ->
    1 < n /\
    (r = Spec.column_range 1 (first + list_sum before) n \/
     r = Spec.column_range 2 (first + list_sum before) n).
Proof.
  induction before as [|m before IH]; intros n after first r i Hin Hi Hcover.
  - cbn [app Spec.paired_ranges] in Hin.
    change (list_sum []) with 0 in *.
    replace (first + 0) with first in * by lia.
    apply in_app_or in Hin as [Hin | Hin].
    + destruct (1 <? n)%nat eqn:L; [|destruct Hin].
      apply Nat.ltb_lt in L. split; [exact L|].
      destruct Hin as [<- | [<- | []]]; [now left | now right].
    + apply paired_ranges_start in Hin. lia.
  - cbn [app Spec.paired_ranges] in Hin.
    change (list_sum (m :: before)) with (m + list_sum before) in *.
    apply in_app_or in Hin as [Hin | Hin].
    + destruct (1 <? m)%nat eqn:L; [|destruct Hin].
      apply Nat.ltb_lt in L.
      destruct Hin as [<- | [<- | []]];
        unfold Spec.column_range in Hcover; simpl in Hcover; lia.
    + replace (first + (m + list_sum before))
        with (first + m + list_sum before) in * by lia.
      exact (IH n after (first + m) r i Hin Hi Hcover).
Qed.

Lemma paired_ranges_member (before : list nat) :
  forall (n : nat) (after : list nat) (first : nat),
    1 < n ->
    In (Spec.column_range 1 (first + list_sum before) n)
       (Spec.paired_ranges (before ++ n :: after) first) /\
    In (Spec.column_range 2 (first + list_sum before) n)
       (Spec.paired_ranges (before ++ n :: after) first).
Proof.
  induction before as [|m before IH]; intros n after first L.
  - cbn [app Spec.paired_ranges].
    change (list_sum []) with 0. replace (first + 0) with first by lia.
    apply Nat.ltb_lt in L. rewrite L.
    split; apply in_or_app; left; [now left | right; now left].
  - cbn [app Spec.paired_ranges].
    change (list_sum (m :: before)) with (m + list_sum before).
    replace (first + (m + list_sum before))
      with (first + m + list_sum before) by lia.
    destruct (IH n after (first + m) L) as [H1 H2].
    split; apply in_or_app; right; assumption.
Qed.

(** The groups of the table. *)
Lemma legacy_group_of_rows (df : list Legacy.sheet_row) (k : string) :
  map Legacy.l_row (Legacy.group_of df k)
  = group_of (map Legacy.l_row df) k.
Proof.
  unfold Legacy.group_of, group_of.
  induction df as [|r df IH]; [reflexivity|].
  cbn [filter map].
  destruct (Pd.key_eqb (g_fqdn (Legacy.l_row r)) (Some k));
    cbn [map]; now rewrite IH.
Qed.

Lemma legacy_groupby_keys (df : list Legacy.sheet_row) :
  map fst (Legacy.groupby df) = group_keys (map Legacy.l_row df).
Proof.
  unfold Legacy.groupby. rewrite map_map. simpl. apply map_id.
Qed.

Lemma legacy_in_groupby (df : list Legacy.sheet_row) (k : string)
    (g : list Legacy.sheet_row) :
  In (k, g) (Legacy.groupby df) ->
  g = Legacy.group_of df k /\ 1 <= List.length g.
Proof.
  unfold Legacy.groupby. rewrite in_map_iff. intros (k' & E & Hin).
  injection E as -> <-. split; [reflexivity|].
  rewrite <- (length_map Legacy.l_row), legacy_group_of_rows.
  assert (Hg : In (k, group_of (map Legacy.l_row df) k)
                  (groupby (map Legacy.l_row df))).
  { unfold groupby. apply in_map_iff. exists k. now split. }
  now apply in_groupby in Hg.
Qed.

Lemma legacy_rows_taken (df : list Legacy.sheet_row) :
  Spec.rows_taken (Legacy.groupby df)
  = List.length (filter (fun r => Spec.named (Legacy.l_row r)) df).
Proof.
  transitivity (Spec.total_rows (groupby (map Legacy.l_row df))).
  - unfold Spec.rows_taken, Spec.total_rows, Legacy.groupby, groupby.
    rewrite !map_map. f_equal. apply map_ext. intros k. cbn [snd].
    now rewrite <- legacy_group_of_rows, length_map.
  - rewrite total_rows_named.
    induction df as [|r df IH]; [reflexivity|].
    cbn [map filter]. destruct (Spec.named (Legacy.l_row r));
      cbn [List.length]; now rewrite IH.
Qed.

Lemma map_length_app {A : Type}
    (before after : list (string * list A)) (k : string) (g : list A) :
  map (fun kg => List.length (snd kg)) (before ++ (k, g) :: after)
  = map (fun kg => List.length (snd kg)) before
    ++ List.length g :: map (fun kg => List.length (snd kg)) after.
Proof.
  now rewrite map_app.
Qed.

(** X21.  A grouped sheet of the first version, drawn on a new sheet from
    a table with at least one row: the header row, then the groups in the
    order of the device names, which are distinct; the rows without device
    name are not written.  The group of a device name holds the rows of
    that name in consecutive rows of the sheet, from row 2 on; its two
    first columns are merged over exactly these rows when there is more
    than one, and no other merged range touches them. *)
Theorem legacy_grouped_sheet (ws0 : worksheet) (headers cols : list string)
    (df : list Legacy.sheet_row) :
  cells ws0 = [] -> merged_cells ws0 = [] -> df <> [] ->
  exists ws,
    Legacy.grouped_sheet ws0 headers cols df = Some ws /\
    cells ws
    = map PStr headers
      :: flat_map (fun kg => Legacy.group_lines df cols (snd kg))
                  (Legacy.groupby df) /\
    List.length (cells ws)
    = 1 + List.length (filter (fun r => Spec.named (Legacy.l_row r)) df) /\
    NoDup (map fst (Legacy.groupby df)) /\
    (forall before k g after,
        Legacy.groupby df = before ++ (k, g) :: after ->
        let first := 2 + Spec.rows_taken before in
        g = Legacy.group_of df k /\ 1 <= List.length g /\
        Spec.lines_between ws first (first + List.length g - 1)
        = Legacy.group_lines df cols g /\
        (1 < List.length g ->
         In (Spec.column_range 1 first (List.length g)) (merged_cells ws) /\
         In (Spec.column_range 2 first (List.length g)) (merged_cells ws)) /\
        (forall r i,
            In r (merged_cells ws) -> i < List.length g ->
            start_row r <= first + i <= end_row r ->
            1 < List.length g /\
            (r = Spec.column_range 1 first (List.length g) \/
             r = Spec.column_range 2 first (List.length g)))).
Proof.
  intros Hcells0 Hmerged0 Hdf.
  set (ws := Legacy.write_groups df cols (Legacy.groupby df) 2
               (Xl.append (map PStr headers) ws0)).
  assert (Ecells : cells ws
                   = map PStr headers
                     :: flat_map (fun kg => Legacy.group_lines df cols (snd kg))
                                 (Legacy.groupby df)).
  { subst ws. rewrite legacy_write_groups_cells. cbn [Xl.append cells].
    rewrite Hcells0. reflexivity. }
  assert (Emerged : merged_cells ws
                    = Spec.paired_ranges
                        (map (fun kg => List.length (snd kg))
                             (Legacy.groupby df)) 2).
  { subst ws. rewrite legacy_write_groups_merged.
    cbn [Xl.append merged_cells]. rewrite Hmerged0. reflexivity. }
  exists ws. split; [|split; [|split; [|split]]].
  - unfold Legacy.grouped_sheet. destruct df; [contradiction | reflexivity].
  - exact Ecells.
  - rewrite Ecells. cbn [List.length].
    now rewrite length_legacy_flat_lines, legacy_rows_taken.
  - rewrite legacy_groupby_keys. apply sorted_nodup, group_keys_sorted.
  - intros before k g after Hsplit first.
    assert (Hin : In (k, g) (Legacy.groupby df)).
    { rewrite Hsplit. apply in_or_app. right. now left. }
    destruct (legacy_in_groupby df k g Hin) as [Hg Hlen].
    split; [exact Hg|]. split; [exact Hlen|].
    rewrite Emerged, Hsplit, map_length_app.
    fold (Spec.rows_taken before). split; [|split].
    + unfold Spec.lines_between. rewrite Ecells, Hsplit.
      replace (first + List.length g - 1 + 1 - first)
        with (List.length (Legacy.group_lines df cols g))
        by (rewrite length_legacy_group_lines; lia).
      replace (first - 1)
        with (S (List.length
                   (flat_map
                      (fun kg => Legacy.group_lines df cols (snd kg))
                      before)))
        by (rewrite length_legacy_flat_lines; subst first; lia).
      cbn [skipn]. rewrite flat_map_app. cbn [flat_map snd].
      rewrite skipn_length_app. apply firstn_length_app.
    + intros L. now apply paired_ranges_member.
    + intros r i Hr Hi Hcover.
      exact (paired_ranges_cover _ _ _ 2 r i Hr Hi Hcover).
Qed.

(** The parsers of the first version return on every value. *)
Lemma legacy_parse_os_data_returns (v : pyval) :
  exists r, Legacy.parse_os_data v = Returns r.
Proof.
  unfold Legacy.parse_os_data.
  destruct (Val.isna v); [eexists; reflexivity|].
  destruct (Legacy.os_body v); eexists; reflexivity.
Qed.

Lemma legacy_parse_software_data_returns (v : pyval) :
  exists r, Legacy.parse_software_data v = Returns r.
Proof.
  unfold Legacy.parse_software_data.
  destruct (Val.isna v); [eexists; reflexivity|].
  destruct (Legacy.software_body v); eexists; reflexivity.
Qed.

Lemma legacy_parse_vulnerabilities_data_returns (v : pyval) :
  exists r, Legacy.parse_vulnerabilities_data v = Returns r.
Proof.
  unfold Legacy.parse_vulnerabilities_data.
  destruct (Val.isna v); [eexists; reflexivity|].
  destruct (Legacy.vulnerabilities_body v); eexists; reflexivity.
Qed.

Lemma legacy_parse_os_column_returns (merged : list merged_row) :
  exists data,
    Legacy.parse_os_column merged = Returns data /\
    map Legacy.p_merged data = merged.
Proof.
  induction merged as [|m merged (more & Hmore & Hmap)].
  - exists []. split; reflexivity.
  - cbn [Legacy.parse_os_column]. rewrite Hmore.
    destruct (legacy_parse_os_data_returns (os (m_device m))) as [[p v] P].
    rewrite P. eexists. split; [reflexivity|]. simpl. now rewrite Hmap.
Qed.

Lemma legacy_item_rows_return (parse : pyval -> outcome (list item))
    (field_of : device -> pyval) (data : list Legacy.parsed_row) :
  (forall v, exists r, parse v = Returns r) ->
  exists df,
    Legacy.item_rows parse field_of data = Returns df /\
    (data <> [] -> df <> []).
Proof.
  intros Hparse. induction data as [|row data (more & Hmore & _)].
  - exists []. split; [reflexivity | intros C; now contradiction C].
  - cbn [Legacy.item_rows]. rewrite Hmore.
    destruct (Hparse (field_of (m_device (Legacy.p_merged row))))
      as [items ->].
    eexists. split; [reflexivity|]. intros _.
    destruct items; discriminate.
Qed.

(** The columns of the merged table of a plain inventory. *)
Lemma in_merged_columns (cols : list string) (c : string) :
  existsb (String.eqb c) (merged_columns cols)
  = existsb (String.eqb c) cols
    || existsb (String.eqb c) ["Network Cards"; "CPU"; "RAM"; "Disk Space"]
    || (existsb (String.eqb "os") cols
        && existsb (String.eqb c) ["os_parsed"; "os_version"]).
Proof.
  unfold merged_columns. rewrite !existsb_app.
  destruct (existsb (String.eqb "os") cols); [reflexivity|].
  simpl. now rewrite orb_false_r.
Qed.

Lemma merged_has_inventory (cols : list string) (c : string) :
  existsb (String.eqb c) ["Network Cards"; "CPU"; "RAM"; "Disk Space"]
  = false ->
  existsb (String.eqb c) ["os_parsed"; "os_version"] = false ->
  existsb (String.eqb c) (merged_columns cols) = existsb (String.eqb c) cols.
Proof.
  intros Hhw Hos. rewrite in_merged_columns, Hhw, Hos.
  now rewrite andb_false_r, !orb_false_r.
Qed.

Lemma merged_has_hardware (cols : list string) (c : string) :
  existsb (String.eqb c) ["Network Cards"; "CPU"; "RAM"; "Disk Space"]
  = true ->
  existsb (String.eqb c) (merged_columns cols) = true.
Proof.
  intros Hhw. rewrite in_merged_columns, Hhw.
  now rewrite orb_true_r.
Qed.

Lemma merged_has_derived (cols : list string) (c : string) :
  existsb (String.eqb c) cols = false ->
  existsb (String.eqb c) ["Network Cards"; "CPU"; "RAM"; "Disk Space"]
  = false ->
  existsb (String.eqb c) ["os_parsed"; "os_version"] = true ->
  existsb (String.eqb c) (merged_columns cols)
  = existsb (String.eqb "os") cols.
Proof.
  intros Hc Hhw Hos. rewrite in_merged_columns, Hc, Hhw, Hos.
  now rewrite andb_true_r.
Qed.

Lemma legacy_checks (all_data : frame device) :
  Spec.plain_inventory all_data = true ->
  Legacy.has_all (merged_columns (columns all_data)) Legacy.main_columns
  = has_column all_data "tenantName" && has_column all_data "fqdn"
    && has_column all_data "ipAddresses"
    && has_column all_data "macAddresses" && has_column all_data "os" /\
  Legacy.has_all (merged_columns (columns all_data))
                 ["tenantName"; "fqdn"; "software"]
  = has_column all_data "tenantName" && has_column all_data "fqdn"
    && has_column all_data "software" /\
  Legacy.has_all (merged_columns (columns all_data))
                 ["tenantName"; "fqdn"; "vulnerabilities"]
  = has_column all_data "tenantName" && has_column all_data "fqdn"
    && has_column all_data "vulnerabilities".
Proof.
  unfold Spec.plain_inventory, Spec.reserved_names. cbn [forallb].
  rewrite !andb_true_iff, !negb_true_iff.
  intros (_ & _ & _ & _ & P1 & P2 & _).
  unfold has_column in *.
  unfold Legacy.has_all, Legacy.main_columns. cbn [forallb].
  rewrite (merged_has_inventory _ "tenantName" eq_refl eq_refl).
  rewrite (merged_has_inventory _ "fqdn" eq_refl eq_refl).
  rewrite (merged_has_inventory _ "ipAddresses" eq_refl eq_refl).
  rewrite (merged_has_inventory _ "macAddresses" eq_refl eq_refl).
  rewrite (merged_has_inventory _ "software" eq_refl eq_refl).
  rewrite (merged_has_inventory _ "vulnerabilities" eq_refl eq_refl).
  rewrite (merged_has_hardware _ "CPU" eq_refl).
  rewrite (merged_has_hardware _ "RAM" eq_refl).
  rewrite (merged_has_hardware _ "Disk Space" eq_refl).
  rewrite (merged_has_hardware _ "Network Cards" eq_refl).
  rewrite (merged_has_derived _ "os_parsed" P1 eq_refl eq_refl).
  rewrite (merged_has_derived _ "os_version" P2 eq_refl eq_refl).
  set (bt := existsb (String.eqb "tenantName") (columns all_data)).
  set (bf := existsb (String.eqb "fqdn") (columns all_data)).
  set (bi := existsb (String.eqb "ipAddresses") (columns all_data)).
  set (bm := existsb (String.eqb "macAddresses") (columns all_data)).
  set (bo := existsb (String.eqb "os") (columns all_data)).
  set (bs := existsb (String.eqb "software") (columns all_data)).
  set (bv := existsb (String.eqb "vulnerabilities") (columns all_data)).
  repeat split; destruct bt, bf; try reflexivity;
    destruct bi, bm, bo; try reflexivity;
    destruct bs; try reflexivity; destruct bv; reflexivity.
Qed.

Lemma complete_inventory_columns (all_data : frame device) :
  Spec.complete_inventory all_data
  = has_column all_data "tenantName" && has_column all_data "fqdn"
    && has_column all_data "ipAddresses"
    && has_column all_data "macAddresses" && has_column all_data "os"
    && has_column all_data "software"
    && has_column all_data "vulnerabilities".
Proof.
  unfold Spec.complete_inventory, Spec.inventory_names. cbn [forallb].
  destruct (has_column all_data "tenantName"),
    (has_column all_data "fqdn"), (has_column all_data "ipAddresses"),
    (has_column all_data "macAddresses"), (has_column all_data "os"),
    (has_column all_data "software"),
    (has_column all_data "vulnerabilities"); reflexivity.
Qed.

Lemma legacy_sheet_cells (ws0 : worksheet) (headers cols : list string)
    (df : list Legacy.sheet_row) :
  cells ws0 = [] -> df <> [] ->
  exists ws,
    Legacy.grouped_sheet ws0 headers cols df = Some ws /\
    cells ws
    = map PStr headers
      :: flat_map (fun kg => Legacy.group_lines df cols (snd kg))
                  (Legacy.groupby df).
Proof.
  intros Hcells0 Hdf. eexists. split.
  - unfold Legacy.grouped_sheet. destruct df; [contradiction | reflexivity].
  - rewrite legacy_write_groups_cells. cbn [Xl.append cells].
    rewrite Hcells0. reflexivity.
Qed.

(** X22.  On a plain inventory as it is loaded, without a list in a cell,
    [process_data] of the first version ends in one of five ways, whatever
    the decoders do.  On a hardware report
    that lacks one of the five columns it selects, the selection raises a
    [KeyError].  Otherwise: without the device-name column the merge
    raises a [KeyError]; with an OS column and no row the assignment of
    the OS columns raises a value error; otherwise, when one of the seven
    columns of the inventory is missing, a selection of columns raises a
    [KeyError]; and on a complete inventory with at least one row the
    workbook is saved with three sheets: the main sheet with its header
    row and one row per merged row, and the software and vulnerabilities
    sheets with their header row and their groups. *)
Theorem legacy_process_data_outcome (all_data : frame device)
    (devices_report : frame hardware) :
  Spec.plain_inventory all_data = true ->
  Spec.loaded_inventory all_data = true ->
  (missing_columns devices_report <> [] ->
   Legacy.process_data all_data devices_report = Raises KeyError) /\
  (missing_columns devices_report = [] ->
   (has_column all_data "fqdn" = false ->
    Legacy.process_data all_data devices_report = Raises KeyError) /\
   (has_column all_data "fqdn" = true ->
    has_column all_data "os" = true -> rows all_data = [] ->
    Legacy.process_data all_data devices_report = Raises ValueError) /\
   (has_column all_data "fqdn" = true ->
    has_column all_data "os" = false \/ rows all_data <> [] ->
    Spec.complete_inventory all_data = false ->
    Legacy.process_data all_data devices_report = Raises KeyError) /\
   (Spec.complete_inventory all_data = true -> rows all_data <> [] ->
    exists data software_sheet vuln_sheet ws_main ws_software ws_vuln,
      Legacy.process_data all_data devices_report
      = Returns [ws_main; ws_software; ws_vuln] /\
      map Legacy.p_merged data
      = Pd.merge_left (rows all_data) (rows devices_report) /\
      Legacy.item_rows Legacy.parse_software_data software data
      = Returns software_sheet /\
      Legacy.item_rows Legacy.parse_vulnerabilities_data vulnerabilities
                       data
      = Returns vuln_sheet /\
      cells ws_main = Legacy.main_lines data /\
      cells ws_software
      = map PStr ("tenantName" :: "fqdn" :: Legacy.software_columns)
        :: flat_map (fun kg => Legacy.group_lines
                                 software_sheet Legacy.software_columns
                                 (snd kg))
                    (Legacy.groupby software_sheet) /\
      cells ws_vuln
      = map PStr ("tenantName" :: "fqdn" :: vuln_fields)
        :: flat_map (fun kg => Legacy.group_lines vuln_sheet vuln_fields
                                                  (snd kg))
                    (Legacy.groupby vuln_sheet))).
Proof.
  intros Hplain _. split.
  { intros Hmiss. unfold Legacy.process_data.
    destruct (missing_columns devices_report); [now contradiction Hmiss|].
    reflexivity. }
  intros Hmiss.
  destruct (legacy_checks all_data Hplain) as (A & B & C).
  pose proof (complete_inventory_columns all_data) as Hcomplete.
  destruct (legacy_parse_os_column_returns
              (Pd.merge_left (rows all_data) (rows devices_report)))
    as (data & Edata & Hmap).
  unfold Legacy.process_data. rewrite Hmiss. cbv zeta.
  rewrite A, B, C, Edata, merge_left_empty.
  split; [|split; [|split]].
  - intros ->. reflexivity.
  - intros -> -> ->. reflexivity.
  - intros Hf Hrows Hc. rewrite Hc in Hcomplete. rewrite Hf in *.
    cbn [negb].
    destruct (has_column all_data "os") eqn:Hos.
    + assert (Hlen : (List.length (rows all_data) =? 0)%nat = false).
      { destruct Hrows as [C0 | Hne]; [discriminate C0|].
        destruct (rows all_data); [contradiction | reflexivity]. }
      rewrite Hlen.
      destruct (has_column all_data "tenantName"); [|reflexivity].
      destruct (has_column all_data "ipAddresses"); [|reflexivity].
      destruct (has_column all_data "macAddresses"); [|reflexivity].
      cbn [andb negb].
      destruct (has_column all_data "software"); [|reflexivity].
      cbn [negb].
      destruct (legacy_item_rows_return
                  Legacy.parse_software_data software data
                  legacy_parse_software_data_returns) as (soft & -> & _).
      destruct (has_column all_data "vulnerabilities"); [|reflexivity].
      discriminate Hcomplete.
    + rewrite !andb_false_r. reflexivity.
  - intros Hc Hrows. rewrite Hc in Hcomplete. symmetry in Hcomplete.
    rewrite !andb_true_iff in Hcomplete.
    destruct Hcomplete as ((((((Ht & Hf) & Hi) & Hm) & Ho) & Hs) & Hv).
    rewrite Ht, Hf, Hi, Hm, Ho, Hs, Hv. cbn [negb andb].
    assert (Hlen : (List.length (rows all_data) =? 0)%nat = false).
    { destruct (rows all_data); [contradiction | reflexivity]. }
    rewrite Hlen.
    assert (Hdata : data <> []).
    { intros ->. cbn [map] in Hmap.
      apply (f_equal (fun l => (List.length l =? 0)%nat)) in Hmap.
      rewrite merge_left_empty, Hlen in Hmap. discriminate Hmap. }
    destruct (legacy_item_rows_return
                Legacy.parse_software_data software data
                legacy_parse_software_data_returns) as (soft & Esoft & Hsoft).
    destruct (legacy_item_rows_return
                Legacy.parse_vulnerabilities_data vulnerabilities data
                legacy_parse_vulnerabilities_data_returns)
      as (vuln & Evuln & Hvuln).
    rewrite Esoft, Evuln.
    unfold Xl.new_sheet.
    change (Xl.invalid_title "main") with false.
    change (Xl.invalid_title "software") with false.
    change (Xl.invalid_title "vulnerabilities") with false.
    cbv iota.
    match goal with
    | |- context [Legacy.grouped_sheet ?w ?h ?c soft] =>
        destruct (legacy_sheet_cells w h c soft eq_refl (Hsoft Hdata))
          as (ws_software & Es & Hcs)
    end.
    rewrite Es.
    match goal with
    | |- context [Legacy.grouped_sheet ?w ?h ?c vuln] =>
        destruct (legacy_sheet_cells w h c vuln eq_refl (Hvuln Hdata))
          as (ws_vuln & Ev & Hcv)
    end.
    rewrite Ev.
    eexists data, soft, vuln, _, ws_software, ws_vuln.
    split; [reflexivity|]. split; [exact Hmap|].
    split; [exact Esoft|]. split; [exact Evuln|].
    split; [|split; [exact Hcs | exact Hcv]].
    rewrite cells_append_all. reflexivity.
Qed.

End LegacyFacts.

(** ** The further properties on concrete inputs *)

Section NameExamples.

Import Sample.

(** The name "Acme [LEGACY] Ltd" keeps two spaces in the optimised pipeline
    and one in the navigation pipeline. *)
Lemma opt_clean_tenant_name_again_witness :
  Opt.clean_tenant_name (PStr "Acme  Ltd") = Some "Acme  Ltd".
Proof.
  exact (opt_clean_tenant_name_again
           (PStr "Acme [LEGACY] Ltd") "Acme  Ltd" eq_refl).
Defined.

Lemma nav_clean_tenant_name_again_witness :
  Nav.clean_tenant_name (PStr "Acme Ltd") = Some "Acme Ltd".
Proof.
  exact (nav_clean_tenant_name_again
           (PStr "Acme [LEGACY] Ltd") "Acme Ltd" eq_refl eq_refl).
Defined.

Lemma clean_tenant_names_same_words_witness :
  "Acme Ltd" = Py.join " " (Py.split "Acme  Ltd") /\
  Py.split "Acme Ltd" = Py.split "Acme  Ltd".
Proof.
  exact (clean_tenant_names_same_words
           (PStr "Acme [LEGACY] Ltd") "Acme Ltd" "Acme  Ltd"
           eq_refl eq_refl).
Defined.

Lemma sheet_name_valid_witness :
  (Xl.invalid_title (Parsed.sheet_name (PStr "A/B: [x]")) = false /\
   String.length (Parsed.sheet_name (PStr "A/B: [x]")) <= 31) /\
  Parsed.sheet_name (PStr "Corp") = "Corp".
Proof.
  split.
  - destruct (sheet_name_valid (PStr "A/B: [x]")) as (Hvalid & Hlen & _).
    exact (conj Hvalid Hlen).
  - destruct (sheet_name_valid (PStr "Corp")) as (_ & _ & Hsame).
    refine (Hsame eq_refl _). vm_compute. repeat constructor.
Defined.

Lemma clean_field_scalar_witness :
  Py.has_char "[" (Parsed.clean_field (PStr "['a', 'b']")) = false /\
  Py.has_char "]" (Parsed.clean_field (PStr "['a', 'b']")) = false /\
  Py.has_char "'" (Parsed.clean_field (PStr "['a', 'b']")) = false /\
  Parsed.clean_field (PStr (Parsed.clean_field (PStr "['a', 'b']")))
  = Parsed.clean_field (PStr "['a', 'b']").
Proof.
  exact (clean_field_scalar (PStr "['a', 'b']") eq_refl).
Defined.

End NameExamples.

Section ParserExamples.

Import Sample.

(** A list of two mappings and a number: the number is dropped, the blank
    ends of the version are trimmed, a missing field is null. *)
Lemma parsed_items_well_formed_witness :
  Forall (Spec.well_formed_item software_fields)
         [[("name", Some "vim"); ("version", Some "9.1"); ("vendor", None)];
          [("name", Some "git"); ("version", None); ("vendor", None)]] /\
  Forall (Spec.well_formed_item vuln_fields)
         (match Nav.parse_vulnerabilities_data (PStr software_one) with
          | Returns items => items
          | Raises _ => []
          end).
Proof.
  split.
  - destruct (@parsed_items_well_formed
                decoders (PStr software_literal) software_fields
                [[("name", Some "vim"); ("version", Some "9.1");
                  ("vendor", None)];
                 [("name", Some "git"); ("version", None);
                  ("vendor", None)]])
      as (Hsoft & _ & Hjson).
    exact (Hsoft eq_refl).
  - destruct (@parsed_items_well_formed
                decoders (PStr software_one) vuln_fields
                (match Nav.parse_vulnerabilities_data (PStr software_one) with
                 | Returns items => items
                 | Raises _ => []
                 end))
      as (_ & Hvuln & _).
    exact (Hvuln eq_refl).
Defined.

(** With decoders that exceed the recursion limit on a deep text, the
    parsers of the optimised pipeline and of the first version return on
    that text. *)
Lemma guarded_parsers_return_witness :
  (exists r, @Opt.parse_os_data deep_decoders (PStr deep_os) = Returns r) /\
  (exists r, @Opt.parse_json_data deep_decoders (PStr deep_os)
                                  software_fields = Returns r) /\
  (exists r, @Legacy.parse_os_data deep_decoders (PStr deep_os)
             = Returns r) /\
  (exists r, @Legacy.parse_software_data deep_decoders (PStr deep_os)
             = Returns r) /\
  (exists r, @Legacy.parse_vulnerabilities_data deep_decoders (PStr deep_os)
             = Returns r).
Proof.
  exact (@guarded_parsers_return deep_decoders (PStr deep_os)
                                 software_fields eq_refl).
Defined.

(** With decoders that exceed the recursion limit on a deep text, the three
    parsers of the navigation pipeline raise the recursion error. *)
Lemma nav_parsers_raise_witness :
  @Nav.parse_os_data deep_decoders (PStr deep_os) = Raises RecursionError /\
  @Nav.parse_software_data deep_decoders (PStr deep_list)
  = Raises RecursionError /\
  @Nav.parse_vulnerabilities_data deep_decoders (PStr deep_list)
  = Raises RecursionError.
Proof.
  assert (Hos : deep_os <> EmptyString) by (vm_compute; discriminate).
  assert (Hlist : deep_list <> EmptyString) by (vm_compute; discriminate).
  assert (Hexn : RecursionError <> JSONDecodeError) by discriminate.
  assert (Hmark : has_marker (Py.lower deep_os) = true)
    by (vm_compute; reflexivity).
  assert (Hjos : @json_loads deep_decoders deep_os = Raises RecursionError)
    by (vm_compute; reflexivity).
  assert (Hjlist : @json_loads deep_decoders deep_list
                   = Raises RecursionError)
    by (vm_compute; reflexivity).
  split; [|split].
  - destruct (@nav_parsers_raise deep_decoders (PStr deep_os)
                RecursionError eq_refl) as ([_ Hraise] & _).
    apply Hraise. exists deep_os.
    exact (conj eq_refl (conj Hos (conj Hmark (conj Hjos Hexn)))).
  - destruct (@nav_parsers_raise deep_decoders (PStr deep_list)
                RecursionError eq_refl) as (_ & [_ Hraise] & _).
    apply Hraise. exists deep_list.
    exact (conj eq_refl (conj Hlist (conj Hjlist Hexn))).
  - destruct (@nav_parsers_raise deep_decoders (PStr deep_list)
                RecursionError eq_refl) as (_ & _ & [_ Hraise]).
    apply Hraise. exists deep_list.
    exact (conj eq_refl (conj Hlist (conj Hjlist Hexn))).
Defined.

Lemma parse_os_data_plain_witness :
  (Legacy.parse_os_data (PStr "Windows Server 2019")
   = Nav.parse_os_data (PStr "Windows Server 2019") /\
   Opt.parse_os_data (PStr "Windows Server 2019")
   = Nav.parse_os_data (PStr "Windows Server 2019")) /\
  ("Windows Server 2019" = ("Windows Server" ++ String " " "2019")%string /\
   Py.has_char " " "2019" = false) /\
  Py.has_char " " "Debian" = false.
Proof.
  split; [|split].
  - destruct (@parse_os_data_plain decoders "Windows Server 2019")
      as (Hlegacy & Hopt & _); [discriminate | reflexivity |].
    exact (conj Hlegacy Hopt).
  - destruct (@parse_os_data_plain decoders "Windows Server 2019")
      as (_ & _ & Hcut & _); [discriminate | reflexivity |].
    exact (Hcut "Windows Server" "2019" eq_refl).
  - destruct (@parse_os_data_plain decoders "Debian")
      as (_ & _ & _ & Hwhole); [discriminate | reflexivity |].
    exact (proj2 (Hwhole "Debian" eq_refl)).
Defined.

(** A mapping written as a Python literal, a list and an undecodable
    text. *)
Lemma legacy_parse_os_data_marked_witness :
  (Legacy.parse_os_data (PStr os_literal)
   = Returns (Some "Ubuntu", Some "22.04") /\
   Nav.parse_os_data (PStr os_literal)
   = Legacy.parse_os_data (PStr os_literal)) /\
  Legacy.parse_os_data (PStr software_literal)
  = Returns (Some software_literal, None) /\
  Legacy.parse_os_data (PStr os_broken) = Returns (Some os_broken, None).
Proof.
  split; [|split].
  - destruct (@legacy_parse_os_data_marked decoders os_literal eq_refl)
      as (Hdict & _).
    exact (Hdict [(PStr "name", PStr "Ubuntu"); (PStr "version", PStr "22.04")]
                 (or_intror (conj eq_refl eq_refl))).
  - destruct (@legacy_parse_os_data_marked decoders software_literal eq_refl)
      as (_ & Hother & _).
    exact (Hother _ (or_intror (conj eq_refl eq_refl)) eq_refl).
  - destruct (@legacy_parse_os_data_marked decoders os_broken eq_refl)
      as (_ & _ & Hfail).
    exact (Hfail JSONDecodeError SyntaxError eq_refl (fun _ => eq_refl)).
Defined.

End ParserExamples.

Section SheetExamples.

Import Sample.

(** Two hardware rows of the device h1 double its inventory row; the
    other three devices have one row each, with empty hardware cells. *)
Lemma merge_left_rows_witness :
  List.length (Pd.merge_left (rows inventory)
                             [plain_hardware "h1"; plain_hardware "h1"])
  = 5 /\
  ((Pd.matching (Some "h2") [plain_hardware "h1"; plain_hardware "h1"] = [] /\
    null_specs = null_specs) \/
   (exists h,
       In h [plain_hardware "h1"; plain_hardware "h1"] /\
       hw_fqdn h = Some "h2" /\ null_specs = specs_of h)).
Proof.
  destruct (merge_left_rows (rows inventory)
              [plain_hardware "h1"; plain_hardware "h1"]) as [Hlen Hrows].
  split.
  - exact Hlen.
  - refine (Hrows {| m_device := plain_device "h2" (PStr "A/B") PNaN;
                     m_specs := null_specs |} _).
    vm_compute. tauto.
Defined.

(** Two items of the device h1 and one of a device without name: the sheet
    has four rows.  Two items without vendor field: the sheet of the
    optimised pipeline has two rows. *)
Lemma grouped_sheet_row_count_witness :
  List.length (cells (Nav.create_merged_sheet
                        (add_back_to_navigation_link (blank_sheet "S"))
                        three_items software_fields)) = 4 /\
  List.length (cells (Opt.create_merged_sheet
                        (add_back_to_navigation_link (blank_sheet "S"))
                        three_items software_fields)) = 4 /\
  List.length (cells (Opt.create_merged_sheet
                        (add_back_to_navigation_link (blank_sheet "S"))
                        bare_items software_fields)) = 2.
Proof.
  split; [|split].
  - exact (proj1 (grouped_sheet_row_count (blank_sheet "S") three_items
                                          software_fields eq_refl)).
  - exact (proj2 (grouped_sheet_row_count (blank_sheet "S") three_items
                                          software_fields eq_refl)).
  - exact (proj2 (grouped_sheet_row_count (blank_sheet "S") bare_items
                                          software_fields eq_refl)).
Defined.

(** Two items of the device h1: their rows are rows 3 and 4, and the merged
    range is rows 2 to 3.  Two items without vendor field: the sheet has
    the link and the headers only. *)
Lemma opt_grouped_sheet_witness :
  (Spec.same_lines
     (map (skipn 1)
          (Spec.lines_between
             (Opt.create_merged_sheet
                (add_back_to_navigation_link (blank_sheet "S"))
                two_items software_fields) 3 4))
     (map (skipn 1) (group_lines software_fields two_items)) /\
   In (Spec.group_range 2 two_items)
      (merged_cells
         (Opt.create_merged_sheet
            (add_back_to_navigation_link (blank_sheet "S"))
            two_items software_fields)) /\
   start_row (Spec.group_range 2 two_items) < 3
   <= end_row (Spec.group_range 2 two_items)) /\
  cells (Opt.create_merged_sheet
           (add_back_to_navigation_link (blank_sheet "S"))
           bare_items software_fields)
  = [[PStr back_label]; map PStr ("fqdn" :: software_fields)] /\
  merged_cells (Opt.create_merged_sheet
                  (add_back_to_navigation_link (blank_sheet "S"))
                  bare_items software_fields) = [].
Proof.
  split.
  - destruct (opt_grouped_sheet (blank_sheet "S") two_items software_fields
                eq_refl eq_refl) as [_ Hwritten].
    destruct (Hwritten eq_refl) as [_ Hgroups].
    destruct (Hgroups [] "h1" two_items [] eq_refl)
      as (Hlines & Hrange & _).
    split; [exact Hlines|].
    apply Hrange. vm_compute. repeat constructor.
  - destruct (opt_grouped_sheet (blank_sheet "S") bare_items software_fields
                eq_refl eq_refl) as [Hrefused _].
    exact (Hrefused eq_refl).
Defined.

Lemma nav_grouped_sheet_witness :
  Spec.same_lines
    (Spec.lines_between
       (Nav.create_merged_sheet (add_back_to_navigation_link (blank_sheet "S"))
                                two_items software_fields) 3 4)
    (group_lines software_fields two_items) /\
  In (Spec.group_range 3 two_items)
     (merged_cells
        (Nav.create_merged_sheet
           (add_back_to_navigation_link (blank_sheet "S"))
           two_items software_fields)).
Proof.
  destruct (nav_grouped_sheet (blank_sheet "S") two_items software_fields
              eq_refl eq_refl) as (_ & _ & Hgroups).
  destruct (Hgroups [] "h1" two_items [] eq_refl)
    as (_ & _ & Hlines & Hrange & _).
  split.
  - exact Hlines.
  - apply Hrange. vm_compute. repeat constructor.
Defined.

(** The device h1 of the tenant Corp has two software items and so two
    rows in both pipelines; the device h2 of the tenant A/B has none, and
    one row in the navigation pipeline only. *)
Lemma item_rows_per_device_witness :
  (List.length (group_of two_items "h1") = 2 /\
   List.length (group_of two_items "h1") = 2) /\
  (List.length (group_of [{| g_fqdn := Some "h2"; g_item := [] |}] "h2") = 1 /\
   List.length (group_of [] "h2") = 0).
Proof.
  split.
  - destruct (@item_rows_per_device
                decoders Nav.parse_software_data software_fields software
                "h1" (rows (tenant_rows report "Corp")) two_items)
      as [Hnav Hopt].
    exact (conj (proj1 (Hnav eq_refl)) (Hopt eq_refl)).
  - split.
    + destruct (@item_rows_per_device
                  decoders Nav.parse_software_data software_fields software
                  "h2" (rows (tenant_rows report "A/B"))
                  [{| g_fqdn := Some "h2"; g_item := [] |}])
        as [Hnav _].
      exact (proj1 (Hnav eq_refl)).
    + destruct (@item_rows_per_device
                  decoders Nav.parse_software_data software_fields software
                  "h2" (rows (tenant_rows report "A/B")) [])
        as [_ Hopt].
      exact (Hopt eq_refl).
Defined.

End SheetExamples.

Section ProcessExamples.

Import Sample.

(** The sample inventory gives a workbook.  A hardware report without its
    memory column, an inventory without device-name column, an inventory
    without tenant column and an OS cell on which the decoder exceeds the
    recursion limit make the navigation pipeline fail. *)
Lemma nav_process_data_outcome_witness :
  (exists out nav,
      Nav.process_data inventory hardware_frame = Returns out /\
      hd_error (book out) = Some nav /\
      List.length (cells nav) = 5) /\
  Nav.process_data inventory short_hardware = Raises PlainException /\
  Nav.process_data {| columns := ["tenantName"; "os"];
                      rows := rows inventory |} hardware_frame
  = Raises KeyError /\
  @Nav.process_data decoders titles no_tenant_inventory hardware_frame
  = Raises PlainException /\
  @Nav.process_data deep_decoders titles deep_inventory hardware_frame
  = Raises RecursionError /\
  (exists d s,
      In d (rows deep_inventory) /\ os d = PStr s /\
      @json_loads deep_decoders s = Raises RecursionError).
Proof.
  split; [|split; [|split; [|split; [|split]]]].
  - destruct (Nav.process_data inventory hardware_frame) as [out|e] eqn:E;
      [|vm_compute in E; discriminate E].
    destruct (@nav_process_data_outcome decoders titles inventory
                hardware_frame eq_refl) as (_ & _ & _ & Hreturn).
    destruct (Hreturn out E)
      as (_ & _ & _ & _ & data & nav & lines & Edata & Ebook & Ecells
          & Elen).
    exists out, nav. split; [reflexivity|]. split.
    + rewrite Ebook. reflexivity.
    + rewrite Ecells. cbn [List.length]. rewrite Elen.
      assert (Ed : data = rows report).
      { change (rows hardware_frame) with hardware_table in Edata.
        unfold report, report_of. cbn [rows]. rewrite Edata. reflexivity. }
      rewrite Ed. vm_compute. reflexivity.
  - destruct (@nav_process_data_outcome decoders titles inventory
                short_hardware eq_refl) as (Hmissing & _).
    apply Hmissing. vm_compute. discriminate.
  - destruct (@nav_process_data_outcome
                decoders titles
                {| columns := ["tenantName"; "os"]; rows := rows inventory |}
                hardware_frame eq_refl) as (_ & Hkey & _).
    exact (Hkey eq_refl eq_refl).
  - vm_compute. reflexivity.
  - vm_compute. reflexivity.
  - assert (E : @Nav.process_data deep_decoders titles deep_inventory
                                  hardware_frame = Raises RecursionError)
      by (vm_compute; reflexivity).
    destruct (@nav_process_data_outcome deep_decoders titles deep_inventory
                hardware_frame eq_refl) as (_ & _ & Hraise & _).
    destruct (Hraise RecursionError E)
      as [[_ C] | [[_ C] | [[_ (d & s & Hd & Hs & _ & _ & Hj & _)]
                           | [(_ & _ & C) | [_ C]]]]];
      try discriminate C.
    exists d, s. exact (conj Hd (conj Hs Hj)).
Defined.

(** A hardware report without its memory column makes the reading of the
    optimised pipeline fail, an inventory without device-name column the
    merge; without rows it fails on the OS columns, without tenant column
    on its own check; with decoders that exceed the recursion limit it
    returns a workbook. *)
Lemma opt_process_data_outcome_witness :
  Opt.process_data inventory short_hardware = Raises ValueError /\
  Opt.process_data {| columns := ["tenantName"; "os"];
                      rows := rows inventory |} hardware_frame
  = Raises KeyError /\
  Opt.process_data {| columns := inventory_columns; rows := [] |}
                   hardware_frame
  = Raises ValueError /\
  Opt.process_data no_tenant_inventory hardware_frame
  = Raises PlainException /\
  (exists out,
      @Opt.process_data deep_decoders titles deep_inventory hardware_frame
      = Returns out).
Proof.
  split; [|split; [|split; [|split]]].
  - destruct (@opt_process_data_outcome decoders titles inventory
                short_hardware eq_refl) as (Hmissing & _).
    apply Hmissing. vm_compute. discriminate.
  - destruct (@opt_process_data_outcome
                decoders titles
                {| columns := ["tenantName"; "os"]; rows := rows inventory |}
                hardware_frame eq_refl) as (_ & Hkey & _).
    exact (Hkey eq_refl eq_refl).
  - destruct (@opt_process_data_outcome
                decoders titles
                {| columns := inventory_columns; rows := [] |}
                hardware_frame eq_refl) as (_ & _ & Hrest).
    destruct (Hrest eq_refl eq_refl) as (Hvalue & _).
    exact (Hvalue eq_refl eq_refl).
  - destruct (@opt_process_data_outcome decoders titles no_tenant_inventory
                hardware_frame eq_refl) as (_ & _ & Hrest).
    destruct (Hrest eq_refl eq_refl) as (_ & Hraise & _).
    refine (Hraise (or_intror _) eq_refl). discriminate.
  - destruct (@opt_process_data_outcome deep_decoders titles deep_inventory
                hardware_frame eq_refl) as (_ & _ & Hrest).
    destruct (Hrest eq_refl eq_refl) as (_ & _ & Hreturn).
    assert (Hrows : has_column deep_inventory "os" = false
                    \/ rows deep_inventory <> []).
    { right. unfold deep_inventory. cbn [rows]. discriminate. }
    destruct (Hreturn Hrows eq_refl) as (out & data & nav & lines & Eout & _).
    exists out. exact Eout.
Defined.

(** The tenant Corp, rendered after a tenant whose sheets fail, has its
    link on the navigation sheet. *)
Lemma rendered_tenant_has_main_link_witness :
  In "Corp_MAIN"
     (Xl.sheetnames (book (Nav.render_tenants no_run report ["A/B"; "Corp"])))
  /\
  (exists rest,
      Nav.navigation_line
        ("NAVIGATION"
           :: Xl.sheetnames
                (book (Nav.render_tenants no_run report ["A/B"; "Corp"])))
        "Corp"
      = Returns (PStr "Corp" :: PStr go_label :: rest)).
Proof.
  destruct (@rendered_tenant_has_main_link
              decoders titles report no_run ["A/B"] [] "Corp"
              (fst (Nav.tenant_sheets_body report "Corp" [])))
    as [Hin Hline].
  - vm_compute. reflexivity.
  - split; [exact Hin|]. exact (Hline eq_refl "NAVIGATION").
Defined.

(** Two tenants whose names differ after the 25th character: the link of
    the second one leads to the sheet of the first one. *)
Lemma shared_prefix_links_to_first_tenant_witness :
  exists ws1 ws2,
    In ws1 (book (Nav.render_tenants no_run long_report long_tenants)) /\
    In ws2 (book (Nav.render_tenants no_run long_report long_tenants)) /\
    title ws1 = "Global Logistics Holdings_MAIN" /\
    Spec.same_lines
      (cells ws1)
      ([PStr back_label]
         :: main_lines (tenant_rows long_report
                                    "Global Logistics Holdings East")) /\
    title ws2 <> "Global Logistics Holdings_MAIN" /\
    Spec.same_lines
      (cells ws2)
      ([PStr back_label]
         :: main_lines (tenant_rows long_report
                                    "Global Logistics Holdings West")) /\
    (forall nav_title : string,
        exists rest,
          Nav.navigation_line
            (nav_title
               :: Xl.sheetnames
                    (book (Nav.render_tenants no_run long_report
                                              long_tenants)))
            "Global Logistics Holdings West"
          = Returns (PStr "Global Logistics Holdings West" :: PStr go_label
                          :: rest)).
Proof.
  assert (Hlaw : forall (names : list string) (value : string),
             In value names ->
             @avoid_duplicate_name titles names value <> value).
  { intros names value Hin. cbn.
    destruct (existsb (String.eqb value) names) eqn:E.
    - intros Heq. apply (f_equal String.length) in Heq.
      rewrite length_append_one in Heq. lia.
    - exfalso.
      assert (X : existsb (String.eqb value) names = true).
      { apply existsb_exists. exists value. split; [exact Hin|].
        apply String.eqb_refl. }
      rewrite X in E. discriminate E. }
  refine (@shared_prefix_links_to_first_tenant
            decoders titles long_report no_run
            "Global Logistics Holdings East" "Global Logistics Holdings West"
            [] [] Hlaw eq_refl
            (fst (Nav.tenant_sheets_body
                    long_report "Global Logistics Holdings East" []))
            (fst (Nav.tenant_sheets_body
                    long_report "Global Logistics Holdings West"
                    (book (Nav.render_tenants
                             no_run long_report
                             ["Global Logistics Holdings East"]))))
            _ _ eq_refl).
  - vm_compute. reflexivity.
  - vm_compute. reflexivity.
Defined.

End ProcessExamples.

Section LegacyExamples.

Import Sample.

(** Two items of the device h1 and a row without device name: the sheet
    has the header row and two rows, merged in its two first columns. *)
Lemma legacy_grouped_sheet_witness :
  exists ws,
    Legacy.grouped_sheet (blank_sheet "software")
                         ("tenantName" :: "fqdn" :: Legacy.software_columns)
                         Legacy.software_columns legacy_items
    = Some ws /\
    List.length (cells ws) = 3 /\
    Spec.lines_between ws 2 3
    = [[PStr "Corp"; PStr "h1"; PStr "vim"; PStr "9.1"; PNone];
       [PNone; PNone; PStr "git"; PNaN; PNone]] /\
    In (Spec.column_range 1 2 2) (merged_cells ws) /\
    In (Spec.column_range 2 2 2) (merged_cells ws).
Proof.
  destruct (legacy_grouped_sheet
              (blank_sheet "software")
              ("tenantName" :: "fqdn" :: Legacy.software_columns)
              Legacy.software_columns legacy_items eq_refl eq_refl)
    as (ws & E & _ & Hlen & _ & Hgroups); [discriminate|].
  destruct (Hgroups [] "h1" (firstn 2 legacy_items) [] eq_refl)
    as (_ & _ & Hlines & Hranges & _).
  exists ws. split; [exact E|]. split; [exact Hlen|].
  split; [exact Hlines|].
  apply Hranges. vm_compute. repeat constructor.
Defined.

(** The sample inventory gives the three sheets; a hardware report
    without its memory column, an inventory without device-name column or
    without tenant column end in a [KeyError], and an inventory without
    rows in a value error. *)
Lemma legacy_process_data_outcome_witness :
  (exists ws_main ws_software ws_vuln,
      Legacy.process_data inventory hardware_frame
      = Returns [ws_main; ws_software; ws_vuln] /\
      List.length (cells ws_main) = 5) /\
  Legacy.process_data inventory short_hardware = Raises KeyError /\
  Legacy.process_data {| columns := ["tenantName"; "os"];
                         rows := rows inventory |} hardware_frame
  = Raises KeyError /\
  Legacy.process_data {| columns := inventory_columns; rows := [] |}
                      hardware_frame
  = Raises ValueError /\
  Legacy.process_data no_tenant_inventory hardware_frame = Raises KeyError.
Proof.
  split; [|split; [|split; [|split]]].
  - destruct (@legacy_process_data_outcome
                decoders titles inventory hardware_frame eq_refl eq_refl)
      as (_ & Hrest).
    destruct (Hrest eq_refl) as (_ & _ & _ & Hsaved).
    assert (Hrows : rows inventory <> []).
    { unfold inventory. cbn [rows]. discriminate. }
    destruct (Hsaved eq_refl Hrows)
      as (data & soft & vuln & ws_main & ws_software & ws_vuln
          & E & Hmap & _ & _ & Hcells & _).
    exists ws_main, ws_software, ws_vuln. split; [exact E|].
    rewrite Hcells. unfold Legacy.main_lines.
    change (List.length (?l :: ?m)) with (S (List.length m)).
    rewrite length_map, <- (length_map Legacy.p_merged data), Hmap.
    reflexivity.
  - destruct (@legacy_process_data_outcome
                decoders titles inventory short_hardware eq_refl eq_refl)
      as (Hmissing & _).
    apply Hmissing. vm_compute. discriminate.
  - destruct (@legacy_process_data_outcome
                decoders titles
                {| columns := ["tenantName"; "os"]; rows := rows inventory |}
                hardware_frame eq_refl eq_refl) as (_ & Hrest).
    destruct (Hrest eq_refl) as (Hkey & _).
    exact (Hkey eq_refl).
  - destruct (@legacy_process_data_outcome
                decoders titles
                {| columns := inventory_columns; rows := [] |}
                hardware_frame eq_refl eq_refl) as (_ & Hrest).
    destruct (Hrest eq_refl) as (_ & Hvalue & _).
    exact (Hvalue eq_refl eq_refl eq_refl).
  - destruct (@legacy_process_data_outcome
                decoders titles no_tenant_inventory hardware_frame
                eq_refl eq_refl)
      as (_ & Hrest).
    destruct (Hrest eq_refl) as (_ & _ & Hkey & _).
    refine (Hkey eq_refl (or_intror _) eq_refl).
    unfold no_tenant_inventory, inventory. cbn [rows]. discriminate.
Defined.

End LegacyExamples.
